(** * DannyahIA: profile-dashboard aggregators, verified against their source

    A shallow embedding of the aggregation code of the repository:

    - [CareerTimelineGenerator._calculate_total_experience]
      (src/generators/career_timeline_generator.py),
    - [MetricsProcessor.calculate_daily_stats], [calculate_monthly_stats] and
      [calculate_activity_streak] (src/processors/metrics_processor.py),
    - [RankingsProcessor.rank_by_*] (src/processors/rankings_processor.py),
    - the chart loop of [main] (src/scripts/generate_complete_dashboard.py),
    - [ActivityCalendarGenerator.generate_activity_calendar]
      (src/generators/activity_calendar_generator.py).

    Python values are modelled as the code has them: [int] as [Z], [str] as
    [string] (the bytes of the UTF-8 text), a [dict] of the collector as a
    record (a key read with [d[k]] is a field, a key read with
    [d.get(k, default)] an optional field), a [dict] used as a map as a
    [gmap], a raised exception as the [Raise] case of [result].  The wall
    clock is an explicit argument of every function that reads it
    ([datetime.now()]: one reading for one call of the function). *)

From Stdlib Require Import ZArith List Bool Ascii String Lia.
From Stdlib Require Import Sorting.Sorted Sorting.Permutation.
From stdpp Require Import gmap strings list.

Import ListNotations.
Local Open Scope string_scope.
Local Open Scope list_scope.
Local Open Scope Z_scope.

(* ===================================================================== *)
(** * Part I: the program                                                 *)
(* ===================================================================== *)

(** ** Exceptions *)

Inductive exn : Type :=
| ValueError      (* malformed date text, field out of range *)
| TypeError       (* ordering an offset-naive against an offset-aware datetime *)
| OverflowError   (* a date before year 1 *)
| IndexError.     (* an index past the end of a list *)

Inductive result (A : Type) : Type :=
| Ok (a : A)
| Raise (e : exn).
Arguments Ok {A} a.
Arguments Raise {A} e.

Definition bind {A B : Type} (r : result A) (k : A -> result B) : result B :=
  match r with
  | Ok a => k a
  | Raise e => Raise e
  end.

Notation "'let*' x ':=' r 'in' k" := (bind r (fun x => k))
  (at level 10, x name, r at level 100, k at level 200).

(** [[f(x) for x in l]] where [f] may raise: the first exception wins. *)
Fixpoint map_result {A B : Type} (f : A -> result B) (l : list A) : result (list B) :=
  match l with
  | [] => Ok []
  | x :: l' =>
      let* y := f x in
      let* ys := map_result f l' in
      Ok (y :: ys)
  end.

(** [[x for x in l if p(x)]] where [p] may raise. *)
Fixpoint filter_result {A : Type} (p : A -> result bool) (l : list A) : result (list A) :=
  match l with
  | [] => Ok []
  | x :: l' =>
      let* b := p x in
      let* ys := filter_result p l' in
      Ok (if b then x :: ys else ys)
  end.

(** ** Python built-ins on lists and strings *)

Section PySort.
Context {A : Type}.
(** [before x y]: [x] may stand before [y] in the sorted list. *)
Variable before : A -> A -> bool.

Fixpoint insert_sorted (x : A) (l : list A) : list A :=
  match l with
  | [] => [x]
  | y :: l' => if before x y then x :: y :: l' else y :: insert_sorted x l'
  end.

(** A stable sort: elements that compare equal keep their input order, as
    [list.sort] and [sorted] guarantee. *)
Definition py_sort (l : list A) : list A := foldr insert_sorted [] l.
End PySort.

(** [l.sort(key=k, reverse=True)] over integer keys: descending and still
    stable. *)
Definition sort_by_key_desc {A : Type} (key : A -> Z) : list A -> list A :=
  py_sort (fun x y => key y <=? key x).

(** [l[:limit]]: a negative stop counts from the end of the list. *)
Definition slice_to {A : Type} (limit : Z) (l : list A) : list A :=
  if 0 <=? limit then take (Z.to_nat limit) l
  else take (Z.to_nat (Z.of_nat (length l) + limit)) l.

Definition digit_char (d : Z) : ascii := ascii_of_N (Z.to_N (48 + d)).

Fixpoint digits_of (fuel : nat) (n : Z) (acc : string) : string :=
  match fuel with
  | O => acc
  | S fuel' =>
      let acc' := String (digit_char (n mod 10)) acc in
      if n <? 10 then acc' else digits_of fuel' (n / 10) acc'
  end.

(** [str(n)] for an [int]. *)
Definition str_int (n : Z) : string :=
  if n <? 0 then "-" +:+ digits_of (S (Z.to_nat (Z.log2 (- n)))) (- n) ""
  else digits_of (S (Z.to_nat (Z.log2 n))) n "".

Fixpoint zeros (n : nat) (s : string) : string :=
  match n with
  | O => s
  | S n' => String "0" (zeros n' s)
  end.

(** [f"{n:0wd}"] for a non-negative [n]: zeros on the left up to width [w]. *)
Definition zero_pad (w : nat) (s : string) : string :=
  zeros (w - String.length s) s.

Definition lower_char (c : ascii) : ascii :=
  let n := N_of_ascii c in
  if ((65 <=? n) && (n <=? 90))%N then ascii_of_N (n + 32) else c.

(** [s.lower()], on the ASCII letters (the only ones that can produce the
    words the program compares with). *)
Fixpoint lower (s : string) : string :=
  match s with
  | EmptyString => EmptyString
  | String c s' => String (lower_char c) (lower s')
  end.

(** [" ".join(parts)] and the like. *)
Fixpoint join (sep : string) (parts : list string) : string :=
  match parts with
  | [] => ""
  | [p] => p
  | p :: rest => p +:+ sep +:+ join sep rest
  end.

(** ** Python's [datetime] module, as far as the program uses it *)

Module PyDatetime.

Record date : Type := Date { year : Z; month : Z; day : Z }.

(** A [datetime]: its calendar date, the microseconds since midnight, and
    [tzinfo] as the UTC offset in seconds ([None] for an offset-naive
    value). *)
Record datetime : Type :=
  DateTime { dt_date : date; dt_micro : Z; tzinfo : option Z }.

Definition day_micro : Z := 86400000000.

Definition is_leap (y : Z) : bool :=
  (y mod 4 =? 0) && (negb (y mod 100 =? 0) || (y mod 400 =? 0)).

Definition days_in_month (y m : Z) : Z :=
  if m =? 2 then (if is_leap y then 29 else 28)
  else if (m =? 4) || (m =? 6) || (m =? 9) || (m =? 11) then 30
  else 31.

Definition days_before_year (y : Z) : Z :=
  let p := y - 1 in p * 365 + p / 4 - p / 100 + p / 400.

Fixpoint days_before_month_aux (y : Z) (m : nat) : Z :=
  match m with
  | O => 0
  | S m' => days_before_month_aux y m' + days_in_month y (Z.of_nat m)
  end.

Definition days_before_month (y m : Z) : Z :=
  days_before_month_aux y (Z.to_nat (m - 1)).

(** [date.toordinal()]: 1 for 0001-01-01. *)
Definition toordinal (d : date) : Z :=
  days_before_year (year d) + days_before_month (year d) (month d) + day d.

(** [(a - b).days] for two dates. *)
Definition date_diff_days (a b : date) : Z := toordinal a - toordinal b.

Definition valid_date (d : date) : bool :=
  (1 <=? year d) && (year d <=? 9999) && (1 <=? month d) && (month d <=? 12)
  && (1 <=? day d) && (day d <=? days_in_month (year d) (month d)).

Definition lex (c1 c2 : comparison) : comparison :=
  match c1 with
  | Eq => c2
  | _ => c1
  end.

(** Dates compare as the tuples (year, month, day). *)
Definition date_compare (a b : date) : comparison :=
  lex (year a ?= year b) (lex (month a ?= month b) (day a ?= day b)).

Definition date_leb (a b : date) : bool :=
  match date_compare a b with
  | Gt => false
  | _ => true
  end.

(** Two offset-naive datetimes compare field by field. *)
Definition naive_compare (a b : datetime) : comparison :=
  lex (date_compare (dt_date a) (dt_date b)) (dt_micro a ?= dt_micro b).

Definition naive_leb (a b : datetime) : bool :=
  match naive_compare a b with
  | Gt => false
  | _ => true
  end.

Definition naive_ltb (a b : datetime) : bool :=
  match naive_compare a b with
  | Lt => true
  | _ => false
  end.

(** [max(a, b)] on naive datetimes: the first argument wins a tie. *)
Definition naive_max (a b : datetime) : datetime :=
  if naive_ltb a b then b else a.

(** The instant of an offset-aware datetime, in microseconds of UTC. *)
Definition utc_micros (t : datetime) : Z :=
  toordinal (dt_date t) * day_micro + dt_micro t
  - match tzinfo t with
    | Some off => off * 1000000
    | None => 0
    end.

(** [a >= b]: an offset-naive and an offset-aware datetime cannot be
    ordered ([TypeError]); two aware ones compare as instants. *)
Definition datetime_ge (a b : datetime) : result bool :=
  match tzinfo a, tzinfo b with
  | None, None => Ok (naive_leb b a)
  | Some _, Some _ => Ok (utc_micros b <=? utc_micros a)
  | _, _ => Raise TypeError
  end.

(** [t.replace(tzinfo=None)]. *)
Definition drop_tzinfo (t : datetime) : datetime :=
  DateTime (dt_date t) (dt_micro t) None.

(** [(a - b).days]: an offset-naive and an offset-aware datetime cannot
    be subtracted ([TypeError]); two naive ones differ by their fields,
    two aware ones by their instants; a [timedelta] keeps its days as the
    floor of the difference. *)
Definition datetime_diff_days (a b : datetime) : result Z :=
  match tzinfo a, tzinfo b with
  | None, None =>
      Ok (((toordinal (dt_date a) * day_micro + dt_micro a)
           - (toordinal (dt_date b) * day_micro + dt_micro b)) / day_micro)
  | Some _, Some _ => Ok ((utc_micros a - utc_micros b) / day_micro)
  | _, _ => Raise TypeError
  end.

(** [date.fromordinal(n)], as the library computes it: whole cycles of
    400, 100, 4 and 1 years, then the month and the day. *)
Definition fromordinal (ordinal : Z) : date :=
  let n := ordinal - 1 in
  let n400 := n / 146097 in
  let n := n mod 146097 in
  let n100 := n / 36524 in
  let n := n mod 36524 in
  let n4 := n / 1461 in
  let n := n mod 1461 in
  let n1 := n / 365 in
  let n := n mod 365 in
  let y := n400 * 400 + 1 + n100 * 100 + n4 * 4 + n1 in
  if (n1 =? 4) || (n100 =? 4) then Date (y - 1) 12 31
  else
    let m := Z.shiftr (n + 50) 5 in
    let preceding := days_before_month y m in
    if n <? preceding then
      Date y (m - 1) (n - (preceding - days_in_month y (m - 1)) + 1)
    else Date y m (n - preceding + 1).

(** The calendar date of an instant in UTC:
    [t.astimezone(timezone.utc).date()] for an offset-aware [t]. *)
Definition utc_date (t : datetime) : date :=
  fromordinal (utc_micros t / day_micro).

(** *** Reading text *)

Definition digit_val (c : ascii) : option Z :=
  let n := Z.of_N (N_of_ascii c) in
  if (48 <=? n) && (n <=? 57) then Some (n - 48) else None.

(** Exactly [n] decimal digits. *)
Fixpoint take_digits (n : nat) (s : list ascii) (acc : Z) : option (Z * list ascii) :=
  match n with
  | O => Some (acc, s)
  | S n' =>
      match s with
      | c :: s' =>
          match digit_val c with
          | Some d => take_digits n' s' (acc * 10 + d)
          | None => None
          end
      | [] => None
      end
  end.

(** One digit from 1 to 9. *)
Definition nonzero_digit (s : list ascii) : option (Z * list ascii) :=
  match s with
  | c :: rest =>
      match digit_val c with
      | Some d => if 1 <=? d then Some (d, rest) else None
      | None => None
      end
  | [] => None
  end.

(** The directive [%m] of [strptime]: the pattern [1[0-2]|0[1-9]|[1-9]],
    its alternatives tried in this order on the text that follows. *)
Definition strptime_month (s : list ascii) : option (Z * list ascii) :=
  match s with
  | c1 :: c2 :: rest =>
      match digit_val c1, digit_val c2 with
      | Some 1, Some d2 => if d2 <=? 2 then Some (10 + d2, rest) else nonzero_digit s
      | Some 0, Some d2 => if 1 <=? d2 then Some (d2, rest) else None
      | _, _ => nonzero_digit s
      end
  | _ => nonzero_digit s
  end.

(** [datetime.strptime(s, "%Y-%m")]: four digits, a dash, a month, and
    nothing after it; the result is midnight of the month's first day.
    The digits read are the ASCII ones: on a text of ASCII characters the
    result is the library's, which also reads the decimal digits of other
    scripts; the properties below rest on a [ValueError] for ASCII texts
    only. *)
Definition strptime_year_month (s : string) : result datetime :=
  match take_digits 4 (list_ascii_of_string s) 0 with
  | Some (y, c :: rest) =>
      if Ascii.eqb c "-" then
        match strptime_month rest with
        | Some (m, []) =>
            if 1 <=? y then Ok (DateTime (Date y m 1) 0 None) else Raise ValueError
        | _ => Raise ValueError
        end
      else Raise ValueError
  | _ => Raise ValueError
  end.

(** [datetime.fromisoformat], on the texts that [datetime.isoformat]
    writes (which is what the collector stores), the date alone included:
    YYYY-MM-DD, then possibly T (or a blank) and HH:MM:SS with an optional
    fraction of three or six digits, then possibly an offset +HH:MM or
    -HH:MM.  On these texts the result is the library's.  The library reads
    other texts as well (a time without seconds, another separator, an
    offset with seconds, and more from Python 3.11 on); the [ValueError] of
    this model for a text outside the grammar above is the library's only
    when the text has fewer than seven characters, which no version reads,
    and the properties below rest on a [ValueError] for such texts only. *)

Definition expect (c : ascii) (s : list ascii) : option (list ascii) :=
  match s with
  | c' :: rest => if Ascii.eqb c c' then Some rest else None
  | [] => None
  end.

Definition parse_date (s : list ascii) : option (date * list ascii) :=
  '(y, s) ← take_digits 4 s 0;
  s ← expect "-" s;
  '(m, s) ← take_digits 2 s 0;
  s ← expect "-" s;
  '(d, s) ← take_digits 2 s 0;
  if valid_date (Date y m d) then Some (Date y m d, s) else None.

(** The fraction of a second, in microseconds. *)
Definition parse_fraction (s : list ascii) : option (Z * list ascii) :=
  match expect "." s with
  | None => Some (0, s)
  | Some s' =>
      match take_digits 6 s' 0 with
      | Some r => Some r
      | None => '(ms, rest) ← take_digits 3 s' 0; Some (ms * 1000, rest)
      end
  end.

(** The time of day, in microseconds since midnight. *)
Definition parse_time (s : list ascii) : option (Z * list ascii) :=
  '(h, s) ← take_digits 2 s 0;
  s ← expect ":" s;
  '(mi, s) ← take_digits 2 s 0;
  s ← expect ":" s;
  '(sec, s) ← take_digits 2 s 0;
  '(us, s) ← parse_fraction s;
  if (h <=? 23) && (mi <=? 59) && (sec <=? 59)
  then Some (((h * 60 + mi) * 60 + sec) * 1000000 + us, s)
  else None.

(** The UTC offset, in seconds. *)
Definition parse_offset (s : list ascii) : option (Z * list ascii) :=
  match s with
  | sign :: s =>
      '(h, s) ← take_digits 2 s 0;
      s ← expect ":" s;
      '(mi, s) ← take_digits 2 s 0;
      if (h <=? 23) && (mi <=? 59) then
        if Ascii.eqb sign "+" then Some ((h * 60 + mi) * 60, s)
        else if Ascii.eqb sign "-" then Some (- ((h * 60 + mi) * 60), s)
        else None
      else None
  | [] => None
  end.

Definition parse_isoformat (s : list ascii) : option datetime :=
  '(d, s) ← parse_date s;
  match s with
  | [] => Some (DateTime d 0 None)
  | sep :: s =>
      if Ascii.eqb sep "T" || Ascii.eqb sep " " then
        '(us, s) ← parse_time s;
        match s with
        | [] => Some (DateTime d us None)
        | _ =>
            '(off, s) ← parse_offset s;
            match s with
            | [] => Some (DateTime d us (Some off))
            | _ => None
            end
        end
      else None
  end.

Definition fromisoformat (s : string) : result datetime :=
  match parse_isoformat (list_ascii_of_string s) with
  | Some t => Ok t
  | None => Raise ValueError
  end.

(** [d.isoformat()] for a date: YYYY-MM-DD. *)
Definition date_isoformat (d : date) : string :=
  zero_pad 4 (str_int (year d)) +:+ "-" +:+ zero_pad 2 (str_int (month d))
  +:+ "-" +:+ zero_pad 2 (str_int (day d)).

(** The directives of [strftime]: %Y, which the C library writes without
    padding, and %m and %d, two digits each. *)
Definition year_text (t : datetime) : string := str_int (year (dt_date t)).
Definition month_2 (t : datetime) : string := zero_pad 2 (str_int (month (dt_date t))).
Definition day_2 (t : datetime) : string := zero_pad 2 (str_int (day (dt_date t))).

(** [datetime.now(timezone.utc)], from the reading of the UTC clock. *)
Definition now_utc (clock : datetime) : datetime :=
  DateTime (dt_date clock) (dt_micro clock) (Some 0).

(** *** [dateutil.relativedelta] *)

Definition month_index (d : date) : Z := year d * 12 + (month d - 1).

(** [t + relativedelta(years=.., months=..)] for [n] months in all: the
    year and month move by [n] months and the day is cut down to the length
    of the month reached. *)
Definition add_months (t : datetime) (n : Z) : datetime :=
  let i := month_index (dt_date t) + n in
  let y := i / 12 in
  let m := i mod 12 + 1 in
  DateTime (Date y m (Z.min (day (dt_date t)) (days_in_month y m)))
           (dt_micro t) (tzinfo t).

Record relativedelta : Type := RelativeDelta { years : Z; months : Z }.

(** [relativedelta._set_months]: more than eleven months carry into years,
    both fields keeping the sign of the total. *)
Definition set_months (total : Z) : relativedelta :=
  if 11 <? Z.abs total then
    let s := Z.sgn total in
    RelativeDelta ((total * s / 12) * s) ((total * s mod 12) * s)
  else RelativeDelta 0 total.

(** The whole months from [t2] to [t1]: the difference of the two month
    numbers, moved one month back towards zero when [t2] shifted by that
    many months would overshoot [t1].  (The library loops on the overshoot
    test; one step always ends the loop, as the shifted date then lies in
    the month next to the one of [t1].) *)
Definition whole_months (t1 t2 : datetime) : Z :=
  let n := month_index (dt_date t1) - month_index (dt_date t2) in
  if naive_ltb t1 t2 then
    if naive_ltb (add_months t2 n) t1 then n + 1 else n
  else
    if naive_ltb t1 (add_months t2 n) then n - 1 else n.

(** [relativedelta(t1, t2)], its [years] and [months]. *)
Definition relativedelta_between (t1 t2 : datetime) : relativedelta :=
  set_months (whole_months t1 t2).

End PyDatetime.

(** ** The collected records

    The keys of the collector's dictionaries that the processors read. *)

Record repo : Type := Repo {
  repo_name : string;
  full_name : string;
  html_url : option string;      (* read with .get('html_url', '') *)
  language : option string;      (* None for a repository without one *)
  stars : Z;
  forks : Z;
  description : option string;
  pushed_at : option string;     (* None for a repository never pushed to *)
  is_private : bool
}.

Record commit : Type := Commit { commit_repo : string; commit_date : string }.

Record pull_request : Type := PullRequest { pr_repo : string; pr_created_at : string }.

Record issue : Type := Issue { issue_repo : string; issue_created_at : string }.

(** ** career_timeline_generator.py *)

Module CareerTimelineGenerator.
Import PyDatetime.

(** A career entry, the keys [_calculate_total_experience] reads; [None]
    is a key the entry does not have. *)
Record entry : Type := Entry {
  entry_type : option string;
  date_start : option string;
  date_end : option string
}.

Definition period : Type := datetime * datetime.

(** [_parse_date]; [now] is what [datetime.now()] returns. *)
Definition _parse_date (now : datetime) (date_str : string) : result datetime :=
  if String.eqb (lower date_str) "present" then Ok now
  else strptime_year_month date_str.

Definition is_work (e : entry) : bool :=
  match entry_type e with
  | Some t => String.eqb t "work"
  | None => false
  end.

(** The first loop: one period per entry of type work. *)
Fixpoint collect_periods (now : datetime) (entries : list entry) : result (list period) :=
  match entries with
  | [] => Ok []
  | e :: rest =>
      if is_work e then
        let* start := _parse_date now (default "" (date_start e)) in
        let* end_ := _parse_date now (default "present" (date_end e)) in
        let* periods := collect_periods now rest in
        Ok ((start, end_) :: periods)
      else collect_periods now rest
  end.

(** [periods.sort(key=lambda x: x[0])]. *)
Definition sort_periods : list period -> list period :=
  py_sort (fun x y => naive_leb (fst x) (fst y)).

(** The merge loop; [merged] is [done ++ [last]]. *)
Fixpoint merge_loop (done : list period) (last : period) (rest : list period)
  : list period :=
  match rest with
  | [] => done ++ [last]
  | (current_start, current_end) :: rest' =>
      let (last_start, last_end) := last in
      if naive_leb current_start last_end then
        merge_loop done (last_start, naive_max last_end current_end) rest'
      else
        merge_loop (done ++ [last]) (current_start, current_end) rest'
  end.

Definition merge_periods (periods : list period) : list period :=
  match periods with
  | [] => []
  | first :: rest => merge_loop [] first rest
  end.

Definition period_months (p : period) : Z :=
  let delta := relativedelta_between (snd p) (fst p) in
  years delta * 12 + months delta.

Definition total_months (merged : list period) : Z :=
  foldl (fun total p => total + period_months p) 0 merged.

(** Total months to text. *)
Definition format_experience (total : Z) : string :=
  let years := total / 12 in
  let months := total mod 12 in
  let parts :=
    (if 0 <? years then [str_int years +:+ "y"] else [])
    ++ (if 0 <? months then [str_int months +:+ "m"] else []) in
  match parts with
  | [] => "&lt; 1m"
  | _ => join " " parts
  end.

Definition merged_months (periods : list period) : Z :=
  total_months (merge_periods (sort_periods periods)).

Definition _calculate_total_experience (now : datetime) (entries : list entry)
  : result string :=
  match entries with
  | [] => Ok "0y"
  | _ =>
      let* periods := collect_periods now entries in
      match periods with
      | [] => Ok "0y"
      | _ => Ok (format_experience (merged_months periods))
      end
  end.

(** *** What the properties speak of *)

(** Each interval's months taken separately, summed. *)
Definition naive_months (periods : list period) : Z :=
  foldr (fun p total => period_months p + total) 0 periods.

(** A start as [strptime] makes it: midnight of a month's first day. *)
Definition month_start (t : datetime) : Prop :=
  1 <= month (dt_date t) <= 12 /\ day (dt_date t) = 1 /\ dt_micro t = 0.

(** A clock reading: a positive day, a time of day not before midnight. *)
Definition clock_value (t : datetime) : Prop :=
  1 <= month (dt_date t) <= 12 /\ 1 <= day (dt_date t) /\ 0 <= dt_micro t.

(** A work interval as the career file gives it: from the start of a
    month to a moment that is not before it. *)
Definition well_formed (p : period) : Prop :=
  month_start (fst p) /\ clock_value (snd p) /\ naive_leb (fst p) (snd p) = true.

(** Three readings of "the two intervals overlap". *)

(** They share a moment: the later start is not after the earlier end.
    This is the test the merge loop applies. *)
Definition touch (p q : period) : Prop :=
  naive_leb (naive_max (fst p) (fst q)) (snd p) = true
  /\ naive_leb (naive_max (fst p) (fst q)) (snd q) = true.

(** They share a stretch of time: the later start is before the earlier
    end. *)
Definition overlap_in_time (p q : period) : Prop :=
  naive_ltb (naive_max (fst p) (fst q)) (snd p) = true
  /\ naive_ltb (naive_max (fst p) (fst q)) (snd q) = true.

(** They share a whole calendar month: the later start lies in a month
    before the month of the earlier end. *)
Definition share_month (p q : period) : Prop :=
  Z.max (month_index (dt_date (fst p))) (month_index (dt_date (fst q)))
  < Z.min (month_index (dt_date (snd p))) (month_index (dt_date (snd q))).

(** No two intervals of the list, at different places, are related. *)
Definition no_two (R : period -> period -> Prop) (periods : list period) : Prop :=
  ForallOrdPairs (fun p q => ~ R p q) periods.

(** The same on month numbers. *)
Definition share (a b : Z * Z) : Prop :=
  Z.max (fst a) (fst b) < Z.min (snd a) (snd b).

(** The month numbers an interval runs between. *)
Definition span (p : period) : Z * Z :=
  (month_index (dt_date (fst p)), month_index (dt_date (snd p))).

(** The months counted twice when the intervals [rest], taken in order,
    follow intervals that reach up to the month [reach]. *)
Fixpoint counted_twice (reach : Z) (rest : list (Z * Z)) : Z :=
  match rest with
  | [] => 0
  | (s, e) :: rest' =>
      Z.max 0 (Z.min reach e - s) + counted_twice (Z.max reach e) rest'
  end.

(** *** Scenarios *)

Definition job_a : entry := Entry (Some "work") (Some "2020-01") (Some "2021-12").
Definition job_b : entry := Entry (Some "work") (Some "2021-06") (Some "2022-06").

Definition at_month (y m : Z) : datetime := DateTime (Date y m 1) 0 None.

(** Two jobs, the second starting in the month the first ends in. *)
Definition back_to_back : list period :=
  [(at_month 2020 1, at_month 2020 6); (at_month 2020 6, at_month 2020 12)].

(** A job that runs to the present (the 15th of November 2026, at noon)
    and one that started that November. *)
Definition mid_november : datetime := DateTime (Date 2026 11 15) 43200000000 None.
Definition into_the_present : list period :=
  [(at_month 2026 10, mid_november); (at_month 2026 11, at_month 2026 12)].

(** A job written with its end before its start, and an ordinary one. *)
Definition end_before_start : list period :=
  [(at_month 2020 1, at_month 2019 1); (at_month 2019 6, at_month 2020 6)].

(** A job that runs to the present. *)
Definition still_running : entry := Entry (Some "work") (Some "2020-01") None.

(** A job that starts and ends in the same month. *)
Definition one_month_job : entry := Entry (Some "work") (Some "2020-01") (Some "2020-01").

End CareerTimelineGenerator.

(** ** metrics_processor.py *)

Module MetricsProcessor.
Import PyDatetime.

#[global] Instance date_eq_dec : EqDecision date.
Proof. solve_decision. Defined.

(** *** calculate_daily_stats *)

Record daily_stats : Type := DailyStats {
  commits_per_day : list (string * Z);
  (** the quotient the code rounds to two decimals: commits over days *)
  average_commits : Z * Z;
  total_days_active : Z
}.

(** [datetime.fromisoformat(commit['date']).date().isoformat()]. *)
Definition date_key (c : commit) : result string :=
  let* t := fromisoformat (commit_date c) in
  Ok (date_isoformat (dt_date t)).

(** [commits_by_date[date] += 1] on a [defaultdict(int)]. *)
Definition add_one (key : string) (counts : gmap string Z) : gmap string Z :=
  <[key := default 0 (counts !! key) + 1]> counts.

Fixpoint count_by_date (commits : list commit) (commits_by_date : gmap string Z)
  : result (gmap string Z) :=
  match commits with
  | [] => Ok commits_by_date
  | c :: rest =>
      let* date := date_key c in
      count_by_date rest (add_one date commits_by_date)
  end.

(** Items of the dictionary compare as tuples: by date text, then count. *)
Definition item_leb (x y : string * Z) : bool :=
  String.ltb (fst x) (fst y) || (String.eqb (fst x) (fst y) && (snd x <=? snd y)).

Definition calculate_daily_stats (commits : list commit) : result daily_stats :=
  let* commits_by_date := count_by_date commits ∅ in
  let daily_commits := py_sort item_leb (map_to_list commits_by_date) in
  let days := Z.of_nat (size commits_by_date) in
  let total_days := if days =? 0 then 1 else days in
  Ok (DailyStats daily_commits (Z.of_nat (length commits), total_days) days).

(** *** calculate_monthly_stats *)

Record monthly_stats : Type := MonthlyStats {
  commits_this_month : Z;
  prs_this_month : Z;
  issues_this_month : Z;
  month_label : string
}.

(** [datetime.fromisoformat(stamp) >= month_start]. *)
Definition in_month (month_start : datetime) (stamp : string) : result bool :=
  let* t := fromisoformat stamp in
  datetime_ge t month_start.

(** [clock] is the reading of the UTC clock. *)
Definition calculate_monthly_stats (clock : datetime) (commits : list commit)
    (prs : list pull_request) (issues : list issue) : result monthly_stats :=
  let now := now_utc clock in
  let month_start :=
    DateTime (Date (year (dt_date now)) (month (dt_date now)) 1) 0 (tzinfo now) in
  let* commits_this_month :=
    filter_result (fun c => in_month month_start (commit_date c)) commits in
  let* prs_this_month :=
    filter_result (fun pr => in_month month_start (pr_created_at pr)) prs in
  let* issues_this_month :=
    filter_result (fun i => in_month month_start (issue_created_at i)) issues in
  Ok (MonthlyStats (Z.of_nat (length commits_this_month))
                   (Z.of_nat (length prs_this_month))
                   (Z.of_nat (length issues_this_month))
                   (year_text now +:+ "-" +:+ month_2 now)).

(** Every timestamp the monthly statistics read. *)
Definition timestamps (commits : list commit) (prs : list pull_request)
    (issues : list issue) : list string :=
  map commit_date commits ++ map pr_created_at prs ++ map issue_created_at issues.

(** *** calculate_activity_streak *)

Record streak : Type := Streak { current : Z; longest : Z }.

Definition commit_day (c : commit) : result date :=
  let* t := fromisoformat (commit_date c) in
  Ok (dt_date t).

(** [(unique_dates[i] - unique_dates[i-1]).days] for i = 1, 2, ...: the
    differences both loops walk over, one backwards and one forwards. *)
Fixpoint day_gaps (prev : date) (rest : list date) : list Z :=
  match rest with
  | [] => []
  | d :: rest' => date_diff_days d prev :: day_gaps d rest'
  end.

Definition gaps (unique_dates : list date) : list Z :=
  match unique_dates with
  | [] => []
  | d :: rest => day_gaps d rest
  end.

(** The backward loop: one more day per difference of one day, up to the
    first other difference ([break]). *)
Fixpoint count_back (gaps_backwards : list Z) (current_streak : Z) : Z :=
  match gaps_backwards with
  | [] => current_streak
  | diff :: rest =>
      if diff =? 1 then count_back rest (current_streak + 1) else current_streak
  end.

(** One step of the forward loop on (temp_streak, longest_streak). *)
Definition longest_step (st : Z * Z) (diff : Z) : Z * Z :=
  let (temp_streak, longest_streak) := st in
  if diff =? 1 then (temp_streak + 1, Z.max longest_streak (temp_streak + 1))
  else (1, longest_streak).

(** [sorted(set(dates))]. *)
Definition sorted_set (dates : list date) : list date :=
  py_sort date_leb (remove_dups dates).

(** [today] is [datetime.now(timezone.utc).date()]. *)
Definition calculate_activity_streak (today : date) (commits : list commit)
  : result streak :=
  match commits with
  | [] => Ok (Streak 0 0)
  | _ =>
      let* days := map_result commit_day commits in
      let dates := py_sort date_leb days in
      let unique_dates := sorted_set dates in
      let current_streak :=
        match last unique_dates with
        | Some latest =>
            if date_diff_days today latest <=? 1
            then count_back (rev (gaps unique_dates)) 1
            else 0
        | None => 0
        end in
      let (temp_streak, longest_streak) :=
        foldl longest_step (1, 0) (gaps unique_dates) in
      Ok (Streak current_streak (Z.max longest_streak temp_streak))
  end.

(** *** What the properties speak of *)

(** The commits the program files under the date text [key]. *)
Definition commits_on (key : string) (commits : list commit) : Z :=
  Z.of_nat (length (List.filter
                      (fun c => match date_key c with
                                | Ok k => String.eqb k key
                                | Raise _ => false
                                end) commits)).

(** The commits whose timestamp is written with the calendar date [d]:
    the date of the timestamp as it is read, at its own offset. *)
Definition commits_written_on (d : date) (commits : list commit) : Z :=
  Z.of_nat (length (List.filter
                      (fun c => match fromisoformat (commit_date c) with
                                | Ok t => bool_decide (dt_date t = d)
                                | Raise _ => false
                                end) commits)).

(** [latest] is the most recent active date: the date of a commit, and no
    commit has a later one. *)
Definition most_recent (latest : date) (commits : list commit) : Prop :=
  (exists c, In c commits /\ commit_day c = Ok latest)
  /\ forall c d, In c commits -> commit_day c = Ok d -> date_leb d latest = true.

(** [c] is dated [d]. *)
Definition dated (c : commit) (d : date) : Prop := commit_day c = Ok d.

(** *** Scenarios *)

Definition four_dates : list date :=
  [Date 2024 1 1; Date 2024 1 2; Date 2024 1 3; Date 2024 1 10].

Definition four_days : list commit :=
  [Commit "site" "2024-01-01T09:15:00+00:00";
   Commit "site" "2024-01-02T18:40:12+00:00";
   Commit "site" "2024-01-03T07:05:30+00:00";
   Commit "site" "2024-01-10T11:00:00+00:00"].

(** The same instant, written at UTC-5 and at UTC. *)
Definition late_evening : commit := Commit "site" "2024-01-01T23:30:00-05:00".
Definition same_instant_utc : commit := Commit "site" "2024-01-02T04:30:00+00:00".

End MetricsProcessor.

(** ** rankings_processor.py *)

Module RankingsProcessor.
Import PyDatetime.

Record breakdown : Type := Breakdown { commits : Z; prs : Z; issues : Z }.

Record activity_entry : Type := ActivityEntry {
  ae_name : string;
  ae_full_name : string;
  ae_html_url : string;
  ae_language : option string;
  score : Z;
  ae_breakdown : breakdown;
  ae_stars : Z;
  ae_private : bool
}.

Record stars_entry : Type := StarsEntry {
  se_name : string;
  se_full_name : string;
  se_language : option string;
  se_stars : Z;
  se_forks : Z;
  se_description : option string
}.

Record recent_entry : Type := RecentEntry {
  re_name : string;
  re_full_name : string;
  re_language : option string;
  last_push : string;
  days_ago : Z;
  re_private : bool
}.

Record commits_entry : Type := CommitsEntry {
  ce_name : string;
  ce_full_name : string;
  ce_language : option string;
  ce_commits : Z;
  ce_private : bool
}.

(** [activity_scores[name]] on a [defaultdict] of zero counts. *)
Definition scores_of (activity_scores : gmap string breakdown) (name : string)
  : breakdown :=
  default (Breakdown 0 0 0) (activity_scores !! name).

Definition count_commit (m : gmap string breakdown) (c : commit) :=
  let s := scores_of m (commit_repo c) in
  <[commit_repo c := Breakdown (commits s + 1) (prs s) (issues s)]> m.

Definition count_pr (m : gmap string breakdown) (pr : pull_request) :=
  let s := scores_of m (pr_repo pr) in
  <[pr_repo pr := Breakdown (commits s) (prs s + 1) (issues s)]> m.

Definition count_issue (m : gmap string breakdown) (i : issue) :=
  let s := scores_of m (issue_repo i) in
  <[issue_repo i := Breakdown (commits s) (prs s) (issues s + 1)]> m.

Definition rank_by_activity (repos : list repo) (commit_list : list commit)
    (pr_list : list pull_request) (issue_list : list issue) (limit : Z)
  : list activity_entry :=
  let activity_scores :=
    foldl count_issue (foldl count_pr (foldl count_commit ∅ commit_list) pr_list)
          issue_list in
  let ranked :=
    omap (fun r =>
            let scores := scores_of activity_scores (repo_name r) in
            let total_score := commits scores + prs scores + issues scores in
            if 0 <? total_score then
              Some (ActivityEntry (repo_name r) (full_name r) (default "" (html_url r))
                                  (language r) total_score scores (stars r) (is_private r))
            else None) repos in
  slice_to limit (sort_by_key_desc score ranked).

Definition rank_by_stars (repos : list repo) (limit : Z) : list stars_entry :=
  let starred :=
    omap (fun r =>
            if 0 <? stars r then
              Some (StarsEntry (repo_name r) (full_name r) (language r) (stars r)
                               (forks r) (description r))
            else None) repos in
  slice_to limit (sort_by_key_desc se_stars starred).

(** [if repo['pushed_at']]: neither [None] nor the empty text. *)
Definition pushed (r : repo) : option string :=
  match pushed_at r with
  | Some stamp => if String.eqb stamp "" then None else Some stamp
  | None => None
  end.

(** The loop of [rank_by_recent_activity]; [clock] is the reading of the
    UTC clock. *)
Fixpoint recent_entries (clock : datetime) (repos : list repo)
  : result (list recent_entry) :=
  match repos with
  | [] => Ok []
  | r :: rest =>
      match pushed r with
      | Some stamp =>
          let* pushed := fromisoformat stamp in
          let now := now_utc clock in
          let (pushed_naive, now_naive) :=
            match tzinfo pushed with
            | Some _ => (drop_tzinfo pushed, drop_tzinfo now)
            | None => (pushed, drop_tzinfo now)
            end in
          let* days_ago := datetime_diff_days now_naive pushed_naive in
          let* recent := recent_entries clock rest in
          Ok (RecentEntry (repo_name r) (full_name r) (language r) stamp
                          days_ago (is_private r)
              :: recent)
      | None => recent_entries clock rest
      end
  end.

(** [recent.sort(key=lambda x: x['last_push'], reverse=True)]: the texts
    compare as texts. *)
Definition sort_recent : list recent_entry -> list recent_entry :=
  py_sort (fun x y => String.leb (last_push y) (last_push x)).

Definition rank_by_recent_activity (clock : datetime) (repos : list repo) (limit : Z)
  : result (list recent_entry) :=
  let* recent := recent_entries clock repos in
  Ok (slice_to limit (sort_recent recent)).

(** [commits_by_repo[commit['repo']] += 1] on a [defaultdict(int)]. *)
Definition count_repo_commit (m : gmap string Z) (c : commit) : gmap string Z :=
  <[commit_repo c := default 0 (m !! commit_repo c) + 1]> m.

Definition rank_by_commits (repos : list repo) (commit_list : list commit) (limit : Z)
  : list commits_entry :=
  let commits_by_repo := foldl count_repo_commit ∅ commit_list in
  let ranked :=
    omap (fun r =>
            let count := default 0 (commits_by_repo !! repo_name r) in
            if 0 <? count then
              Some (CommitsEntry (repo_name r) (full_name r) (language r) count
                                 (is_private r))
            else None) repos in
  slice_to limit (sort_by_key_desc ce_commits ranked).

(** *** What the properties speak of *)

(** Non-increasing in an integer key, every pair of the list. *)
Definition descending {A : Type} (key : A -> Z) (l : list A) : Prop :=
  StronglySorted (fun x y => key y <= key x) l.

(** Non-increasing in the text of the last push. *)
Definition latest_first (l : list recent_entry) : Prop :=
  StronglySorted (fun x y => String.leb (last_push y) (last_push x) = true) l.

(** *** Scenario: two starred repositories, one pushed with an offset in
    its timestamp and one without *)

Definition starred_two : list repo :=
  [Repo "alpha" "me/alpha" None (Some "Python") 5 0 None
        (Some "2024-01-02T04:30:00+00:00") false;
   Repo "beta" "me/beta" None (Some "Go") 12 1 None
        (Some "2024-03-05T10:00:00") false].

Definition two_commits : list commit :=
  [Commit "alpha" "2024-03-01T08:00:00+00:00"; Commit "beta" "2024-03-02T09:30:00+00:00"].

(** A commit whose timestamp carries no offset. *)
Definition naive_commit : commit := Commit "beta" "2024-03-03T10:00:00".

(** The UTC clock reads 2024-03-10, 12:00. *)
Definition march_10 : datetime := DateTime (Date 2024 3 10) 43200000000 None.

End RankingsProcessor.

(** ** generate_complete_dashboard.py *)

Module Dashboard.

Section Main.
(** The state of everything outside the script: the files, above all. *)
Variable World : Type.
(** [Path(p).stat().st_size] when [Path(p).exists()]. *)
Variable file_size : World -> string -> option Z.

(** What calling a chart's generator does: it returns the path of the file
    it wrote, or raises an exception (one that [except Exception] catches)
    with a message. *)
Inductive outcome : Type :=
| Returned (path : string)
| Raised (message : string).

(** An entry of [chart_configs]: name, file name, and the renderer's
    method (found with [getattr]) applied to its arguments and the file
    name. *)
Record chart_config : Type := ChartConfig {
  chart_name : string;
  filename : string;
  generator : World -> outcome * World
}.

(** What the loop prints for a chart, after its name. *)
Inductive report : Type :=
| Generated (size : Z)      (* the check mark and the size *)
| EmptyFile                 (* the cross and Empty file *)
| Failed (message : string) (* the cross and Error, then the traceback *).

Record run : Type := Run {
  world : World;
  charts_generated : list string;
  errors : list string;
  printed : list (string * report)
}.

(** The body of the loop over [chart_configs], with its [try]. *)
Definition chart_step (st : run) (c : chart_config) : run :=
  match generator c (world st) with
  | (Returned path, w) =>
      match file_size w path with
      | Some size =>
          if 0 <? size then
            Run w (charts_generated st ++ [filename c]) (errors st)
                (printed st ++ [(chart_name c, Generated size)])
          else
            Run w (charts_generated st)
                (errors st ++ [chart_name c +:+ ": Empty file generated"])
                (printed st ++ [(chart_name c, EmptyFile)])
      | None =>
          Run w (charts_generated st)
              (errors st ++ [chart_name c +:+ ": Empty file generated"])
              (printed st ++ [(chart_name c, EmptyFile)])
      end
  | (Raised message, w) =>
      Run w (charts_generated st)
          (errors st ++ [chart_name c +:+ ": " +:+ message])
          (printed st ++ [(chart_name c, Failed message)])
  end.

Definition generate_charts (w : World) (chart_configs : list chart_config) : run :=
  foldl chart_step (Run w [] [] []) chart_configs.

(** [return 0 if len(errors) == 0 else 1]. *)
Definition exit_code (r : run) : Z :=
  if (length (errors r) =? 0)%nat then 0 else 1.

(** [main]: it returns 1 at once when data/metrics.json is missing;
    [startup] loads the data and builds the renderers and the list of
    charts, or raises (no [try] around it: the interpreter then ends the
    process with status 1). *)
Definition main (metrics_exists : World -> bool)
    (startup : World -> option (list chart_config * World)) (w : World)
  : Z * option run :=
  if metrics_exists w then
    match startup w with
    | Some (chart_configs, w') =>
        let r := generate_charts w' chart_configs in
        (exit_code r, Some r)
    | None => (1, None)
    end
  else (1, None).

(** *** What the properties speak of *)

(** A chart failed: its generator raised, or the file it named is missing
    or empty. *)
Definition failed (r : report) : bool :=
  match r with
  | Generated _ => false
  | _ => true
  end.

(** What a chart earns when its generator runs in the world [w]. *)
Definition report_of (c : chart_config) (w : World) : report :=
  match generator c w with
  | (Returned path, w') =>
      match file_size w' path with
      | Some size => if 0 <? size then Generated size else EmptyFile
      | None => EmptyFile
      end
  | (Raised message, _) => Failed message
  end.

(** Every chart of the list with what it earns, each generator running in
    the world the charts before it left behind, whatever became of them. *)
Fixpoint outcomes (w : World) (chart_configs : list chart_config)
  : list (chart_config * report) :=
  match chart_configs with
  | [] => []
  | c :: rest => (c, report_of c w) :: outcomes (snd (generator c w)) rest
  end.

(** The line a failed chart adds to [errors]. *)
Definition error_line (o : chart_config * report) : option string :=
  match snd o with
  | Generated _ => None
  | EmptyFile => Some (chart_name (fst o) +:+ ": Empty file generated")
  | Failed message => Some (chart_name (fst o) +:+ ": " +:+ message)
  end.

(** The file name a successful chart adds to [charts_generated]. *)
Definition generated_file (o : chart_config * report) : option string :=
  if failed (snd o) then None else Some (filename (fst o)).

End Main.

(** *** Scenario: three charts, the second one raising *)

Definition files : Type := gmap string Z.

Definition write (path : string) (size : Z) (fs : files) : outcome * files :=
  (Returned path, <[path := size]> fs).

Definition three_charts : list (chart_config files) :=
  [ChartConfig files "Stats Hero" "stats_hero.svg" (write "assets/stats_hero.svg" 2048);
   ChartConfig files "Language Chart" "language_chart.svg"
               (fun fs => (Raised "'languages'", fs));
   ChartConfig files "Career Timeline" "career_timeline.svg"
               (write "assets/career_timeline.svg" 4096)].

End Dashboard.

(** ** Python's [float], as far as the calendar uses it

    A finite binary64 value is kept as a sign and a magnitude
    [mant * 2 ^ expo], the magnitude exactly as IEEE 754 rounds it (to
    nearest, ties to even).  Overflow and values below the normal range are
    left out: the quotients computed here are ratios of commit counts.
    Python raises [OverflowError] for a quotient or an [int] beyond the
    range of binary64; no property below states that a computation with
    floats returns. *)

Module PyFloat.

Record float : Type := Float { negative : bool; mant : Z; expo : Z }.

(** The integer nearest to [n / d], ties to the even one ([0 <= n], [0 < d]). *)
Definition round_half_even (n d : Z) : Z :=
  let q := n / d in
  let r := n mod d in
  if 2 * r <? d then q
  else if d <? 2 * r then q + 1
  else if Z.even q then q else q + 1.

(** [n / (d * 2 ^ e)] as a fraction of integers. *)
Definition scaled (n d e : Z) : Z * Z :=
  if 0 <=? e then (n, d * 2 ^ e) else (n * 2 ^ (- e), d).

(** The binary64 magnitude nearest to [n / d] ([0 < n], [0 < d]): the
    exponent that leaves 53 bits before the binary point, then the rounded
    mantissa. *)
Definition nearest (n d : Z) : Z * Z :=
  let e0 := Z.log2 n - Z.log2 d - 53 in
  let e := (let (a, b) := scaled n d e0 in if a / b <? 2 ^ 53 then e0 else e0 + 1) in
  let (a, b) := scaled n d e in
  (round_half_even a b, e).

(** [a / b] for two [int]s, [b] not zero: the quotient correctly rounded. *)
Definition int_div (a b : Z) : float :=
  let sign := xorb (a <? 0) (b <? 0) in
  if a =? 0 then Float sign 0 0
  else let (m, e) := nearest (Z.abs a) (Z.abs b) in Float sign m e.

(** [x * k] for a float and an [int] that converts exactly. *)
Definition mul_int (x : float) (k : Z) : float :=
  let sign := xorb (negative x) (k <? 0) in
  if (mant x =? 0) || (k =? 0) then Float sign 0 0
  else
    let (a, b) := scaled (mant x * Z.abs k) 1 (- expo x) in
    let (m, e) := nearest a b in Float sign m e.

(** The value as a signed numerator over [2 ^ shift], for comparing. *)
Definition numerator (x : float) (shift : Z) : Z :=
  (if negative x then -1 else 1) * (mant x * 2 ^ (expo x + shift)).

(** [x >= y]. *)
Definition ge (x y : float) : bool :=
  let shift := - Z.min (expo x) (expo y) in
  numerator y shift <=? numerator x shift.

(** [x > 0] and [x < 0]. *)
Definition positive (x : float) : bool := negb (negative x) && (0 <? mant x).
Definition below_zero (x : float) : bool := negative x && (0 <? mant x).

(** [f"{x:.pf}"]: [p] digits after the point, the exact binary value
    correctly rounded (ties to even), the sign kept even when all the digits
    are zero. *)
Definition format_fixed (p : nat) (x : float) : string :=
  let ten := 10 ^ Z.of_nat p in
  let (a, b) := scaled (mant x * ten) 1 (- expo x) in
  let r := round_half_even a b in
  (if negative x then "-" else "")
  +:+ str_int (r / ten)
  +:+ (match p with
       | O => ""
       | _ => "." +:+ zero_pad p (str_int (r mod ten))
       end).

(** The literals 0.8, 0.5 and 0.25. *)
Definition f0_8 : float := int_div 8 10.
Definition f0_5 : float := int_div 1 2.
Definition f0_25 : float := int_div 1 4.

End PyFloat.

(** ** activity_calendar_generator.py *)

Module ActivityCalendarGenerator.
Import PyDatetime PyFloat.

(** *** f-strings

    An f-string is the list of its pieces in order: literal text and
    interpolated values.  In a piece of literal text a backquote stands for
    the double quote of the program's text (the program's templates contain
    no backquote). *)

Inductive piece : Type :=
| T (literal : string)
| V (value : string).

Definition double_quote : ascii := ascii_of_nat 34.

Fixpoint unquote (s : string) : string :=
  match s with
  | EmptyString => EmptyString
  | String c s' => String (if Ascii.eqb c "`" then double_quote else c) (unquote s')
  end.

Definition piece_text (p : piece) : string :=
  match p with
  | T literal => unquote literal
  | V value => value
  end.

Definition fstring (pieces : list piece) : string :=
  foldr (fun p rest => piece_text p +:+ rest) "" pieces.

(** *** strftime, in the C locale *)

Definition month_names : list string :=
  ["January"; "February"; "March"; "April"; "May"; "June"; "July"; "August";
   "September"; "October"; "November"; "December"].

(** The directive %B. *)
Definition month_name (m : Z) : string := nth (Z.to_nat (m - 1)) month_names "".

(** The directive %b: the first three letters. *)
Definition month_abbr (m : Z) : string := substring 0 3 (month_name m).

(** [t.strftime('%Y-%m-%d')]. *)
Definition strftime_Y_m_d (t : datetime) : string :=
  year_text t +:+ "-" +:+ month_2 t +:+ "-" +:+ day_2 t.

(** [t.strftime('%b %d')]. *)
Definition strftime_b_d (t : datetime) : string :=
  month_abbr (month (dt_date t)) +:+ " " +:+ day_2 t.

(** [t.strftime('%b %d, %Y')]. *)
Definition strftime_b_d_Y (t : datetime) : string :=
  strftime_b_d t +:+ ", " +:+ year_text t.

(** [t.strftime('%B %d, %Y')]. *)
Definition strftime_B_d_Y (t : datetime) : string :=
  month_name (month (dt_date t)) +:+ " " +:+ day_2 t +:+ ", " +:+ year_text t.

(** [t - timedelta(days=n)]: the date moves, the time of day stays; a date
    before year 1 raises [OverflowError]. *)
Definition minus_days (t : datetime) (n : Z) : result datetime :=
  let ordinal := toordinal (dt_date t) - n in
  if 1 <=? ordinal then Ok (DateTime (fromordinal ordinal) (dt_micro t) (tzinfo t))
  else Raise OverflowError.

(** *** Floats written with [repr] *)

(** [repr] of a float whose value is a whole number (below 10^16). *)
Definition repr_whole (n : Z) : string := str_int n +:+ ".0".

(** [repr(0.2 + i * 0.01)] for the thirty cells, i = 0, ..., 29: the
    binary64 sum, in the shortest digits that read back as it. *)
Definition animation_delays : list string :=
  ["0.2"; "0.21000000000000002"; "0.22"; "0.23"; "0.24000000000000002"; "0.25";
   "0.26"; "0.27"; "0.28"; "0.29000000000000004"; "0.30000000000000004"; "0.31";
   "0.32"; "0.33"; "0.34"; "0.35"; "0.36"; "0.37"; "0.38"; "0.39"; "0.4";
   "0.41000000000000003"; "0.42000000000000004"; "0.43000000000000005"; "0.44";
   "0.45"; "0.46"; "0.47000000000000003"; "0.48000000000000004"; "0.49"].

Definition animation_delay (i : Z) : string := nth (Z.to_nat i) animation_delays "".

(** *** The theme and the metrics *)

Record palette : Type := Palette {
  text : string;
  accent : string;
  textSecondary : string;
  textMuted : string;
  border : string;
  success : string;
  danger : string;
  card : string;
  background : string;
  warning : string
}.

(** The theme file, its colours. *)
Record theme : Type := Theme { colors : palette }.

(** An entry of [commits_per_day]; [None] is a key the entry does not
    have. *)
Record day_stat : Type := DayStat { ds_date : option string; ds_count : option Z }.

(** The metrics the calendar reads: [daily_stats.commits_per_day] (empty
    when absent) and [activity_streak.current] (0 when absent). *)
Record metrics : Type := Metrics {
  commits_per_day : list day_stat;
  streak_current : Z
}.

(** An entry of [days_data] (its weekday name is never read). *)
Record day_data : Type := DayData {
  date : datetime;
  date_str : string;
  count : Z;
  day_num : Z
}.

(** *** The generator *)

Definition _create_styles (theme : theme) : string :=
  fstring
    [T "
        * { 
            font-family: -apple-system, BlinkMacSystemFont, 'Segoe UI', 'Helvetica', 'Arial', sans-serif;
        }
        text { fill: ";
     V (text (colors theme));
     T "; }
        .title { 
            font-size: 24px; 
            font-weight: 700; 
            fill: ";
     V (accent (colors theme));
     T "; 
        }
        .subtitle { 
            font-size: 13px; 
            fill: ";
     V (textSecondary (colors theme));
     T "; 
        }
        .label {
            font-size: 11px;
            fill: ";
     V (textSecondary (colors theme));
     T ";
        }
        .label-small {
            font-size: 9px;
            fill: ";
     V (textMuted (colors theme));
     T ";
        }
        .metric-value {
            font-size: 32px;
            font-weight: 700;
        }
        .metric-label {
            font-size: 12px;
            font-weight: 500;
        }
        .day-label {
            font-size: 10px;
            fill: ";
     V (textMuted (colors theme));
     T ";
        }
        .stat-box {
            font-size: 14px;
            font-weight: 600;
        }
        @keyframes fadeIn {
            from { opacity: 0; }
            to { opacity: 1; }
        }
        @keyframes slideUp {
            from { transform: translateY(10px); opacity: 0; }
            to { transform: translateY(0); opacity: 1; }
        }
        @keyframes highlight {
            0%, 100% { opacity: 1; }
            50% { opacity: 0.7; }
        }
        .animated { animation: fadeIn 0.6s ease-out; }
        .slide-up { animation: slideUp 0.5s ease-out; }
        .highlight { animation: highlight 2s ease-in-out infinite; }
        "].

(** Colour, and opacity as [repr] writes the literal. *)
Definition _get_activity_level_color (theme : theme) (count max_count : Z)
  : string * string :=
  if count =? 0 then (border (colors theme), "0.2")
  else if max_count =? 0 then (success (colors theme), "0.3")
  else
    let ratio := int_div count max_count in
    if ge ratio f0_8 then (success (colors theme), "1.0")
    else if ge ratio f0_5 then (success (colors theme), "0.7")
    else if ge ratio f0_25 then (accent (colors theme), "0.6")
    else (accent (colors theme), "0.4").

(** [commits_map[date_str] = day.get('count', 0)] for every entry with a
    date. *)
Definition record_day (commits_map : gmap string Z) (day : day_stat) : gmap string Z :=
  let date_str := default "" (ds_date day) in
  if String.eqb date_str "" then commits_map
  else <[date_str := default 0 (ds_count day)]> commits_map.

(** The entry of [days_data] for the day [i] days before [today]. *)
Definition day_entry (today : datetime) (commits_map : gmap string Z) (i : Z)
  : result day_data :=
  let* date := minus_days today i in
  let date_str := strftime_Y_m_d date in
  let count := default 0 (commits_map !! date_str) in
  Ok (DayData date date_str count (day (dt_date date))).

(** [range(29, -1, -1)]. *)
Definition days_back : list Z := map Z.of_nat (rev (seq 0 30)).

(** [max(days_data, key=lambda x: x['count'])]: the first of the entries
    with the greatest count. *)
Fixpoint max_by_count (best : day_data) (rest : list day_data) : day_data :=
  match rest with
  | [] => best
  | d :: rest' => max_by_count (if count best <? count d then d else best) rest'
  end.

(** [sum(l)]. *)
Definition py_sum (l : list Z) : Z := foldl Z.add 0 l.

(** [daily_stats[-60:-30] if len(daily_stats) >= 60 else []]. *)
Definition previous_days (daily_stats : list day_stat) : list day_stat :=
  if (60 <=? length daily_stats)%nat
  then take 30 (drop (length daily_stats - 60) daily_stats)
  else [].

(** The trend against the previous period: arrow, class and text. *)
Definition trend (total_commits prev_total : Z) : string * string * string :=
  if 0 <? prev_total then
    let change := mul_int (int_div (total_commits - prev_total) prev_total) 100 in
    if positive change then
      ("↑", "trend-up", fstring
    [T "+"; V (format_fixed 0 change); T "%"])
    else if below_zero change then
      ("↓", "trend-down", fstring
    [V (format_fixed 0 change); T "%"])
    else ("●", "trend-neutral", "±0%")
  else ("●", "trend-neutral", "New").

(** One cell of the grid. *)
Definition cell (theme : theme) (max_count : Z) (most_productive : day_data)
    (i : Z) (day_data : day_data) : string :=
  let calendar_start_x := 440 in
  let calendar_start_y := 110 in
  let cell_size := 42 in
  let cell_spacing := 6 in
  let cells_per_row := 10 in
  let row := i / cells_per_row in
  let col := i mod cells_per_row in
  let x := calendar_start_x + col * (cell_size + cell_spacing) in
  let y := calendar_start_y + 20 + row * (cell_size + cell_spacing + 20) in
  let count := count day_data in
  let (color, opacity) := _get_activity_level_color theme count max_count in
  let is_peak := String.eqb (date_str day_data) (date_str most_productive) && (0 <? count) in
  let stroke_color := if is_peak then warning (colors theme) else color in
  let stroke_width := if is_peak then "2.5" else "1" in
  let extra_class := if is_peak then " highlight" else "" in
  fstring
    [T "
        <g>
            <rect x=`";
     V (str_int x); T "` y=`"; V (str_int y); T "` width=`"; V (str_int cell_size);
     T "` height=`"; V (str_int cell_size);
     T "` 
                  rx=`6` fill=`";
     V color; T "` opacity=`"; V opacity;
     T "` 
                  stroke=`";
     V stroke_color; T "` stroke-width=`"; V stroke_width; T "` class=`slide-up";
     V extra_class;
     T "`
                  style=`animation-delay: ";
     V (animation_delay i);
     T "s`>
                <title>";
     V (strftime_B_d_Y (date day_data)); T ": "; V (str_int count);
     T " commits</title>
            </rect>
            <text class=`day-label` x=`";
     V (repr_whole (x + cell_size / 2)); T "` y=`"; V (str_int (y + cell_size + 12));
     T "` 
                  text-anchor=`middle`>";
     V (str_int (day_num day_data));
     T "</text>
        </g>
"].

(** [enumerate(l)], counting from [i]. *)
Fixpoint enumerate {A : Type} (i : Z) (l : list A) : list (Z * A) :=
  match l with
  | [] => []
  | x :: l' => (i, x) :: enumerate (i + 1) l'
  end.

(** The first part of [svg_parts]: the opening tag, the styles, the
    background and the title. *)
Definition header_part (theme : theme) : string :=
  let width := 1200 in
  let height := 380 in
  fstring
    [T "<svg width=`"; V (str_int width); T "` height=`"; V (str_int height);
     T "` xmlns=`http://www.w3.org/2000/svg`>
    <style>
        ";
     V (_create_styles theme);
     T "
        .trend-up { fill: ";
     V (success (colors theme));
     T "; }
        .trend-down { fill: ";
     V (danger (colors theme));
     T "; }
        .trend-neutral { fill: ";
     V (textSecondary (colors theme));
     T "; }
    </style>
    <rect width=`";
     V (str_int width); T "` height=`"; V (str_int height); T "` fill=`";
     V (card (colors theme));
     T "` rx=`12`/>
    
    <!-- Header -->
    <text class=`title animated` x=`40` y=`45`>📊 Activity Calendar</text>
    <text class=`subtitle animated` x=`40` y=`70`>Last 30 days of contribution activity</text>
"].

(** The card of metrics on the left. *)
Definition metrics_card (theme : theme) (total_commits prev_total active_days : Z)
    (streak_current : Z) (most_productive : day_data) : string :=
  let avg_per_day := int_div total_commits 30 in
  let '(trend_arrow, trend_class, trend_text) := trend total_commits prev_total in
  let metrics_x := 40 in
  let metrics_y := 110 in
  let metrics_width := 360 in
  let metrics_height := 240 in
  fstring
    [T "
    <!-- Complete Metrics Card -->
    <g class=`slide-up` style=`animation-delay: 0.1s`>
        <rect x=`";
     V (str_int metrics_x); T "` y=`"; V (str_int metrics_y); T "` width=`";
     V (str_int metrics_width); T "` height=`"; V (str_int metrics_height);
     T "` rx=`12` 
              fill=`";
     V (background (colors theme));
     T "` opacity=`0.6`
              stroke=`";
     V (border (colors theme));
     T "` stroke-width=`1` stroke-opacity=`0.3`/>
        
        <!-- Total Commits -->
        <text class=`label` x=`";
     V (str_int (metrics_x + 24)); T "` y=`"; V (str_int (metrics_y + 30));
     T "`>Total Commits</text>
        <text class=`metric-value` x=`";
     V (str_int (metrics_x + 24)); T "` y=`"; V (str_int (metrics_y + 70));
     T "` 
              fill=`";
     V (accent (colors theme)); T "`>"; V (str_int total_commits);
     T "</text>
        <text class=`";
     V trend_class; T "` x=`"; V (str_int (metrics_x + 24)); T "` y=`";
     V (str_int (metrics_y + 90));
     T "` 
              style=`font-size: 13px; font-weight: 600`>";
     V trend_arrow; T " "; V trend_text;
     T " vs prev</text>
        
        <!-- Divider -->
        <line x1=`";
     V (str_int (metrics_x + 24)); T "` y1=`"; V (str_int (metrics_y + 110)); T "` x2=`";
     V (str_int (metrics_x + metrics_width - 24)); T "` y2=`";
     V (str_int (metrics_y + 110));
     T "` 
              stroke=`";
     V (border (colors theme));
     T "` stroke-width=`1` opacity=`0.3`/>
        
        <!-- Most Productive Day -->
        <text class=`label-small` x=`";
     V (str_int (metrics_x + 24)); T "` y=`"; V (str_int (metrics_y + 130));
     T "`>
            🏆 Most Productive Day
        </text>
        <text class=`metric-label` x=`";
     V (str_int (metrics_x + 24)); T "` y=`"; V (str_int (metrics_y + 150));
     T "` 
              fill=`";
     V (warning (colors theme));
     T "`>
            ";
     V ((if 0 <? count most_productive then strftime_b_d (date most_productive) else "N/A"));
     T " • "; V (str_int (count most_productive));
     T " commits
        </text>
        
        <!-- Performance Stats -->
        <text class=`label-small` x=`";
     V (str_int (metrics_x + 24)); T "` y=`"; V (str_int (metrics_y + 180));
     T "`>
            � Performance
        </text>
        <text class=`label-small` x=`";
     V (str_int (metrics_x + 24)); T "` y=`"; V (str_int (metrics_y + 200));
     T "`>
            Active: ";
     V (str_int active_days); T "/30 days (";
     V (format_fixed 0 (mul_int (int_div active_days 30) 100));
     T "%)
        </text>
        <text class=`label-small` x=`";
     V (str_int (metrics_x + 24)); T "` y=`"; V (str_int (metrics_y + 215));
     T "`>
            Streak: � ";
     V (str_int streak_current); T " days • Avg: "; V (format_fixed 1 avg_per_day);
     T "/day
        </text>
    </g>
"].

(** The heading of the grid: the first and the last of the thirty days. *)
Definition grid_header (first_day last_day : day_data) : string :=
  let calendar_start_x := 440 in
  let calendar_start_y := 110 in
  fstring
    [T "
    <!-- Calendar Grid -->
    <g class=`animated` style=`animation-delay: 0.2s`>
        <text class=`label` x=`";
     V (str_int calendar_start_x); T "` y=`"; V (str_int (calendar_start_y - 10));
     T "`>
            ";
     V (strftime_b_d (date first_day)); T " - "; V (strftime_b_d_Y (date last_day));
     T "
        </text>
"].

(** The legend of intensities, below the grid. *)
Definition legend_parts (theme : theme) : list string :=
  let calendar_start_x := 440 in
  let calendar_start_y := 110 in
  let cell_size := 42 in
  let cell_spacing := 6 in
  let legend_y :=
    calendar_start_y + 20 + 3 * (cell_size + cell_spacing + 20) + 20 in
  let legend_header := fstring
    [T "
    <!-- Intensity Legend -->
    <g class=`animated` style=`animation-delay: 0.5s`>
        <text class=`label-small` x=`";
     V (str_int calendar_start_x); T "` y=`"; V (str_int legend_y);
     T "`>Less</text>
"] in
  let legend_colors :=
    [(border (colors theme), "0.2"); (accent (colors theme), "0.4");
     (accent (colors theme), "0.6"); (success (colors theme), "0.7");
     (success (colors theme), "1.0")] in
  let legend_cell_x := calendar_start_x + 35 in
  let legend_cells :=
    map (fun '(i, (color, opacity)) => fstring
    [T "
        <rect x=`";
     V (str_int (legend_cell_x + i * 20)); T "` y=`"; V (str_int (legend_y - 12));
     T "` width=`16` height=`16` 
              rx=`4` fill=`";
     V color; T "` opacity=`"; V opacity;
     T "`/>
"])
        (enumerate 0 legend_colors) in
  let legend_footer := fstring
    [T "
        <text class=`label-small` x=`";
     V (str_int (legend_cell_x + Z.of_nat (length legend_colors) * 20 + 5)); T "` y=`";
     V (str_int legend_y);
     T "`>More</text>
    </g>
"] in
  [legend_header] ++ legend_cells ++ [legend_footer].

(** Everything after the loop that fills [days_data]: the statistics and
    the parts of the SVG text, joined by line feeds.  [days_data[0]] on an
    empty list would raise [IndexError]. *)
Definition render_days (theme : theme) (metrics : metrics) (days_data : list day_data)
  : result string :=
  match days_data, last days_data with
  | first_day :: later_days, Some last_day =>
      let counts := map count days_data in
      let total_commits := py_sum counts in
      let max_count := foldl Z.max (count first_day) (map count later_days) in
      let active_days := Z.of_nat (length (List.filter (fun c => 0 <? c) counts)) in
      let most_productive := max_by_count first_day later_days in
      let prev_total :=
        py_sum (map (fun day => default 0 (ds_count day))
                 (previous_days (commits_per_day metrics))) in
      let cells :=
        map (fun '(i, day_data) => cell theme max_count most_productive i day_data)
            (enumerate 0 days_data) in
      let svg_parts :=
        [header_part theme;
         metrics_card theme total_commits prev_total active_days
                      (streak_current metrics) most_productive;
         grid_header first_day last_day]
        ++ cells ++ ["    </g>"] ++ legend_parts theme ++ ["</svg>"] in
      Ok (join (String (ascii_of_nat 10) "") svg_parts)
  | _, _ => Raise IndexError
  end.

(** [generate_activity_calendar]: the text written to the file; [now] is
    what [datetime.now()] returns. *)
Definition generate_activity_calendar (theme : theme) (now : datetime)
    (metrics : metrics) : result string :=
  let today := now in
  let commits_map := foldl record_day ∅ (commits_per_day metrics) in
  let* days_data := map_result (day_entry today commits_map) days_back in
  render_days theme metrics days_data.

(** *** What the properties speak of *)

(** The same entry of [days_data], had the clock shown another time of
    day. *)
Definition at_time (micro : Z) (tz : option Z) (d : day_data) : day_data :=
  DayData (DateTime (dt_date (date d)) micro tz) (date_str d) (count d) (day_num d).

(** Two results are the same text. *)
Definition same_text (a b : result string) : bool :=
  match a, b with
  | Ok s, Ok s' => String.eqb s s'
  | _, _ => false
  end.

(** *** Scenario *)

Definition dark : theme :=
  Theme (Palette "#c9d1d9" "#58a6ff" "#8b949e" "#6e7681" "#30363d" "#3fb950"
                "#f85149" "#161b22" "#0d1117" "#d29922").

(** No commit on record; the clock read on the 10th of January 2024 in the
    morning and in the evening, and on the next day. *)
Definition no_commits : metrics := Metrics [] 0.
Definition jan_10_morning : datetime := DateTime (Date 2024 1 10) 32400000000 None.
Definition jan_10_evening : datetime := DateTime (Date 2024 1 10) 75600000000 None.
Definition jan_11_morning : datetime := DateTime (Date 2024 1 11) 32400000000 None.

End ActivityCalendarGenerator.


(* ===================================================================== *)
(** * Part I, continued: the rest of the program                          *)
(* ===================================================================== *)

(** ** More of Python's built-ins on text *)

(** A byte that continues a character of UTF-8 text. *)
Definition is_continuation (c : ascii) : bool :=
  let n := N_of_ascii c in ((128 <=? n) && (n <? 192))%N.

(** [len(s)]: the characters of the text, not its bytes. *)
Fixpoint py_len (s : string) : Z :=
  match s with
  | EmptyString => 0
  | String c s' => (if is_continuation c then 0 else 1) + py_len s'
  end.

(** [s[:n]]: the first [n] characters. *)
Fixpoint take_chars (n : nat) (s : string) : string :=
  match s with
  | EmptyString => EmptyString
  | String c s' =>
      if is_continuation c then String c (take_chars n s')
      else match n with
           | O => EmptyString
           | S n' => String c (take_chars n' s')
           end
  end.

(** [s.replace(old, new)] for an [old] of one ASCII character. *)
Fixpoint replace_char (old : ascii) (new : string) (s : string) : string :=
  match s with
  | EmptyString => EmptyString
  | String c s' =>
      if Ascii.eqb c old then new +:+ replace_char old new s'
      else String c (replace_char old new s')
  end.

(** [c in s] for one character. *)
Fixpoint has_char (c : ascii) (s : string) : bool :=
  match s with
  | EmptyString => false
  | String c' s' => Ascii.eqb c' c || has_char c s'
  end.

(** [s.split(c)[0]]: the text before the first [c], all of it when there
    is none. *)
Fixpoint before_char (c : ascii) (s : string) : string :=
  match s with
  | EmptyString => EmptyString
  | String c' s' => if Ascii.eqb c' c then EmptyString else String c' (before_char c s')
  end.

Definition quote_char : ascii := ascii_of_nat 34.

(** [html.escape(s)], quotes included: five replacements, one after the
    other, the ampersand first. *)
Definition html_escape (s : string) : string :=
  let s := replace_char "&" "&amp;" s in
  let s := replace_char "<" "&lt;" s in
  let s := replace_char ">" "&gt;" s in
  let s := replace_char quote_char "&quot;" s in
  replace_char "'" "&#x27;" s.

(** The same in one pass: what each character becomes. *)
Definition escape_of (c : ascii) : string :=
  if Ascii.eqb c "&" then "&amp;"
  else if Ascii.eqb c "<" then "&lt;"
  else if Ascii.eqb c ">" then "&gt;"
  else if Ascii.eqb c quote_char then "&quot;"
  else if Ascii.eqb c "'" then "&#x27;"
  else String c "".

Fixpoint escape_each (s : string) : string :=
  match s with
  | EmptyString => EmptyString
  | String c s' => escape_of c +:+ escape_each s'
  end.

(** A text of fewer than seven bytes: no version of
    [datetime.fromisoformat] reads one. *)
Definition too_short (stamp : string) : Prop := (String.length stamp < 7)%nat.

(** A text of ASCII characters only. *)
Definition ascii_text (s : string) : Prop :=
  Forall (fun c => (N_of_ascii c < 128)%N) (list_ascii_of_string s).

(** The [w] last decimal digits of [n], written in front of [acc]. *)
Fixpoint fixed_digits (w : nat) (n : Z) (acc : string) : string :=
  match w with
  | O => acc
  | S w' => fixed_digits w' (n / 10) (String (digit_char (n mod 10)) acc)
  end.

(** ** More of Python's [datetime] *)

Module PyCalendar.
Import PyDatetime.

(** [d - timedelta(days=n)] for a date and [n] not negative; a date before
    year 1 raises [OverflowError]. *)
Definition date_minus_days (d : date) (n : Z) : result date :=
  let ordinal := toordinal d - n in
  if 1 <=? ordinal then Ok (fromordinal ordinal) else Raise OverflowError.

(** [d.strftime('%Y-%m-%d')] for a date. *)
Definition date_strftime_Y_m_d (d : date) : string :=
  str_int (year d) +:+ "-" +:+ zero_pad 2 (str_int (month d))
  +:+ "-" +:+ zero_pad 2 (str_int (day d)).

(** [d.strftime('%Y-%m')]. *)
Definition date_strftime_Y_m (d : date) : string :=
  str_int (year d) +:+ "-" +:+ zero_pad 2 (str_int (month d)).

(** The Monday of the first ISO week of a year, as an ordinal: the week
    that holds the year's first Thursday. *)
Definition isoweek1monday (y : Z) : Z :=
  let firstday := toordinal (Date y 1 1) in
  let firstweekday := (firstday + 6) mod 7 in
  let week1monday := firstday - firstweekday in
  if 3 <? firstweekday then week1monday + 7 else week1monday.

(** [d.isocalendar()[1]]: the ISO week number. *)
Definition iso_week (d : date) : Z :=
  let today := toordinal d in
  let week := (today - isoweek1monday (year d)) / 7 in
  if week <? 0 then (today - isoweek1monday (year d - 1)) / 7 + 1
  else if (52 <=? week) && (isoweek1monday (year d + 1) <=? today) then 1
  else week + 1.

(** [t.isoformat()]: the date, T, the time of day with its microseconds
    when there are any, and the offset of an aware value. *)
Definition two_digits (n : Z) : string := zero_pad 2 (str_int n).

Definition time_isoformat (micro : Z) : string :=
  let seconds := micro / 1000000 in
  let us := micro mod 1000000 in
  two_digits (seconds / 3600) +:+ ":" +:+ two_digits (seconds / 60 mod 60)
  +:+ ":" +:+ two_digits (seconds mod 60)
  +:+ (if us =? 0 then "" else "." +:+ zero_pad 6 (str_int us)).

Definition offset_isoformat (off : Z) : string :=
  let a := Z.abs off in
  (if off <? 0 then "-" else "+")
  +:+ two_digits (a / 3600) +:+ ":" +:+ two_digits (a / 60 mod 60)
  +:+ (if a mod 60 =? 0 then "" else ":" +:+ two_digits (a mod 60)).

Definition datetime_isoformat (t : datetime) : string :=
  date_isoformat (dt_date t) +:+ "T" +:+ time_isoformat (dt_micro t)
  +:+ match tzinfo t with
      | Some off => offset_isoformat off
      | None => ""
      end.

(** *** What the properties speak of *)

(** A date of the calendar, of any year from 1 on. *)
Definition calendar_date (d : date) : Prop :=
  1 <= year d /\ 1 <= month d <= 12 /\ 1 <= day d <= days_in_month (year d) (month d).

(** A datetime as the clock gives it: a date of the calendar up to the
    year 9999, a time of day, and an offset (if any) of whole minutes,
    less than a day. *)
Definition clock_reading (t : datetime) : Prop :=
  calendar_date (dt_date t) /\ year (dt_date t) <= 9999
  /\ 0 <= dt_micro t < day_micro
  /\ match tzinfo t with
     | Some off => off mod 60 = 0 /\ -86400 < off < 86400
     | None => True
     end.

(** The month and the day of the [n]-th day (from 0) of the year [y], as
    [fromordinal] finds them. *)
Definition month_day (y n : Z) : Z * Z :=
  let m := Z.shiftr (n + 50) 5 in
  let preceding := days_before_month y m in
  if n <? preceding then (m - 1, n - (preceding - days_in_month y (m - 1)) + 1)
  else (m, n - preceding + 1).

(** [month_day] finds a month and a day of the year [y] that lie [n] days
    after its first day. *)
Definition month_day_ok (y n : Z) : bool :=
  let (m, d) := month_day y n in
  (1 <=? m) && (m <=? 12) && (1 <=? d) && (d <=? days_in_month y m)
  && (days_before_month y m + d =? n + 1).

(** [month_day] finds the month [m] and the day [d] again from their place
    in the year. *)
Definition day_of_year_ok (y m d : Z) : bool :=
  let k := days_before_month y m + d - 1 in
  negb ((1 <=? d) && (d <=? days_in_month y m))
  || ((0 <=? k) && (k <? (if is_leap y then 366 else 365))
      && (let (m', d') := month_day y k in (m' =? m) && (d' =? d))
      && (negb (k =? 365) || ((m =? 12) && (d =? 31)))).

End PyCalendar.

(** ** scripts/daily_metrics.py *)

Module DailyMetrics.
Import PyDatetime PyCalendar.

(** *** calculate_activity_streak *)

(** [date_str in commits_by_date and commits_by_date[date_str] > 0]. *)
Definition active (commits_by_date : gmap string Z) (date_str : string) : bool :=
  match commits_by_date !! date_str with
  | Some count => 0 <? count
  | None => false
  end.

Record counters : Type := Counters {
  current_streak : Z;
  longest_streak : Z;
  temp_streak : Z
}.

(** The body of the loop, but for the dates: a day with commits, or one
    without (both arms of the inner test of the [else] branch set
    [temp_streak] to 0). *)
Definition streak_step (st : counters) (is_active : bool) : counters :=
  if is_active then
    let current :=
      if current_streak st =? temp_streak st then current_streak st + 1
      else current_streak st in
    let temp := temp_streak st + 1 in
    Counters current (Z.max (longest_streak st) temp) temp
  else Counters (current_streak st) (longest_streak st) 0.

(** [for i in range(365)], [turns] turns of it being left. *)
Fixpoint streak_loop (commits_by_date : gmap string Z) (turns : nat)
    (check_date : date) (st : counters) : result counters :=
  match turns with
  | O => Ok st
  | S turns' =>
      let date_str := date_strftime_Y_m_d check_date in
      let st' := streak_step st (active commits_by_date date_str) in
      let* check_date' := date_minus_days check_date 1 in
      streak_loop commits_by_date turns' check_date' st'
  end.

(** [today] is [datetime.now().date()]. *)
Definition calculate_activity_streak (today : date) (commits_by_date : gmap string Z)
  : result MetricsProcessor.streak :=
  if decide (commits_by_date = ∅) then Ok (MetricsProcessor.Streak 0 0)
  else
    let* st := streak_loop commits_by_date 365 today (Counters 0 0 0) in
    Ok (MetricsProcessor.Streak (current_streak st) (longest_streak st)).

(** *** collect_metrics: the commits of each day *)

(** [commits_by_date[commit['date'][:10]] += 1] for every commit. *)
Definition commits_by_date (commits : list commit) : gmap string Z :=
  foldl (fun counts c => MetricsProcessor.add_one (take_chars 10 (commit_date c)) counts)
        ∅ commits.

(** *** collect_featured_projects: the choice of the projects *)

(** The relevance of a repository. *)
Definition relevance (r : repo) : Z :=
  stars r * 3 + forks r * 2
  + (match language r with
     | Some lang => if String.eqb lang "" then 0 else 1
     | None => 0
     end).

(** The public repositories, the six most relevant first. *)
Definition top_repos (repos : list repo) : list repo :=
  let public_repos := List.filter (fun r => negb (is_private r)) repos in
  take 6 (sort_by_key_desc relevance public_repos).

(** *** update_history *)

Section History.
(** The keys of a snapshot other than its month. *)
Variable payload : Type.

(** An element of [monthly_snapshots] as the file holds it: a snapshot
    with its month (a text, as this function writes it), or anything else
    (not a dictionary, or one without a month). *)
Inductive snap : Type :=
| Snapshot (month : string) (data : payload)
| Junk.

Definition month_of (s : snap) : option string :=
  match s with
  | Snapshot month _ => Some month
  | Junk => None
  end.

Definition is_month (current_month : string) (s : snap) : bool :=
  match s with
  | Snapshot month _ => String.eqb month current_month
  | Junk => false
  end.

(** The loop that puts the new snapshot in the place of the first one of
    the current month, and whether it found one. *)
Fixpoint replace_first (current_month : string) (snapshot : snap) (snapshots : list snap)
  : list snap * bool :=
  match snapshots with
  | [] => ([], false)
  | s :: rest =>
      if is_month current_month s then (snapshot :: rest, true)
      else
        let (rest', updated) := replace_first current_month snapshot rest in
        (s :: rest', updated)
  end.

Definition is_valid (s : snap) : bool :=
  match s with
  | Snapshot _ _ => true
  | Junk => false
  end.

(** The sort key of a valid snapshot. *)
Definition month_key (s : snap) : string := default "" (month_of s).

(** [history] is the list under [monthly_snapshots], [None] when the file
    or the key is missing; [now] is what [datetime.now()] returns and
    [data] the rest of the new snapshot.  The result is the new list under
    [monthly_snapshots]. *)
Definition update_history (now : datetime) (data : payload) (history : option (list snap))
  : list snap :=
  let snapshots := default [] history in
  let current_month := date_strftime_Y_m (dt_date now) in
  let snapshot := Snapshot current_month data in
  let (snapshots, updated) := replace_first current_month snapshot snapshots in
  let snapshots := if updated then snapshots else snapshots ++ [snapshot] in
  let valid_snapshots := List.filter is_valid snapshots in
  take 12 (py_sort (fun x y => String.leb (month_key y) (month_key x)) valid_snapshots).

End History.

(** *** What the properties speak of *)

(** The days the streak loop visits: today first, then the 364 days
    before it. *)
Definition visited_days (today : date) : list date :=
  today :: map (fun i => fromordinal (toordinal today - Z.of_nat i)) (seq 1 364).

(** The longest run of consecutive days with commits in a list of days,
    [run] being the length of the run that the list continues. *)
Fixpoint longest_run (run : Z) (days : list bool) : Z :=
  match days with
  | [] => run
  | true :: rest => longest_run (run + 1) rest
  | false :: rest => Z.max run (longest_run 0 rest)
  end.

(** A commit as the collector stores it: its date is the text that
    [isoformat] writes for a reading of a clock. *)
Definition collected (c : commit) : Prop :=
  exists t, clock_reading t /\ commit_date c = datetime_isoformat t.

(** *** Scenario: commits on three days in a row, the last of them a
    week before the 10th of January 2024 *)
Definition stale_commits : gmap string Z :=
  <["2024-01-01" := 2]> (<["2024-01-02" := 1]> (<["2024-01-03" := 4]> ∅)).

(** *** Scenario: two commits of the same day, one of them stamped with
    microseconds and an offset west of Greenwich *)
Definition morning : datetime := DateTime (Date 2024 1 26) 37800000000 (Some 0).
Definition last_second : datetime :=
  DateTime (Date 2024 1 26) 86399000001 (Some (-18000)).
Definition same_day_commits : list commit :=
  [Commit "site" "2024-01-26T10:30:00+00:00";
   Commit "site" "2024-01-26T23:59:59.000001-05:00"].

End DailyMetrics.

(** ** activity_calendar_generator.py: the thirty days of the grid *)

Module CalendarDays.
Import PyDatetime ActivityCalendarGenerator.

(** *** What the properties speak of *)

(** The count of the last entry of [commits_per_day] dated [key] (0 for
    an entry without a count), and 0 when no entry has this date. *)
Definition recorded (key : string) (daily_stats : list day_stat) : Z :=
  match List.find (fun s => String.eqb (default "" (ds_date s)) key) (rev daily_stats) with
  | Some s => default 0 (ds_count s)
  | None => 0
  end.

(** *** Scenario: the same day recorded twice, and an entry without a
    date *)
Definition three_entries : metrics :=
  Metrics [DayStat (Some "2024-01-09") (Some 3);
           DayStat None (Some 8);
           DayStat (Some "2024-01-09") (Some 5)] 0.

End CalendarDays.

(** ** enhanced_svg_renderer.py: the lines of the performance comparison *)

Module PerformanceComparison.

(** A day of a month of [daily_activity.json], as far as the lines read
    it: [day.get('commits', 0)]. *)
Record activity_day : Type := ActivityDay { day_commits : option Z }.

(** [process_daily_commits]: the running total after each day, [[0]] for
    a month without days. *)
Definition cumulative_step (st : Z * list Z) (day : activity_day) : Z * list Z :=
  let total := fst st + default 0 (day_commits day) in
  (total, snd st ++ [total]).

Definition process_daily_commits (month_data : list activity_day) : list Z :=
  match snd (foldl cumulative_step (0, []) month_data) with
  | [] => [0]
  | cumulative => cumulative
  end.

(** [while len(daily) < 31: daily.append(daily[-1] if daily else 0)]; the
    loop is over after 31 turns at most. *)
Fixpoint pad_loop (turns : nat) (daily : list Z) : list Z :=
  match turns with
  | O => daily
  | S turns' =>
      if (length daily <? 31)%nat
      then pad_loop turns' (daily ++ [default 0 (last daily)])
      else daily
  end.

(** The points of the line of a month, and the total the card shows:
    [daily[-1] if daily else 0]. *)
Definition month_line (month_data : list activity_day) : list Z :=
  pad_loop 31 (process_daily_commits month_data).

Definition month_commits (month_data : list activity_day) : Z :=
  default 0 (last (month_line month_data)).

(** *** What the properties speak of *)

(** The commits of a list of days. *)
Fixpoint commits_of_days (days : list activity_day) : Z :=
  match days with
  | [] => 0
  | day :: rest => default 0 (day_commits day) + commits_of_days rest
  end.

(** The commits of the month up to its recorded day number [k] (from 0). *)
Definition commits_until (month_data : list activity_day) (k : nat) : Z :=
  commits_of_days (take (S k) month_data).

(** *** Scenario: a month with two recorded days *)
Definition two_days : list activity_day := [ActivityDay (Some 3); ActivityDay (Some 4)].

End PerformanceComparison.

(** ** metrics_processor.py: the weekly statistics, the languages, and
    all the metrics at once *)

Module MetricsSummary.
Import PyDatetime PyCalendar MetricsProcessor.

(** *** calculate_weekly_stats *)

(** An issue of the collector with its key [closed_at]: [None] while the
    issue is open. *)
Record tracked_issue : Type := TrackedIssue {
  issue_of : issue;
  closed_at : option string
}.

(** [f"{date.year}-W{date.isocalendar()[1]:02d}"] for the datetime that a
    timestamp holds. *)
Definition week_label (stamp : string) : result string :=
  let* date := fromisoformat stamp in
  Ok (str_int (year (dt_date date)) +:+ "-W"
      +:+ zero_pad 2 (str_int (iso_week (dt_date date)))).

(** One of the two loops: [by_week[week] += 1] for every timestamp. *)
Fixpoint count_by_week (stamps : list string) (by_week : gmap string Z)
  : result (gmap string Z) :=
  match stamps with
  | [] => Ok by_week
  | stamp :: rest =>
      let* week := week_label stamp in
      count_by_week rest (add_one week by_week)
  end.

(** [if issue['closed_at']]: neither [None] nor the empty text. *)
Definition closed (i : tracked_issue) : option string :=
  match closed_at i with
  | Some stamp => if String.eqb stamp "" then None else Some stamp
  | None => None
  end.

Record weekly_stats : Type := WeeklyStats {
  prs_per_week : list (string * Z);
  issues_closed_per_week : list (string * Z)
}.

Definition calculate_weekly_stats (prs : list pull_request) (issues : list tracked_issue)
  : result weekly_stats :=
  let* prs_by_week := count_by_week (map pr_created_at prs) ∅ in
  let* issues_closed_by_week := count_by_week (omap closed issues) ∅ in
  Ok (WeeklyStats (py_sort item_leb (map_to_list prs_by_week))
                  (py_sort item_leb (map_to_list issues_closed_by_week))).

(** *** calculate_top_languages *)

(** [languages[lang] += 1] on a [Counter]: a key keeps the place of its
    first insertion. *)
Fixpoint counter_add (key : string) (counts : list (string * Z)) : list (string * Z) :=
  match counts with
  | [] => [(key, 1)]
  | (k, n) :: rest =>
      if String.eqb k key then (k, n + 1) :: rest else (k, n) :: counter_add key rest
  end.

(** The loop over the repositories; a repository without a language (or
    with an empty one) is passed over. *)
Definition count_language (languages : list (string * Z)) (r : repo) : list (string * Z) :=
  match language r with
  | Some lang => if String.eqb lang "" then languages else counter_add lang languages
  | None => languages
  end.

(** [dict(languages.most_common(10))]: the ten greatest counts, equal
    counts in the order of first insertion. *)
Definition calculate_top_languages (repos : list repo) : list (string * Z) :=
  let languages := foldl count_language [] repos in
  take 10 (sort_by_key_desc snd languages).

(** *** generate_metrics *)

Record metrics_summary : Type := MetricsSummary {
  last_update : string;
  total_commits : Z;
  total_prs : Z;
  total_issues : Z;
  total_repos : Z;
  summary_daily : daily_stats;
  summary_weekly : weekly_stats;
  summary_monthly : monthly_stats;
  top_languages : list (string * Z);
  activity_streak : streak
}.

(** The three readings of the UTC clock are those of
    [calculate_monthly_stats], of [calculate_activity_streak] and of the
    last update, in this order. *)
Definition generate_metrics (clock_monthly clock_streak clock_update : datetime)
    (repos : list repo) (commits : list commit) (prs : list pull_request)
    (issues : list tracked_issue) : result metrics_summary :=
  let* daily := calculate_daily_stats commits in
  let* weekly := calculate_weekly_stats prs issues in
  let* monthly := calculate_monthly_stats clock_monthly commits prs (map issue_of issues) in
  let languages := calculate_top_languages repos in
  let* streak := calculate_activity_streak (dt_date (now_utc clock_streak)) commits in
  Ok (MetricsSummary (datetime_isoformat (now_utc clock_update))
                     (Z.of_nat (length commits)) (Z.of_nat (length prs))
                     (Z.of_nat (length issues)) (Z.of_nat (length repos))
                     daily weekly monthly languages streak).

(** *** What the properties speak of *)

(** The repositories written in the language [lang]. *)
Definition repos_in (lang : string) (repos : list repo) : Z :=
  Z.of_nat (length (List.filter
                      (fun r => match language r with
                                | Some l => String.eqb l lang
                                | None => false
                                end) repos)).

(** The count a [Counter] holds for a key (0 for a key it does not have). *)
Fixpoint counted (key : string) (counts : list (string * Z)) : Z :=
  match counts with
  | [] => 0
  | (k, n) :: rest => if String.eqb k key then n else counted key rest
  end.

(** The counts of a list of (key, count) items, summed. *)
Definition total_count (items : list (string * Z)) : Z :=
  foldr (fun item total => snd item + total) 0 items.

(** Strictly ascending in the key text. *)
Definition ascending_keys (items : list (string * Z)) : Prop :=
  StronglySorted (fun x y => String.ltb (fst x) (fst y) = true) items.

(** Every timestamp is an ISO text that carries an offset. *)
Definition offset_aware (stamp : string) : Prop :=
  exists t off, fromisoformat stamp = Ok t /\ tzinfo t = Some off.

(** *** Scenario *)

(** A pull request opened on Monday the 30th of December 2024, which the
    ISO calendar counts in the first week of 2025, and one opened in the
    first week of January 2024. *)
Definition new_year_prs : list pull_request :=
  [PullRequest "site" "2024-01-03T10:00:00+00:00";
   PullRequest "site" "2024-12-30T10:00:00+00:00"].

(** An issue closed in March 2024 and one still open. *)
Definition two_issues : list tracked_issue :=
  [TrackedIssue (Issue "site" "2024-03-01T09:00:00+00:00") (Some "2024-03-04T17:30:00+00:00");
   TrackedIssue (Issue "site" "2024-03-02T09:00:00+00:00") None].

End MetricsSummary.

(** ** rankings_processor.py: the ranking by language, and all the
    rankings at once *)

Module RankingsSummary.
Import PyDatetime PyCalendar RankingsProcessor.

(** *** rank_by_language *)

Record language_entry : Type := LanguageEntry {
  le_name : string;
  le_full_name : string;
  le_stars : Z;
  activity : Z;
  le_private : bool
}.

(** [activity_scores[name] += 1] on a [defaultdict(int)]. *)
Definition add_activity (activity_scores : gmap string Z) (name : string)
  : gmap string Z :=
  <[name := default 0 (activity_scores !! name) + 1]> activity_scores.

Definition activity_scores (commit_list : list commit) (pr_list : list pull_request)
    (issue_list : list issue) : gmap string Z :=
  foldl (fun m i => add_activity m (issue_repo i))
        (foldl (fun m pr => add_activity m (pr_repo pr))
               (foldl (fun m c => add_activity m (commit_repo c)) ∅ commit_list)
               pr_list)
        issue_list.

(** [by_language[lang].append(...)] on a [defaultdict(list)], for a
    repository with a language. *)
Definition group_repo (scores : gmap string Z) (by_language : gmap string (list language_entry))
    (r : repo) : gmap string (list language_entry) :=
  match language r with
  | Some lang =>
      if String.eqb lang "" then by_language
      else
        <[lang := default [] (by_language !! lang)
                  ++ [LanguageEntry (repo_name r) (full_name r) (stars r)
                                    (default 0 (scores !! repo_name r)) (is_private r)]]>
          by_language
  | None => by_language
  end.

Definition rank_by_language (repos : list repo) (commit_list : list commit)
    (pr_list : list pull_request) (issue_list : list issue)
  : gmap string (list language_entry) :=
  let scores := activity_scores commit_list pr_list issue_list in
  let by_language := foldl (group_repo scores) ∅ repos in
  sort_by_key_desc activity <$> by_language.

(** *** generate_rankings *)

Record rankings : Type := Rankings {
  rankings_last_update : string;
  top_projects : list activity_entry;
  most_active : list commits_entry;
  most_stars : list stars_entry;
  most_recent : list recent_entry;
  by_language : gmap string (list language_entry)
}.

(** The two readings of the UTC clock are that of the last update and that
    of [rank_by_recent_activity]. *)
Definition generate_rankings (clock_update clock_recent : datetime) (repos : list repo)
    (commit_list : list commit) (pr_list : list pull_request) (issue_list : list issue)
  : result rankings :=
  let last_update := datetime_isoformat (now_utc clock_update) in
  let top_projects := rank_by_activity repos commit_list pr_list issue_list 10 in
  let most_active := rank_by_commits repos commit_list 10 in
  let most_stars := rank_by_stars repos 10 in
  let* most_recent := rank_by_recent_activity clock_recent repos 10 in
  Ok (Rankings last_update top_projects most_active most_stars most_recent
               (rank_by_language repos commit_list pr_list issue_list)).

(** *** What the properties speak of *)

(** The commits, pull requests and issues that name the repository. *)
Definition mentions (name : string) (commit_list : list commit)
    (pr_list : list pull_request) (issue_list : list issue) : Z :=
  Z.of_nat (length (List.filter (fun c => String.eqb (commit_repo c) name) commit_list))
  + Z.of_nat (length (List.filter (fun pr => String.eqb (pr_repo pr) name) pr_list))
  + Z.of_nat (length (List.filter (fun i => String.eqb (issue_repo i) name) issue_list)).

(** The repositories written in [lang], in the order of the list. *)
Definition written_in (lang : string) (repos : list repo) : list repo :=
  List.filter (fun r => match language r with
                        | Some l => String.eqb l lang
                        | None => false
                        end) repos.

(** The entry of the ranking by language for a repository. *)
Definition entry_of (commit_list : list commit) (pr_list : list pull_request)
    (issue_list : list issue) (r : repo) : language_entry :=
  LanguageEntry (repo_name r) (full_name r) (stars r)
                (mentions (repo_name r) commit_list pr_list issue_list) (is_private r).

(** The entry of the ranking by stars for a repository. *)
Definition stars_entry_of (r : repo) : stars_entry :=
  StarsEntry (repo_name r) (full_name r) (language r) (stars r) (forks r) (description r).

(** The commits, the pull requests and the issues that name a repository,
    each counted apart. *)
Definition breakdown_of (name : string) (commit_list : list commit)
    (pr_list : list pull_request) (issue_list : list issue) : breakdown :=
  Breakdown
    (Z.of_nat (length (List.filter (fun c => String.eqb (commit_repo c) name) commit_list)))
    (Z.of_nat (length (List.filter (fun pr => String.eqb (pr_repo pr) name) pr_list)))
    (Z.of_nat (length (List.filter (fun i => String.eqb (issue_repo i) name) issue_list))).

(** The elements of [l] whose key is [k], in the order of [l]. *)
Definition with_key {A : Type} (key : A -> Z) (k : Z) (l : list A) : list A :=
  List.filter (fun x => key x =? k) l.

(** *** Scenario: three repositories in one language, the first and the
    last with seven stars; one commit, in the second *)
Definition tied_stars : list repo :=
  [Repo "delta" "me/delta" None (Some "Go") 7 0 None None false;
   Repo "gamma" "me/gamma" None (Some "Go") 9 0 None None false;
   Repo "alpha" "me/alpha" None (Some "Go") 7 0 None None false].

Definition gamma_commit : list commit := [Commit "gamma" "2024-03-01T08:00:00+00:00"].

End RankingsSummary.

(** ** career_timeline_generator.py: dates, durations and the layout of
    the cards *)

Module CareerCards.
Import PyDatetime CareerTimelineGenerator ActivityCalendarGenerator.

(** [date.strftime("%b %Y")]. *)
Definition strftime_b_Y (t : datetime) : string :=
  month_abbr (month (dt_date t)) +:+ " " +:+ year_text t.

(** [_format_date]; [now] is what [datetime.now()] returns. *)
Definition _format_date (now : datetime) (date_str mode : string) : result string :=
  if String.eqb (lower date_str) "present" then Ok "Present"
  else
    let* date := _parse_date now date_str in
    if String.eqb mode "year_only" then Ok (year_text date)
    else if String.eqb mode "month_year" then Ok (strftime_b_Y date)
    else if String.eqb mode "hidden" then Ok "•••"
    else Ok (strftime_b_Y date).

(** [_escape_xml], for a text. *)
Definition _escape_xml (text : string) : string := html_escape text.

(** [_calculate_duration]. *)
Definition _calculate_duration (now : datetime) (start end_ : string) : result string :=
  let* start_date := _parse_date now start in
  let* end_date := _parse_date now end_ in
  let delta := relativedelta_between end_date start_date in
  let years := years delta in
  let months := months delta in
  let parts :=
    (if 0 <? years then [str_int years +:+ "y"] else [])
    ++ (if 0 <? months then [str_int months +:+ "m"] else []) in
  Ok (match parts with
      | [] => "&lt; 1m"
      | _ => join " " parts
      end).

(** *** generate_timeline: the rows of cards and the height *)

Definition cards_per_row : Z := 4.

(** The number of rows, from the number of entries. *)
Definition num_rows (num_entries : Z) : Z :=
  (num_entries + cards_per_row - 1) / cards_per_row.

(** The height of the picture. *)
Definition timeline_height (num_entries : Z) : Z :=
  let card_spacing_above := 200 in
  let card_spacing_below := 220 in
  let row_spacing := card_spacing_below + 60 in
  let header_height := 120 in
  let footer_height := 120 in
  let num_rows := num_rows num_entries in
  if num_rows =? 0 then 400
  else if num_rows =? 1 then
    header_height + card_spacing_above + card_spacing_below + footer_height
  else
    header_height + (card_spacing_above + card_spacing_below)
    + (row_spacing * (num_rows - 1)) + footer_height.

(** [sorted(timeline_entries, key=lambda e: self._parse_date(e.get('date_start', '')))]
    (lines 273 to 277, which a list without entries does not reach): the
    keys are computed first, each of them may raise. *)
Definition sorted_entries (now : datetime) (timeline_entries : list entry)
  : result (list entry) :=
  let* keys :=
    map_result (fun e => _parse_date now (default "" (date_start e))) timeline_entries in
  Ok (map snd (py_sort (fun x y => naive_leb (fst x) (fst y))
                       (combine keys timeline_entries))).

(** [range(0, n, step)]. *)
Definition range_step (n step : nat) : list nat :=
  map (fun k => k * step)%nat (seq 0 ((n + step - 1) / step)).

(** The loop that cuts the sorted entries into rows (lines 280 to 283):
    [rows.append(sorted_entries[i:i + cards_per_row])] for [i] in
    [range(0, len(sorted_entries), cards_per_row)].  The cards are drawn
    from these rows afterwards; that part of [generate_timeline], which
    reads the end dates and may raise as well, is not embedded. *)
Definition rows_of {A : Type} (sorted_entries : list A) : list (list A) :=
  map (fun i => take 4 (drop i sorted_entries)) (range_step (length sorted_entries) 4).

(** *** generate_timeline: the texts of a card *)

(** A title, a company or a description cut to its card: more than
    [limit] characters become the first [limit - 3] and three dots. *)
Definition shorten (limit : nat) (text : string) : string :=
  if Z.of_nat limit <? py_len text then take_chars (limit - 3) text +:+ "..." else text.

(** The title of a card, as it is written into the picture. *)
Definition card_title (title : option string) : string :=
  _escape_xml (shorten 28 (default "Position" title)).

(** The line of dates of a card; [show_duration] is the setting of the
    file or that of the entry. *)
Definition card_date_text (now : datetime) (e : entry) (date_mode : string)
    (show_duration : bool) : result string :=
  let* start_date := _format_date now (default "" (date_start e)) date_mode in
  let* end_date := _format_date now (default "present" (date_end e)) date_mode in
  let date_text := start_date +:+ " - " +:+ end_date in
  let* date_text :=
    if show_duration then
      let* duration :=
        _calculate_duration now (default "" (date_start e)) (default "present" (date_end e)) in
      Ok (date_text +:+ " (" +:+ duration +:+ ")")
    else Ok date_text in
  Ok (_escape_xml date_text).

(** *** generate_compact_experience: the number of years *)

Definition years_display (now : datetime) (timeline_entries : list entry)
  : result string :=
  let work_entries := List.filter is_work timeline_entries in
  let* total_experience := _calculate_total_experience now work_entries in
  Ok (if has_char "y" total_experience then before_char "y" total_experience else "0").

(** *** What the properties speak of *)

(** The start of [e1] is read, that of [e2] too, and the first is not
    after the second. *)
Definition starts_in_order (now : datetime) (e1 e2 : entry) : Prop :=
  exists t1 t2,
    _parse_date now (default "" (date_start e1)) = Ok t1
    /\ _parse_date now (default "" (date_start e2)) = Ok t2
    /\ naive_leb t1 t2 = true.

(** The text holds none of the characters that open or close a tag or an
    attribute value. *)
Definition markup_free (s : string) : Prop :=
  has_char "<" s = false /\ has_char ">" s = false
  /\ has_char quote_char s = false /\ has_char "'" s = false.

(** *** Scenario: six entries, not in the order of their starts *)
Definition six_entries : list entry :=
  [Entry (Some "work") (Some "2023-02") None;
   Entry (Some "education") (Some "2015-03") (Some "2019-12");
   job_b;
   job_a;
   Entry (Some "work") (Some "2019-01") (Some "2019-12");
   Entry (Some "education") (Some "2012-02") (Some "2014-12")].

End CareerCards.
(** ** Proof tactics *)

(** Comparisons of dates and datetimes, field by field. *)
Ltac by_fields :=
  unfold PyDatetime.naive_max, PyDatetime.naive_leb, PyDatetime.naive_ltb,
    PyDatetime.naive_compare, PyDatetime.date_compare, PyDatetime.lex in *;
  repeat match goal with
         | |- context [?a ?= ?b] => destruct (Z.compare_spec a b)
         | H : context [?a ?= ?b] |- _ => destruct (Z.compare_spec a b)
         end;
  simpl in *; try lia; try congruence.

(** An entry that the filter of a ranking keeps passed its test, [0 <? key]. *)
Ltac passes_test :=
  let E := fresh "E" in
  intros ? ? He; cbv zeta in He;
  match type of He with
  | (if ?b then _ else _) = _ => destruct b eqn:E; [|discriminate]
  end;
  injection He as <-; simpl; now apply Z.ltb_lt.

(* ===================================================================== *)
(** * Part II: the properties                                             *)
(* ===================================================================== *)

(** ** The stable sort *)

Section PySortFacts.
Context {A : Type} (before : A -> A -> bool).

Lemma insert_sorted_perm (x : A) (l : list A) :
  Permutation (insert_sorted before x l) (x :: l).
Proof.
  induction l as [|y l IH]; simpl; [reflexivity|].
  destruct (before x y); [reflexivity|].
  rewrite IH. apply perm_swap.
Qed.

Lemma py_sort_perm (l : list A) : Permutation (py_sort before l) l.
Proof.
  induction l as [|x l IH]; simpl; [reflexivity|].
  rewrite insert_sorted_perm. now constructor.
Qed.

Section Order.
Variable P : A -> Prop.
Variable R : A -> A -> Prop.
Hypothesis R_trans : forall x y z, R x y -> R y z -> R x z.
Hypothesis before_R : forall x y, P x -> P y -> before x y = true -> R x y.
Hypothesis not_before_R : forall x y, P x -> P y -> before x y = false -> R y x.

Lemma insert_sorted_StronglySorted (x : A) (l : list A) :
  P x -> Forall P l -> StronglySorted R l ->
  StronglySorted R (insert_sorted before x l).
Proof.
  intros Px Pl Hs. induction l as [|y l IH]; simpl.
  - repeat constructor.
  - apply Forall_cons_1 in Pl as [Py Pl].
    apply StronglySorted_inv in Hs as [Hs Hy].
    destruct (before x y) eqn:Hb.
    + constructor; [now constructor|].
      constructor; [now apply before_R|].
      eapply Forall_impl; [exact Hy|]. intros z Hz. simpl in Hz.
      eapply R_trans; [apply before_R|]; eauto.
    + constructor; [now apply IH|].
      rewrite insert_sorted_perm. constructor; [now apply not_before_R|done].
Qed.

Lemma py_sort_StronglySorted (l : list A) :
  Forall P l -> StronglySorted R (py_sort before l).
Proof.
  induction 1 as [|x l Px Pl IH]; simpl; [constructor|].
  apply insert_sorted_StronglySorted; auto.
  now rewrite py_sort_perm.
Qed.
End Order.
End PySortFacts.

(** Pairs of a list, for a symmetric relation, do not depend on the order
    of the list. *)
Lemma ForallOrdPairs_perm {A : Type} (R : A -> A -> Prop) (l l' : list A) :
  (forall x y, R x y -> R y x) ->
  Permutation l l' -> ForallOrdPairs R l -> ForallOrdPairs R l'.
Proof.
  intros Hsym Hp. induction Hp as [|x l l' Hp IH|x y l|l l' l'' _ IH1 _ IH2]; intros H.
  - constructor.
  - inversion H as [|? ? Hx Hl]; subst. constructor; [|now apply IH].
    now rewrite <- Hp.
  - inversion H as [|? ? Hy Hl]; subst.
    inversion Hl as [|? ? Hx Hl']; subst.
    inversion Hy as [|? ? Hyx Hyl]; subst.
    constructor; [constructor; [now apply Hsym|done]|].
    now constructor.
  - auto.
Qed.

(** ** Calendar facts *)

Module PyDatetimeFacts.
Import PyDatetime.

Lemma days_in_month_ge (y m : Z) : 28 <= days_in_month y m.
Proof.
  unfold days_in_month.
  repeat match goal with |- context [if ?b then _ else _] => destruct b end; lia.
Qed.

Lemma set_months_total (n : Z) :
  years (set_months n) * 12 + months (set_months n) = n.
Proof.
  unfold set_months. destruct (11 <? Z.abs n) eqn:E; simpl; [|lia].
  assert (Hs : Z.sgn n * Z.sgn n = 1) by (destruct n; simpl in *; lia).
  pose proof (Z.div_mod (n * Z.sgn n) 12 ltac:(lia)). nia.
Qed.

Lemma naive_leb_ltb (a b : datetime) : naive_ltb b a = negb (naive_leb a b).
Proof. by_fields. Qed.

Lemma month_index_max (a b : datetime) :
  1 <= month (dt_date a) <= 12 -> 1 <= month (dt_date b) <= 12 ->
  month_index (dt_date (naive_max a b))
  = Z.max (month_index (dt_date a)) (month_index (dt_date b)).
Proof. unfold month_index. intros. by_fields. Qed.

End PyDatetimeFacts.

(** ** Total experience *)

Module CareerFacts.
Import PyDatetime PyDatetimeFacts CareerTimelineGenerator.

Lemma month_start_clock (t : datetime) : month_start t -> clock_value t.
Proof. unfold month_start, clock_value. lia. Qed.

(** From the start of a month to a later moment, the whole months are the
    difference of the two month numbers. *)
Lemma whole_months_from_month_start (s e : datetime) :
  month_start s -> clock_value e -> naive_leb s e = true ->
  whole_months e s = month_index (dt_date e) - month_index (dt_date s).
Proof.
  intros (Hm & Hd & Hu) (Hme & Hde & Hue) Hle.
  unfold whole_months.
  rewrite naive_leb_ltb, Hle. simpl.
  set (n := month_index (dt_date e) - month_index (dt_date s)).
  assert (Hi : month_index (dt_date s) + n = year (dt_date e) * 12 + (month (dt_date e) - 1))
    by (unfold n, month_index; lia).
  assert (Hy : (month_index (dt_date s) + n) / 12 = year (dt_date e)).
  { rewrite Hi. symmetry. apply (Z.div_unique_pos _ _ _ (month (dt_date e) - 1)); lia. }
  assert (Hmo : (month_index (dt_date s) + n) mod 12 + 1 = month (dt_date e)).
  { rewrite Hi.
    enough (month (dt_date e) - 1
            = (year (dt_date e) * 12 + (month (dt_date e) - 1)) mod 12) by lia.
    apply Z.mod_unique_pos with (q := year (dt_date e)); lia. }
  unfold add_months. rewrite Hy, Hmo, Hd, Hu.
  pose proof (days_in_month_ge (year (dt_date e)) (month (dt_date e))).
  rewrite Z.min_l by lia.
  destruct e as [[ye me de] ue tze]. simpl in *.
  assert (Hnot : naive_ltb (DateTime (Date ye me de) ue tze)
                            (DateTime (Date ye me 1) 0 (tzinfo s)) = false).
  { unfold naive_ltb, naive_compare, date_compare, lex. simpl.
    rewrite !Z.compare_refl.
    destruct (Z.compare_spec de 1); try reflexivity; try lia.
    destruct (Z.compare_spec ue 0); try reflexivity; lia. }
  now rewrite Hnot.
Qed.

Lemma period_months_span (p : period) :
  well_formed p -> period_months p = snd (span p) - fst (span p).
Proof.
  intros (Hs & He & Hle). unfold period_months, relativedelta_between.
  rewrite set_months_total. now apply whole_months_from_month_start.
Qed.

(** The test of the merge loop, on month numbers. *)
Lemma leb_from_month_start (a b : datetime) :
  month_start a -> clock_value b ->
  naive_leb a b = true <-> month_index (dt_date a) <= month_index (dt_date b).
Proof.
  intros (Hm & Hd & Hu) (Hmb & Hdb & Hub). unfold month_index. split; intros H; by_fields.
Qed.

Lemma naive_max_clock (a b : datetime) :
  clock_value a -> clock_value b -> clock_value (naive_max a b).
Proof. unfold naive_max. now destruct (naive_ltb a b). Qed.

Lemma total_months_sum (l : list period) (acc : Z) :
  foldl (fun total p => total + period_months p) acc l = acc + naive_months l.
Proof.
  revert acc. induction l as [|p l IH]; intros acc; simpl; [lia|].
  rewrite IH. lia.
Qed.

Lemma total_months_naive (l : list period) : total_months l = naive_months l.
Proof. unfold total_months. now rewrite total_months_sum. Qed.

Lemma naive_months_app (l1 l2 : list period) :
  naive_months (l1 ++ l2) = naive_months l1 + naive_months l2.
Proof. induction l1 as [|p l1 IH]; simpl; [lia|]. rewrite IH. lia. Qed.

Lemma naive_months_perm (l1 l2 : list period) :
  Permutation l1 l2 -> naive_months l1 = naive_months l2.
Proof. induction 1; simpl; lia. Qed.

Lemma counted_twice_nonneg (l : list (Z * Z)) (reach : Z) : 0 <= counted_twice reach l.
Proof.
  revert reach. induction l as [|[s e] l IH]; intros reach; simpl; [lia|].
  specialize (IH (Z.max reach e)). lia.
Qed.

(** What the merge loop computes: every interval's months, less the
    months counted twice. *)
Lemma merge_loop_months (rest done : list period) (last : period) :
  well_formed last -> Forall well_formed rest ->
  total_months (merge_loop done last rest)
  = naive_months done + period_months last + naive_months rest
    - counted_twice (snd (span last)) (map span rest).
Proof.
  revert done last. induction rest as [|[cs ce] rest IH]; intros done [ls le] Hl Hr.
  - simpl. rewrite total_months_naive, naive_months_app. simpl. lia.
  - apply Forall_cons_1 in Hr as [Hc Hr].
    pose proof Hl as (Hls & Hle & Hlle). pose proof Hc as (Hcs & Hce & Hcle).
    simpl in Hls, Hle, Hlle, Hcs, Hce, Hcle.
    pose proof (proj1 (leb_from_month_start _ _ Hls Hle) Hlle) as Hl1.
    pose proof (proj1 (leb_from_month_start _ _ Hcs Hce) Hcle) as Hc1.
    assert (Hmle : 1 <= month (dt_date le) <= 12) by apply Hle.
    assert (Hmce : 1 <= month (dt_date ce) <= 12) by apply Hce.
    cbn [merge_loop map naive_months foldr].
    destruct (naive_leb cs le) eqn:Hm.
    + assert (Hnew : well_formed (ls, naive_max le ce)).
      { split; [exact Hls|]. split; [now apply naive_max_clock|]. simpl.
        apply leb_from_month_start; [done|now apply naive_max_clock|].
        rewrite month_index_max by done. lia. }
      etransitivity; [exact (IH done _ Hnew Hr)|].
      rewrite (period_months_span _ Hnew), (period_months_span _ Hl),
        (period_months_span _ Hc).
      apply (leb_from_month_start _ _ Hcs Hle) in Hm.
      unfold span; simpl. rewrite month_index_max by done.
      fold (naive_months rest). lia.
    + etransitivity; [exact (IH (done ++ [(ls, le)]) _ Hc Hr)|].
      rewrite naive_months_app.
      assert (Hgt : month_index (dt_date le) < month_index (dt_date cs)).
      { destruct (Z.lt_ge_cases (month_index (dt_date le)) (month_index (dt_date cs)));
          [done|].
        apply (leb_from_month_start _ _ Hcs Hle) in H. congruence. }
      rewrite (period_months_span _ Hc).
      unfold span; simpl. fold (naive_months rest).
      replace (Z.max (month_index (dt_date le)) (month_index (dt_date ce)))
        with (month_index (dt_date ce)) by lia.
      lia.
Qed.

Lemma merge_loop_well_formed (rest done : list period) (last : period) :
  Forall well_formed done -> well_formed last -> Forall well_formed rest ->
  Forall well_formed (merge_loop done last rest).
Proof.
  revert done last. induction rest as [|[cs ce] rest IH]; intros done [ls le] Hd Hl Hr.
  - simpl. apply Forall_app. split; [done|]. now constructor.
  - apply Forall_cons_1 in Hr as [Hc Hr].
    cbn [merge_loop]. destruct (naive_leb cs le) eqn:Hm.
    + apply IH; [done| |done].
      destruct Hl as (Hls & Hle & Hlle), Hc as (Hcs & Hce & Hcle). simpl in *.
      split; [exact Hls|]. split; [now apply naive_max_clock|]. simpl.
      apply leb_from_month_start; [done|now apply naive_max_clock|].
      apply (leb_from_month_start _ _ Hls Hle) in Hlle.
      rewrite month_index_max by (apply Hle || apply Hce). lia.
    + apply IH; [|done|done].
      apply Forall_app. split; [done|]. now constructor.
Qed.

Lemma naive_months_nonneg (l : list period) :
  Forall well_formed l -> 0 <= naive_months l.
Proof.
  induction 1 as [|p l Hp Hl IH]; simpl; [lia|].
  rewrite (period_months_span _ Hp).
  destruct Hp as (Hs & He & Hle).
  apply (leb_from_month_start _ _ Hs He) in Hle. unfold span; simpl. lia.
Qed.

Lemma sort_periods_well_formed (l : list period) :
  Forall well_formed l -> Forall well_formed (sort_periods l).
Proof. intros H. unfold sort_periods. now rewrite py_sort_perm. Qed.

Lemma merged_months_nonneg (l : list period) :
  Forall well_formed l -> 0 <= merged_months l.
Proof.
  intros H. unfold merged_months. rewrite total_months_naive.
  apply naive_months_nonneg.
  pose proof (sort_periods_well_formed l H) as Hs.
  destruct (sort_periods l) as [|p rest]; simpl; [constructor|].
  apply Forall_cons_1 in Hs as [Hp Hrest].
  now apply merge_loop_well_formed.
Qed.

(** The sorted starts, as month numbers, never go down. *)
Lemma sort_periods_sorted (l : list period) :
  Forall well_formed l ->
  StronglySorted (fun a b => fst a <= fst b) (map span (sort_periods l)).
Proof.
  intros H.
  assert (Hs : StronglySorted (fun p q => fst (span p) <= fst (span q)) (sort_periods l)).
  { unfold sort_periods.
    apply (py_sort_StronglySorted _ well_formed); [| | |done].
    - intros x y z. simpl. lia.
    - intros x y (Hx & _) (Hy & _) Hb. simpl.
      now apply (leb_from_month_start _ _ Hx (month_start_clock _ Hy)).
    - intros x y (Hx & _) (Hy & _) Hb. simpl.
      destruct (Z.le_gt_cases (month_index (dt_date (fst y))) (month_index (dt_date (fst x))));
        [done|].
      assert (naive_leb (fst x) (fst y) = true); [|congruence].
      apply (leb_from_month_start _ _ Hx (month_start_clock _ Hy)). lia. }
  induction Hs as [|p rest Hs IH Hp]; simpl; constructor; [done|].
  now apply List.Forall_map.
Qed.

Lemma span_valid (l : list period) :
  Forall well_formed l -> Forall (fun c => fst c <= snd c) (map span l).
Proof.
  intros H. apply List.Forall_map. eapply Forall_impl; [exact H|].
  intros p (Hs & He & Hle). simpl.
  now apply (leb_from_month_start _ _ Hs He) in Hle.
Qed.

Lemma ForallOrdPairs_map {A B : Type} (f : A -> B) (R : B -> B -> Prop) (l : list A) :
  ForallOrdPairs R (map f l) <-> ForallOrdPairs (fun x y => R (f x) (f y)) l.
Proof.
  induction l as [|x l IH]; simpl.
  - split; constructor.
  - split; intros H; inversion H as [|? ? Hx Hl]; subst; constructor.
    + exact (proj1 (List.Forall_map f (R (f x)) l) Hx).
    + now apply IH.
    + exact (proj2 (List.Forall_map f (R (f x)) l) Hx).
    + now apply IH.
Qed.

(** No month is counted twice exactly when no two of the intervals share
    a month (for intervals in the order of their starts). *)
Lemma counted_twice_zero (l : list (Z * Z)) (reach : Z) :
  StronglySorted (fun a b => fst a <= fst b) l ->
  Forall (fun c => fst c <= snd c) l ->
  counted_twice reach l = 0
  <-> Forall (fun c => ~ (fst c < reach /\ fst c < snd c)) l
      /\ ForallOrdPairs (fun a b => ~ share a b) l.
Proof.
  intros Hs Hv. revert reach.
  induction l as [|[s e] l IH]; intros reach.
  - simpl. split; [intros _; split; constructor|reflexivity].
  - apply StronglySorted_inv in Hs as [Hs Hse].
    apply Forall_cons_1 in Hv as [Hv1 Hv].
    specialize (IH Hs Hv (Z.max reach e)).
    pose proof (counted_twice_nonneg l (Z.max reach e)) as Hnn.
    assert (Hsplit :
      Forall (fun c => ~ (fst c < Z.max reach e /\ fst c < snd c)) l
      <-> Forall (fun c => ~ (fst c < reach /\ fst c < snd c)) l
          /\ Forall (fun c => ~ share (s, e) c) l).
    { rewrite !Forall_forall. unfold share. simpl in *.
      rewrite Forall_forall in Hse.
      split.
      - intros H. split; intros c Hc; specialize (H c Hc); specialize (Hse c Hc);
          simpl in Hse; lia.
      - intros [H1 H2] c Hc. specialize (H1 c Hc). specialize (H2 c Hc).
        specialize (Hse c Hc). simpl in Hse. lia. }
    simpl in *. split.
    + intros H0.
      assert (H1 : counted_twice (Z.max reach e) l = 0) by lia.
      apply IH in H1 as [Ha Hb]. apply Hsplit in Ha as [Ha1 Ha2].
      split; constructor; try done. simpl. lia.
    + intros [Ha Hb].
      apply Forall_cons_1 in Ha as [Ha0 Ha]. simpl in Ha0.
      inversion Hb as [|? ? Hb1 Hb2]; subst.
      assert (H1 : counted_twice (Z.max reach e) l = 0).
      { apply IH. split; [|done]. apply Hsplit. now split. }
      lia.
Qed.

Lemma share_month_sym (p q : period) : share_month p q -> share_month q p.
Proof. unfold share_month. lia. Qed.

(** The months of the merged intervals: the months of all the intervals,
    less those counted twice. *)
Lemma merged_months_formula (l : list period) (first : period) (rest : list period) :
  Forall well_formed l -> sort_periods l = first :: rest ->
  merged_months l
  = naive_months l - counted_twice (snd (span first)) (map span rest).
Proof.
  intros Hwf Hsort.
  pose proof (sort_periods_well_formed l Hwf) as Hs. rewrite Hsort in Hs.
  apply Forall_cons_1 in Hs as [Hf Hr].
  unfold merged_months. rewrite Hsort. simpl.
  rewrite (merge_loop_months rest [] first Hf Hr).
  assert (Hp : naive_months l = naive_months (first :: rest)).
  { apply naive_months_perm. rewrite <- Hsort. symmetry. apply py_sort_perm. }
  rewrite Hp. simpl. lia.
Qed.

Lemma counted_twice_first (a : Z * Z) (l : list (Z * Z)) :
  StronglySorted (fun a b => fst a <= fst b) (a :: l) ->
  Forall (fun c => fst c <= snd c) (a :: l) ->
  counted_twice (snd a) l = 0 <-> ForallOrdPairs (fun a b => ~ share a b) (a :: l).
Proof.
  intros Hs Hv.
  apply StronglySorted_inv in Hs as [Hs Ha].
  apply Forall_cons_1 in Hv as [_ Hv].
  rewrite (counted_twice_zero l (snd a) Hs Hv).
  assert (Hfirst :
    Forall (fun c => ~ (fst c < snd a /\ fst c < snd c)) l
    <-> Forall (fun c => ~ share a c) l).
  { rewrite !Forall_forall. rewrite Forall_forall in Ha. unfold share.
    split; intros H c Hc; specialize (H c Hc); specialize (Ha c Hc); lia. }
  rewrite Hfirst. split.
  - intros [H1 H2]. now constructor.
  - intros H. inversion H; subst. now split.
Qed.

Lemma digit_val_range (c : ascii) (d : Z) : digit_val c = Some d -> 0 <= d <= 9.
Proof.
  unfold digit_val. destruct (_ && _) eqn:E; [|discriminate].
  intros [= <-]. apply andb_true_iff in E as [E1 E2].
  apply Z.leb_le in E1, E2. lia.
Qed.

Lemma nonzero_digit_range (s rest : list ascii) (m : Z) :
  nonzero_digit s = Some (m, rest) -> 1 <= m <= 12.
Proof.
  unfold nonzero_digit. destruct s as [|c s]; [discriminate|].
  destruct (digit_val c) as [d|] eqn:Hd; [|discriminate].
  apply digit_val_range in Hd.
  destruct (1 <=? d) eqn:E; [|discriminate]. intros [= <- _].
  apply Z.leb_le in E. lia.
Qed.

Lemma strptime_month_range (s rest : list ascii) (m : Z) :
  strptime_month s = Some (m, rest) -> 1 <= m <= 12.
Proof.
  unfold strptime_month.
  destruct s as [|c1 [|c2 s]]; try apply nonzero_digit_range.
  destruct (digit_val c1) as [d1|] eqn:H1; [|apply nonzero_digit_range].
  destruct (digit_val c2) as [d2|] eqn:H2;
    [|destruct d1 as [|[| |]|]; apply nonzero_digit_range].
  apply digit_val_range in H2.
  destruct d1 as [|[| |]|]; try apply nonzero_digit_range.
  - destruct (1 <=? d2) eqn:E; [|discriminate]. intros [= <- _].
    apply Z.leb_le in E. lia.
  - destruct (d2 <=? 2) eqn:E; [|apply nonzero_digit_range]. intros [= <- _].
    apply Z.leb_le in E. lia.
Qed.

(** What [strptime] returns for a date written YYYY-MM is the start of a
    month. *)
Lemma strptime_month_start (s : string) (t : datetime) :
  strptime_year_month s = Ok t -> month_start t.
Proof.
  unfold strptime_year_month.
  destruct (take_digits 4 _ 0) as [[y [|c rest]]|]; try discriminate.
  destruct (Ascii.eqb c "-"); [|discriminate].
  destruct (strptime_month rest) as [[m [|c' rest']]|] eqn:Hm; try discriminate.
  destruct (1 <=? y); [|discriminate]. intros [= <-].
  apply strptime_month_range in Hm. repeat split; simpl; lia.
Qed.

(** The periods the first loop collects, when no entry is written with the
    present as its start: each runs from the start of a month to the start
    of a month or to the reading of the clock. *)
Lemma collected_periods_shape (now : datetime) (entries : list entry) (periods : list period) :
  clock_value now ->
  Forall (fun e => is_work e = true ->
                   lower (default "" (date_start e)) <> "present") entries ->
  collect_periods now entries = Ok periods ->
  Forall (fun p => month_start (fst p) /\ clock_value (snd p)) periods.
Proof.
  intros Hnow Hstarts. revert periods.
  induction Hstarts as [|e entries He _ IH]; intros periods H; simpl in H.
  - injection H as <-. constructor.
  - destruct (is_work e); [|now apply IH].
    specialize (He eq_refl).
    unfold _parse_date in H at 1.
    destruct (String.eqb_spec (lower (default "" (date_start e))) "present"); [done|].
    destruct (strptime_year_month _) as [start|] eqn:Hstart; [|discriminate].
    simpl in H.
    destruct (_parse_date now _) as [end_|] eqn:Hend; [|discriminate]. simpl in H.
    destruct (collect_periods now entries) as [ps|]; [|discriminate]. simpl in H.
    injection H as <-. constructor; [|now apply IH].
    split; [now apply strptime_month_start in Hstart|]. simpl.
    unfold _parse_date in Hend. destruct (String.eqb _ "present").
    + now injection Hend as <-.
    + apply strptime_month_start in Hend. now apply month_start_clock.
Qed.

(** C1 (as the claim states it, refuted): for the two jobs of the scenario
    the merged total is not 30 months. *)
Lemma two_jobs_not_30_months :
  ~ (exists now periods,
        collect_periods now [job_a; job_b] = Ok periods
        /\ merged_months periods = 30).
Proof.
  intros (now & periods & Hc & H30).
  vm_compute in Hc. injection Hc as <-.
  vm_compute in H30. discriminate.
Qed.

(** C1 (amended): for the two work entries Job A, 2020-01 to 2021-12, and
    Job B, 2021-06 to 2022-06, the merged total experience is 29 months, the
    calendar difference between 2020-01 and 2022-06 (rendered as 2y 5m),
    and not the sum of the two jobs taken separately, 23 + 12 = 35 months. *)
Theorem two_jobs_29_months (now : datetime) :
  _calculate_total_experience now [job_a; job_b] = Ok "2y 5m"
  /\ exists a b,
       collect_periods now [job_a; job_b] = Ok [a; b]
       /\ merged_months [a; b] = 29
       /\ period_months a = 23 /\ period_months b = 12
       /\ naive_months [a; b] = 35.
Proof.
  split; [reflexivity|].
  eexists _, _. split; [reflexivity|].
  repeat split; reflexivity.
Qed.

(** C2 (as the claim states it, refuted).  Read "overlap" as sharing a
    moment, the test of the merge loop: two jobs back to back (one ends in
    the month the next starts in) overlap, and their merged months still
    equal the sum.  Read it as sharing a stretch of time: a job that runs to
    the present, the 15th of a month, and a job started on the 1st of that
    month overlap by two weeks, and the merged months still equal the sum. *)
Lemma equality_with_overlap :
  ~ (forall periods, Forall well_formed periods ->
       merged_months periods <= naive_months periods
       /\ (merged_months periods = naive_months periods <-> no_two touch periods))
  /\ ~ (forall periods, Forall well_formed periods ->
       merged_months periods <= naive_months periods
       /\ (merged_months periods = naive_months periods
           <-> no_two overlap_in_time periods)).
Proof.
  split.
  - intros H.
    assert (Hwf : Forall well_formed back_to_back).
    { repeat constructor; simpl; lia. }
    destruct (H back_to_back Hwf) as [_ [Hno _]].
    specialize (Hno eq_refl).
    inversion Hno as [|? ? Hfirst _]; subst.
    inversion Hfirst as [|? ? Hab _]; subst.
    apply Hab. split; reflexivity.
  - intros H.
    assert (Hwf : Forall well_formed into_the_present).
    { repeat constructor; simpl; lia. }
    destruct (H into_the_present Hwf) as [_ [Hno _]].
    specialize (Hno eq_refl).
    inversion Hno as [|? ? Hfirst _]; subst.
    inversion Hfirst as [|? ? Hab _]; subst.
    apply Hab. split; reflexivity.
Qed.

(** Without the condition that an interval ends no earlier than it starts,
    the merged months can exceed the sum. *)
Example end_before_start_exceeds :
  merged_months end_before_start = 12 /\ naive_months end_before_start = 0.
Proof. split; reflexivity. Qed.

(** C2 (amended): for every list of work intervals, each running from the
    start of a month (a date written YYYY-MM) to a moment not before it, the
    months of the merged intervals are at most the sum of each interval's
    months taken separately, with equality if and only if no two intervals
    have a whole calendar month in common. *)
Theorem merged_at_most_naive (periods : list period) :
  Forall well_formed periods ->
  merged_months periods <= naive_months periods
  /\ (merged_months periods = naive_months periods <-> no_two share_month periods).
Proof.
  intros Hwf.
  pose proof (py_sort_perm (fun x y => naive_leb (fst x) (fst y)) periods) as Hperm.
  fold (sort_periods periods) in Hperm.
  destruct (sort_periods periods) as [|first rest] eqn:Hsort.
  - apply Permutation_nil in Hperm. subst periods.
    split; [reflexivity|]. split; [constructor|reflexivity].
  - rewrite (merged_months_formula _ _ _ Hwf Hsort).
    pose proof (counted_twice_nonneg (map span rest) (snd (span first))) as Hnn.
    split; [lia|].
    pose proof (sort_periods_sorted _ Hwf) as Hsorted.
    pose proof (span_valid _ (sort_periods_well_formed _ Hwf)) as Hvalid.
    rewrite Hsort in Hsorted, Hvalid. simpl in Hsorted, Hvalid.
    pose proof (counted_twice_first _ _ Hsorted Hvalid) as Hzero.
    change (span first :: map span rest) with (map span (first :: rest)) in Hzero.
    rewrite ForallOrdPairs_map in Hzero.
    assert (Hmove : no_two share_month periods <-> no_two share_month (first :: rest)).
    { unfold no_two. split; apply ForallOrdPairs_perm;
        try (intros x y Hxy Hyx; apply Hxy; now apply share_month_sym);
        [now symmetry|done]. }
    rewrite Hmove. unfold no_two.
    change (ForallOrdPairs (fun p q => ~ share_month p q) (first :: rest))
      with (ForallOrdPairs (fun x y => ~ share (span x) (span y)) (first :: rest)).
    rewrite <- Hzero. lia.
Qed.

(** A witness for C2: the two jobs of the scenario. *)
Lemma merged_at_most_naive_witness :
  let periods := [(at_month 2020 1, at_month 2021 12); (at_month 2021 6, at_month 2022 6)] in
  merged_months periods <= naive_months periods
  /\ (merged_months periods = naive_months periods <-> no_two share_month periods).
Proof.
  apply merged_at_most_naive.
  repeat constructor; simpl; lia.
Defined.

(** The total experience of a job that runs to the present changes with the
    clock: this text is part of what [generate_timeline] writes. *)
Example total_experience_follows_the_clock :
  _calculate_total_experience (at_month 2024 1) [still_running] = Ok "4y"
  /\ _calculate_total_experience (at_month 2025 7) [still_running] = Ok "5y 6m".
Proof. split; reflexivity. Qed.

(** C6 (as the claim states it, refuted): a job that starts and ends in the
    same month is not rendered as the three characters less-than, space,
    1m. *)
Lemma sub_month_not_plain_text :
  ~ (forall now entries periods,
        collect_periods now entries = Ok periods -> periods <> [] ->
        Forall well_formed periods -> merged_months periods < 1 ->
        _calculate_total_experience now entries = Ok "< 1m").
Proof.
  intros H.
  specialize (H mid_november [one_month_job] [(at_month 2020 1, at_month 2020 1)]
                eq_refl).
  assert (Hwf : Forall well_formed [(at_month 2020 1, at_month 2020 1)]).
  { repeat constructor; simpl; lia. }
  specialize (H ltac:(discriminate) Hwf ltac:(reflexivity)).
  vm_compute in H. discriminate.
Qed.

Lemma collect_periods_nil (now : datetime) (entries : list entry) (periods : list period) :
  collect_periods now entries = Ok periods -> periods <> [] -> entries <> [].
Proof. intros H Hp ->. simpl in H. injection H as <-. now apply Hp. Qed.

(** C6 (amended): an empty list of career entries yields the text 0y, and
    work intervals, at least one, whose merged duration is less than one
    whole month yield the fixed sentinel in its XML-escaped spelling, the
    seven characters ampersand l t semicolon space 1 m (and not a numeric
    zero). *)
Theorem empty_and_sub_month (now : datetime) :
  _calculate_total_experience now [] = Ok "0y"
  /\ forall entries periods,
       collect_periods now entries = Ok periods -> periods <> [] ->
       Forall well_formed periods -> merged_months periods < 1 ->
       _calculate_total_experience now entries = Ok "&lt; 1m".
Proof.
  split; [reflexivity|].
  intros entries periods Hc Hne Hwf Hlt.
  pose proof (collect_periods_nil _ _ _ Hc Hne) as He.
  pose proof (merged_months_nonneg _ Hwf) as Hnn.
  assert (H0 : merged_months periods = 0) by lia.
  unfold _calculate_total_experience.
  destruct entries as [|e entries]; [done|].
  rewrite Hc. simpl. destruct periods as [|p periods]; [done|].
  now rewrite H0.
Qed.

(** A witness for C6: a job that started this month and runs to the
    present. *)
Lemma empty_and_sub_month_witness :
  _calculate_total_experience mid_november
    [Entry (Some "work") (Some "2026-11") (Some "present")] = Ok "&lt; 1m".
Proof.
  apply (proj2 (empty_and_sub_month mid_november) _ [(at_month 2026 11, mid_november)]).
  - reflexivity.
  - discriminate.
  - repeat constructor; simpl; lia.
  - vm_compute. reflexivity.
Defined.

End CareerFacts.

(** ** Results *)

Lemma map_result_ok {A B : Type} (f : A -> result B) (l : list A) :
  Forall (fun x => exists y, f x = Ok y) l ->
  exists ys, map_result f l = Ok ys /\ Forall2 (fun x y => f x = Ok y) l ys.
Proof.
  induction 1 as [|x l [y Hy] Hl (ys & Hys & H2)]; simpl.
  - exists []. split; [reflexivity|constructor].
  - exists (y :: ys). rewrite Hy, Hys. simpl. split; [reflexivity|now constructor].
Qed.

Lemma map_result_inv {A B : Type} (f : A -> result B) (l : list A) (ys : list B) :
  map_result f l = Ok ys -> Forall2 (fun x y => f x = Ok y) l ys.
Proof.
  revert ys. induction l as [|x l IH]; simpl; intros ys H.
  - injection H as <-. constructor.
  - destruct (f x) as [y|e] eqn:Hy; simpl in H; [|discriminate].
    destruct (map_result f l) as [ys'|e]; simpl in H; [|discriminate].
    injection H as <-. constructor; auto.
Qed.

Lemma filter_result_ok {A : Type} (p : A -> result bool) (l : list A) :
  Forall (fun x => exists b, p x = Ok b) l -> exists ys, filter_result p l = Ok ys.
Proof.
  induction 1 as [|x l [b Hb] Hl [ys Hys]]; simpl.
  - now exists [].
  - rewrite Hb, Hys. simpl. eauto.
Qed.

Lemma filter_result_raises {A : Type} (p : A -> result bool) (l : list A) (x : A) (e : exn) :
  In x l -> p x = Raise e -> exists e', filter_result p l = Raise e'.
Proof.
  induction l as [|y l IH]; simpl; [done|].
  intros [->|Hin] Hx.
  - rewrite Hx. simpl. eauto.
  - destruct (p y); simpl; [|eauto].
    destruct (IH Hin Hx) as [e' ->]. simpl. eauto.
Qed.

(** ** Streaks *)

Module StreakFacts.
Import PyDatetime PyDatetimeFacts MetricsProcessor.

(** [gaps] holds the difference of every two neighbours of the list, in
    the order of the list. *)
Lemma gaps_lookup (unique_dates : list date) (i : nat) (a b : date) :
  unique_dates !! i = Some a -> unique_dates !! S i = Some b ->
  gaps unique_dates !! i = Some (date_diff_days b a).
Proof.
  destruct unique_dates as [|d rest]; [discriminate|]. simpl.
  revert d i. induction rest as [|d' rest IH]; intros d i Ha Hb; [discriminate|].
  destruct i as [|i]; simpl in *.
  - now injection Ha as <-; injection Hb as <-.
  - now apply IH.
Qed.

Lemma count_back_shift (l : list Z) (c : Z) : count_back l (c + 1) = count_back l c + 1.
Proof.
  revert c. induction l as [|d l IH]; intros c; simpl; [reflexivity|].
  destruct (d =? 1); [apply IH|reflexivity].
Qed.

(** The forward loop ends with the length of the last run of consecutive
    days in [temp_streak], which is what the backward loop counts. *)
Lemma forward_meets_backward (g : list Z) :
  fst (foldl longest_step (1, 0) g) = count_back (rev g) 1.
Proof.
  induction g as [|d g IH] using rev_ind; [reflexivity|].
  rewrite foldl_app, rev_unit. simpl.
  destruct (foldl longest_step (1, 0) g) as [t l]. simpl in *.
  destruct (d =? 1); simpl; [|reflexivity].
  rewrite IH. apply (eq_sym (count_back_shift (rev g) 1)).
Qed.

Lemma temp_streak_positive (g : list Z) : 1 <= fst (foldl longest_step (1, 0) g).
Proof.
  induction g as [|d g IH] using rev_ind; [simpl; lia|].
  rewrite foldl_app. simpl.
  destruct (foldl longest_step (1, 0) g) as [t l]. simpl in *.
  destruct (d =? 1); simpl; lia.
Qed.

Lemma streak_inv (today : date) (commits : list commit) (s : streak) :
  calculate_activity_streak today commits = Ok s ->
  commits = [] /\ s = Streak 0 0
  \/ exists days,
       commits <> [] /\ map_result commit_day commits = Ok days
       /\ let u := sorted_set (py_sort date_leb days) in
          let tl := foldl longest_step (1, 0) (gaps u) in
          longest s = Z.max (snd tl) (fst tl)
          /\ current s =
             match last u with
             | Some latest =>
                 if date_diff_days today latest <=? 1 then fst tl else 0
             | None => 0
             end.
Proof.
  unfold calculate_activity_streak. destruct commits as [|c commits].
  - intros H. injection H as <-. now left.
  - intros H. right.
    destruct (map_result commit_day (c :: commits)) as [days|e]; [|discriminate].
    exists days. split; [discriminate|]. split; [reflexivity|].
    simpl in H. rewrite <- forward_meets_backward in H.
    destruct (foldl longest_step (1, 0) (gaps (sorted_set (py_sort date_leb days))))
      as [t l].
    injection H as <-. simpl. split; reflexivity.
Qed.

(** The longest streak is never below the current one. *)
Lemma current_le_longest (today : date) (commits : list commit) (s : streak) :
  calculate_activity_streak today commits = Ok s ->
  0 <= current s <= longest s.
Proof.
  intros H. apply streak_inv in H as [[_ ->]|(days & _ & _ & Hl & Hc)]; [simpl; lia|].
  simpl in Hl, Hc. rewrite Hl, Hc.
  pose proof (temp_streak_positive (gaps (sorted_set (py_sort date_leb days)))).
  destruct (last _); [destruct (_ <=? 1)|]; lia.
Qed.

Lemma date_leb_trans (a b c : date) :
  date_leb a b = true -> date_leb b c = true -> date_leb a c = true.
Proof. unfold date_leb. intros. by_fields. Qed.

Lemma date_leb_total (a b : date) : date_leb a b = false -> date_leb b a = true.
Proof. unfold date_leb. intros. by_fields. Qed.

Lemma date_leb_antisym (a b : date) :
  date_leb a b = true -> date_leb b a = true -> a = b.
Proof.
  destruct a as [ya ma da], b as [yb mb db]. unfold date_leb. intros.
  assert (ya = yb /\ ma = mb /\ da = db) as (-> & -> & ->); [|reflexivity].
  by_fields.
Qed.

Lemma sorted_set_sorted (l : list date) :
  StronglySorted (fun a b => date_leb a b = true) (sorted_set l).
Proof.
  apply (py_sort_StronglySorted _ (fun _ => True)).
  - apply date_leb_trans.
  - auto.
  - intros x y _ _. apply date_leb_total.
  - now apply Forall_forall.
Qed.

Lemma sorted_set_elements (l : list date) (d : date) :
  In d (sorted_set (py_sort date_leb l)) <-> In d l.
Proof.
  unfold sorted_set.
  rewrite <- !list_elem_of_In, py_sort_perm, elem_of_remove_dups, py_sort_perm.
  reflexivity.
Qed.

(** The last element of a sorted list is its greatest. *)
Lemma sorted_last {A : Type} (R : A -> A -> Prop) (l : list A) (x y : A) :
  StronglySorted R l -> last l = Some x -> In y l -> y = x \/ R y x.
Proof.
  intros Hs. revert x y. induction Hs as [|z l Hs IH Hz]; intros x y Hl Hin.
  - destruct Hin.
  - rewrite last_cons in Hl. destruct (last l) as [w|] eqn:Hw.
    + injection Hl as ->. destruct Hin as [->|Hin]; [|now apply IH].
      right. rewrite Forall_forall in Hz. apply Hz.
      now apply last_Some_elem_of.
    + injection Hl as ->. apply last_None in Hw. subst l.
      destruct Hin as [->|[]]. now left.
Qed.

Lemma Forall2_In_r {A B : Type} (P : A -> B -> Prop) (l : list A) (k : list B) (y : B) :
  Forall2 P l k -> In y k -> exists x, In x l /\ P x y.
Proof.
  induction 1 as [|x y' l k Hxy _ IH]; simpl; [done|].
  intros [->|Hin]; [eauto|]. destruct (IH Hin) as (x' & Hx' & HP). eauto.
Qed.

Lemma Forall2_In_l {A B : Type} (P : A -> B -> Prop) (l : list A) (k : list B) (x : A) :
  Forall2 P l k -> In x l -> exists y, In y k /\ P x y.
Proof.
  induction 1 as [|x' y l k Hxy _ IH]; simpl; [done|].
  intros [->|Hin]; [eauto|]. destruct (IH Hin) as (y' & Hy' & HP). eauto.
Qed.

(** The dates of the commits are the elements of [unique_dates]. *)
Lemma unique_dates_elements (commits : list commit) (days : list date) (d : date) :
  map_result commit_day commits = Ok days ->
  In d (sorted_set (py_sort date_leb days)) <-> exists c, In c commits /\ dated c d.
Proof.
  intros H. apply map_result_inv in H. rewrite sorted_set_elements. split.
  - intros Hd. apply (Forall2_In_r _ _ _ _ H Hd).
  - intros (c & Hc & Hcd). destruct (Forall2_In_l _ _ _ _ H Hc) as (d' & Hd' & Hcd').
    unfold dated in Hcd. congruence.
Qed.

(** C3 (as the claim states it, refuted): there is no input for which the
    longest streak is strictly below the current streak. *)
Lemma longest_never_below_current :
  ~ (exists today commits s,
        calculate_activity_streak today commits = Ok s /\ longest s < current s).
Proof.
  intros (today & commits & s & H & Hlt).
  apply current_le_longest in H. lia.
Qed.

(** C3 (amended): for every list of commits with well-formed timestamps the
    streak calculator returns; the longest streak is at least 1 when there
    is a commit; the current streak is 0 whenever the most recent active
    date is more than 1 day before today (UTC); and the longest streak is
    at least the current streak for all inputs. *)
Theorem streak_bounds (today : date) (commits : list commit) :
  Forall (fun c => exists d, dated c d) commits ->
  exists s,
    calculate_activity_streak today commits = Ok s
    /\ (commits <> [] -> 1 <= longest s)
    /\ (forall latest, most_recent latest commits ->
          1 < date_diff_days today latest -> current s = 0)
    /\ current s <= longest s.
Proof.
  intros Hall.
  destruct (map_result_ok commit_day commits Hall) as (days & Hdays & _).
  assert (Hs : exists s, calculate_activity_streak today commits = Ok s).
  { unfold calculate_activity_streak. destruct commits; [eauto|].
    rewrite Hdays. simpl. destruct (foldl longest_step _ _). eauto. }
  destruct Hs as [s Hs]. exists s. split; [exact Hs|].
  pose proof (current_le_longest _ _ _ Hs) as Hle.
  split; [|split; [|lia]].
  - intros Hne. apply streak_inv in Hs as [[-> _]|(days' & _ & _ & Hl & _)]; [done|].
    simpl in Hl. rewrite Hl.
    pose proof (temp_streak_positive (gaps (sorted_set (py_sort date_leb days')))). lia.
  - intros latest [(c & Hc & Hcd) Hmax] Hold.
    apply streak_inv in Hs as [[-> _]|(days' & _ & Hd' & _ & Hcur)]; [destruct Hc|].
    simpl in Hcur. rewrite Hcur.
    destruct (last _) as [latest'|] eqn:Hlast; [|reflexivity].
    assert (latest' = latest) as ->.
    { assert (Hin : In latest (sorted_set (py_sort date_leb days')))
        by (apply (unique_dates_elements _ _ _ Hd'); eauto).
      assert (Hin' : In latest' (sorted_set (py_sort date_leb days')))
        by (apply list_elem_of_In; now apply last_Some_elem_of).
      apply (unique_dates_elements _ _ _ Hd') in Hin' as (c' & Hc' & Hcd').
      pose proof (Hmax _ _ Hc' Hcd') as Hle1.
      destruct (sorted_last _ _ _ _ (sorted_set_sorted _) Hlast Hin) as [->|Hle2];
        [reflexivity|].
      now apply date_leb_antisym. }
    destruct (date_diff_days today latest <=? 1) eqn:E; [|reflexivity].
    apply Z.leb_le in E. lia.
Qed.

(** A witness for C3: the four commits of the scenario, seen a week later. *)
Lemma streak_bounds_witness :
  exists s,
    calculate_activity_streak (Date 2024 1 17) four_days = Ok s
    /\ (four_days <> [] -> 1 <= longest s)
    /\ (forall latest, most_recent latest four_days ->
          1 < date_diff_days (Date 2024 1 17) latest -> current s = 0)
    /\ current s <= longest s.
Proof.
  apply (streak_bounds (Date 2024 1 17) four_days).
  repeat constructor; eexists; reflexivity.
Defined.

(** A list sorted without repetition is determined by its elements. *)
Lemma strictly_sorted_unique (l1 l2 : list date) :
  StronglySorted (fun a b => date_leb a b = true /\ a <> b) l1 ->
  StronglySorted (fun a b => date_leb a b = true /\ a <> b) l2 ->
  (forall d, In d l1 <-> In d l2) -> l1 = l2.
Proof.
  intros H1. revert l2. induction H1 as [|x l1 H1 IH Hx]; intros l2 H2 Hel.
  - destruct l2 as [|y l2]; [reflexivity|]. destruct (proj2 (Hel y)). now left.
  - destruct H2 as [|y l2 H2 Hy]; [destruct (proj1 (Hel x)); now left|].
    rewrite Forall_forall in Hx, Hy.
    assert (x = y) as <-.
    { destruct (proj1 (Hel x) (or_introl eq_refl)) as [->|Hxy]; [reflexivity|].
      destruct (proj2 (Hel y) (or_introl eq_refl)) as [->|Hyx]; [reflexivity|].
      apply list_elem_of_In in Hxy, Hyx.
      destruct (Hy _ Hxy), (Hx _ Hyx). now apply date_leb_antisym. }
    f_equal. apply IH; [done|]. intros d. split; intros Hd.
    + destruct (proj1 (Hel d) (or_intror Hd)) as [<-|]; [|done].
      apply list_elem_of_In in Hd. now destruct (Hx _ Hd).
    + destruct (proj2 (Hel d) (or_intror Hd)) as [<-|]; [|done].
      apply list_elem_of_In in Hd. now destruct (Hy _ Hd).
Qed.

Lemma sorted_set_strict (l : list date) :
  StronglySorted (fun a b => date_leb a b = true /\ a <> b) (sorted_set l).
Proof.
  assert (Hnd : NoDup (sorted_set l)).
  { unfold sorted_set. rewrite py_sort_perm. apply NoDup_remove_dups. }
  pose proof (sorted_set_sorted l) as Hs.
  induction Hs as [|x u Hs IH Hx]; constructor.
  - apply IH. now apply NoDup_cons_1_2 in Hnd.
  - apply NoDup_cons_1_1 in Hnd. rewrite Forall_forall in *.
    intros y Hy. split; [now apply Hx|]. intros ->. now apply Hnd.
Qed.

(** C4: for commit records dated 2024-01-01, 2024-01-02, 2024-01-03 and
    2024-01-10 (in any order, at any time of day, several a day or not),
    evaluated with today (UTC) = 2024-01-10, the streak calculator returns
    current streak = 1 and longest streak = 3. *)
Theorem four_dates_streak (commits : list commit) :
  Forall (fun c => exists d, dated c d) commits ->
  (forall d, (exists c, In c commits /\ dated c d) <-> In d four_dates) ->
  calculate_activity_streak (Date 2024 1 10) commits = Ok (Streak 1 3).
Proof.
  intros Hall Hdates.
  destruct (map_result_ok commit_day commits Hall) as (days & Hdays & _).
  assert (Hu : sorted_set (py_sort date_leb days) = four_dates).
  { apply strictly_sorted_unique.
    - apply sorted_set_strict.
    - unfold four_dates.
      repeat (constructor; [|repeat constructor; try reflexivity; discriminate]).
      constructor.
    - intros d. rewrite (unique_dates_elements _ _ _ Hdays). apply Hdates. }
  unfold calculate_activity_streak.
  destruct commits as [|c commits].
  - destruct (proj2 (Hdates (Date 2024 1 1))) as (c & [] & _). now left.
  - rewrite Hdays. simpl. rewrite Hu. reflexivity.
Qed.

(** A witness for C4: one commit on each of the four days. *)
Lemma four_dates_streak_witness :
  calculate_activity_streak (Date 2024 1 10) four_days = Ok (Streak 1 3).
Proof.
  apply four_dates_streak.
  - repeat constructor; eexists; reflexivity.
  - intros d. split.
    + intros (c & Hc & Hd). unfold dated in Hd.
      simpl in Hc. destruct Hc as [<-|[<-|[<-|[<-|[]]]]];
        vm_compute in Hd; injection Hd as <-; simpl; auto.
    + unfold four_dates. simpl. intros [<-|[<-|[<-|[<-|[]]]]].
      * exists (Commit "site" "2024-01-01T09:15:00+00:00"). split; [simpl; auto|reflexivity].
      * exists (Commit "site" "2024-01-02T18:40:12+00:00"). split; [simpl; auto|reflexivity].
      * exists (Commit "site" "2024-01-03T07:05:30+00:00"). split; [simpl; auto|reflexivity].
      * exists (Commit "site" "2024-01-10T11:00:00+00:00"). split; [simpl; auto 6|reflexivity].
Defined.

End StreakFacts.

(** ** Daily and monthly statistics *)

Module MetricsFacts.
Import PyDatetime MetricsProcessor.

Lemma commits_on_nonneg (key : string) (commits : list commit) : 0 <= commits_on key commits.
Proof. unfold commits_on. lia. Qed.

Lemma commits_on_cons (key : string) (c : commit) (commits : list commit) (d : string) :
  date_key c = Ok d ->
  commits_on key (c :: commits)
  = (if String.eqb d key then 1 else 0) + commits_on key commits.
Proof.
  intros Hd. unfold commits_on. simpl. rewrite Hd.
  destruct (String.eqb d key); simpl; lia.
Qed.

(** What the dictionary holds after the loop: for every date text, the
    count it started with plus the commits filed under it. *)
Lemma count_by_date_lookup (commits : list commit) (m0 m : gmap string Z) (key : string) :
  count_by_date commits m0 = Ok m ->
  m !! key = if commits_on key commits =? 0 then m0 !! key
             else Some (default 0 (m0 !! key) + commits_on key commits).
Proof.
  revert m0. induction commits as [|c commits IH]; intros m0 H.
  - simpl in H. injection H as <-. reflexivity.
  - simpl in H. destruct (date_key c) as [d|e] eqn:Hd; [|discriminate]. simpl in H.
    rewrite (IH _ H), (commits_on_cons _ _ _ _ Hd).
    pose proof (commits_on_nonneg key commits) as Hnn.
    unfold add_one.
    destruct (String.eqb_spec d key) as [->|Hne].
    + rewrite lookup_insert_eq. simpl.
      destruct (commits_on key commits =? 0) eqn:E0.
      * apply Z.eqb_eq in E0. rewrite E0. reflexivity.
      * destruct (1 + commits_on key commits =? 0) eqn:E1; [lia|]. f_equal. lia.
    + rewrite lookup_insert_ne by done. reflexivity.
Qed.

Lemma count_by_date_ok (commits : list commit) (m0 : gmap string Z) :
  Forall (fun c => exists t, fromisoformat (commit_date c) = Ok t) commits ->
  exists m, count_by_date commits m0 = Ok m.
Proof.
  intros H. revert m0. induction H as [|c commits [t Ht] _ IH]; intros m0; simpl.
  - eauto.
  - unfold date_key. rewrite Ht. simpl. apply IH.
Qed.

(** C7 (as the claim states it, refuted): the commit stamped 23:30 at
    UTC-5 on 2024-01-01 is not filed under its UTC date, 2024-01-02; and it
    is not filed under the same date as a commit at the same instant that
    is stamped in UTC. *)
Lemma own_date_not_utc_date :
  ~ (forall c t, fromisoformat (commit_date c) = Ok t ->
                 date_key c = Ok (date_isoformat (utc_date t)))
  /\ ~ (forall c1 c2 t1 t2,
          fromisoformat (commit_date c1) = Ok t1 ->
          fromisoformat (commit_date c2) = Ok t2 ->
          utc_micros t1 = utc_micros t2 -> date_key c1 = date_key c2).
Proof.
  split.
  - intros H. specialize (H late_evening _ eq_refl). vm_compute in H. discriminate.
  - intros H. specialize (H late_evening same_instant_utc _ _ eq_refl eq_refl eq_refl).
    vm_compute in H. discriminate.
Qed.

Lemma in_month_naive (month_start : datetime) (stamp : string) (t : datetime) (off : Z) :
  tzinfo month_start = Some off -> fromisoformat stamp = Ok t -> tzinfo t = None ->
  in_month month_start stamp = Raise TypeError.
Proof.
  intros Hm Ht Hn. unfold in_month, datetime_ge. rewrite Ht. simpl.
  now rewrite Hn, Hm.
Qed.

Lemma in_month_aware (month_start : datetime) (stamp : string) (t : datetime) (off off' : Z) :
  tzinfo month_start = Some off -> fromisoformat stamp = Ok t -> tzinfo t = Some off' ->
  exists b, in_month month_start stamp = Ok b.
Proof.
  intros Hm Ht Hn. unfold in_month, datetime_ge. rewrite Ht. simpl.
  rewrite Hn, Hm. eauto.
Qed.

End MetricsFacts.

(** ** Rankings *)

Module RankingsFacts.
Import PyDatetime RankingsProcessor.

Lemma string_compare_trans (a b c : string) :
  String.compare a b <> Gt -> String.compare b c <> Gt -> String.compare a c <> Gt.
Proof.
  revert b c. induction a as [|x a IH]; intros [|y b] [|z c]; simpl; try congruence.
  unfold Ascii.compare.
  destruct (N.compare_spec (N_of_ascii x) (N_of_ascii y)) as [Hxy|Hxy|Hxy];
    destruct (N.compare_spec (N_of_ascii y) (N_of_ascii z)) as [Hyz|Hyz|Hyz];
    destruct (N.compare_spec (N_of_ascii x) (N_of_ascii z)) as [Hxz|Hxz|Hxz];
    try congruence; try lia.
  apply IH.
Qed.

Lemma string_leb_trans (a b c : string) :
  String.leb a b = true -> String.leb b c = true -> String.leb a c = true.
Proof.
  unfold String.leb. intros Hab Hbc.
  pose proof (string_compare_trans a b c) as H.
  destruct (String.compare a b), (String.compare b c), (String.compare a c);
    try reflexivity; try discriminate; exfalso; apply H; congruence.
Qed.

Lemma string_leb_total (a b : string) : String.leb a b = false -> String.leb b a = true.
Proof. destruct (String.leb_total a b); congruence. Qed.

Lemma StronglySorted_take {A : Type} (R : A -> A -> Prop) (n : nat) (l : list A) :
  StronglySorted R l -> StronglySorted R (take n l).
Proof.
  intros H. revert n. induction H as [|x l H IH Hx]; intros [|n]; simpl;
    try constructor; [apply IH|now apply Forall_take].
Qed.

Lemma slice_to_sorted {A : Type} (R : A -> A -> Prop) (limit : Z) (l : list A) :
  StronglySorted R l -> StronglySorted R (slice_to limit l).
Proof. intros H. unfold slice_to. destruct (0 <=? limit); now apply StronglySorted_take. Qed.

Lemma slice_to_Forall {A : Type} (P : A -> Prop) (limit : Z) (l : list A) :
  Forall P l -> Forall P (slice_to limit l).
Proof. intros H. unfold slice_to. destruct (0 <=? limit); now apply Forall_take. Qed.

(** At most [limit] entries, for a limit that is not negative. *)
Lemma slice_to_length {A : Type} (limit : Z) (l : list A) :
  0 <= limit -> Z.of_nat (length (slice_to limit l)) <= limit.
Proof.
  intros H. unfold slice_to. rewrite (proj2 (Z.leb_le 0 limit) H).
  rewrite length_take. lia.
Qed.

Lemma sort_by_key_desc_sorted {A : Type} (key : A -> Z) (l : list A) :
  descending key (sort_by_key_desc key l).
Proof.
  apply (py_sort_StronglySorted _ (fun _ => True)).
  - intros x y z. lia.
  - intros x y _ _ H. now apply Z.leb_le in H.
  - intros x y _ _ H. apply Z.leb_gt in H. lia.
  - now apply Forall_forall.
Qed.

Lemma sort_by_key_desc_Forall {A : Type} (P : A -> Prop) (key : A -> Z) (l : list A) :
  Forall P l -> Forall P (sort_by_key_desc key l).
Proof. intros H. unfold sort_by_key_desc. now rewrite py_sort_perm. Qed.

Lemma sort_recent_sorted (l : list recent_entry) : latest_first (sort_recent l).
Proof.
  apply (py_sort_StronglySorted _ (fun _ => True)).
  - intros x y z Hxy Hyz. eapply string_leb_trans; eauto.
  - auto.
  - intros x y _ _. apply string_leb_total.
  - now apply Forall_forall.
Qed.

(** Only what passes the test gets into a ranking. *)
Lemma Forall_omap {A B : Type} (f : A -> option B) (P : B -> Prop) (l : list A) :
  (forall x y, f x = Some y -> P y) -> Forall P (omap f l).
Proof.
  intros H. induction l as [|x l IH]; simpl; [constructor|].
  destruct (f x) as [y|] eqn:E; [constructor; eauto|done].
Qed.

Lemma recent_entries_ok (clock : datetime) (repos : list repo) :
  (forall r stamp, In r repos -> pushed r = Some stamp ->
                   exists t, fromisoformat stamp = Ok t) ->
  exists recent, recent_entries clock repos = Ok recent.
Proof.
  induction repos as [|r repos IH]; intros H; simpl; [eauto|].
  destruct IH as [recent Hrecent]; [intros; eapply H; simpl; eauto|].
  destruct (pushed r) as [stamp|] eqn:Hp; [|eauto].
  destruct (H r stamp (or_introl eq_refl) Hp) as [t Ht].
  rewrite Ht. cbn [bind].
  destruct (tzinfo t) eqn:Etz; unfold datetime_diff_days, drop_tzinfo;
    cbn [tzinfo bind]; rewrite ?Etz; cbn [bind]; rewrite Hrecent; cbn [bind]; eauto.
Qed.

(** C5 (as the claim states it, refuted): with limit -1 and two starred
    repositories the stars ranking returns one entry, more than the limit;
    and, reading the key of the recent-activity ranking as the recency in
    days that its entries carry, that ranking is not in non-increasing
    order: the repository pushed 5 days ago stands before the one pushed 68
    days ago. *)
Lemma negative_limit_exceeded :
  ~ (forall repos limit, Z.of_nat (length (rank_by_stars repos limit)) <= limit)
  /\ ~ (forall clock repos limit ranked,
          rank_by_recent_activity clock repos limit = Ok ranked ->
          descending days_ago ranked).
Proof.
  split.
  - intros H. specialize (H starred_two (-1)). vm_compute in H. now apply H.
  - intros H. specialize (H march_10 starred_two 10 _ eq_refl).
    inversion H as [|? ? _ Hfirst]; subst.
    inversion Hfirst as [|? ? Hle _]; subst.
    vm_compute in Hle. now apply Hle.
Qed.

(** C5 (amended): for every input list and every limit that is not
    negative, each ranking function (activity, stars, commits, recent
    activity) returns at most limit entries, sorted in non-increasing order
    of its key (activity score, stars, commit count, and the text of the
    last-push timestamp respectively, latest push first), after filtering:
    the activity ranking
    keeps only repositories with score > 0, the stars ranking only those
    with stars > 0 (and the commits ranking only those with commits > 0).
    The recent-activity ranking returns when every last-push timestamp is
    well-formed. *)
Theorem rankings_bounded_and_sorted (repos : list repo) (commit_list : list commit)
    (pr_list : list pull_request) (issue_list : list issue) (clock : datetime)
    (limit : Z) :
  0 <= limit ->
  (let ranked := rank_by_activity repos commit_list pr_list issue_list limit in
   Z.of_nat (length ranked) <= limit /\ descending score ranked
   /\ Forall (fun e => 0 < score e) ranked)
  /\ (let ranked := rank_by_stars repos limit in
      Z.of_nat (length ranked) <= limit /\ descending se_stars ranked
      /\ Forall (fun e => 0 < se_stars e) ranked)
  /\ (let ranked := rank_by_commits repos commit_list limit in
      Z.of_nat (length ranked) <= limit /\ descending ce_commits ranked
      /\ Forall (fun e => 0 < ce_commits e) ranked)
  /\ ((forall r stamp, In r repos -> pushed r = Some stamp ->
                       exists t, fromisoformat stamp = Ok t) ->
      exists ranked,
        rank_by_recent_activity clock repos limit = Ok ranked
        /\ Z.of_nat (length ranked) <= limit /\ latest_first ranked).
Proof.
  intros Hlimit. repeat split.
  - now apply slice_to_length.
  - apply slice_to_sorted, sort_by_key_desc_sorted.
  - apply slice_to_Forall, sort_by_key_desc_Forall, Forall_omap.
    passes_test.
  - now apply slice_to_length.
  - apply slice_to_sorted, sort_by_key_desc_sorted.
  - apply slice_to_Forall, sort_by_key_desc_Forall, Forall_omap.
    passes_test.
  - now apply slice_to_length.
  - apply slice_to_sorted, sort_by_key_desc_sorted.
  - apply slice_to_Forall, sort_by_key_desc_Forall, Forall_omap.
    passes_test.
  - intros Hstamps.
    destruct (recent_entries_ok clock repos Hstamps) as [recent Hrecent].
    unfold rank_by_recent_activity. rewrite Hrecent. simpl.
    eexists. split; [reflexivity|]. split.
    + now apply slice_to_length.
    + apply slice_to_sorted, sort_recent_sorted.
Qed.

(** A witness for C5: the two starred repositories, limit 2. *)
Lemma rankings_bounded_and_sorted_witness :
  (let ranked := rank_by_activity starred_two two_commits [] [] 2 in
   Z.of_nat (length ranked) <= 2 /\ descending score ranked
   /\ Forall (fun e => 0 < score e) ranked)
  /\ (let ranked := rank_by_stars starred_two 2 in
      Z.of_nat (length ranked) <= 2 /\ descending se_stars ranked
      /\ Forall (fun e => 0 < se_stars e) ranked)
  /\ (let ranked := rank_by_commits starred_two two_commits 2 in
      Z.of_nat (length ranked) <= 2 /\ descending ce_commits ranked
      /\ Forall (fun e => 0 < ce_commits e) ranked)
  /\ ((forall r stamp, In r starred_two -> pushed r = Some stamp ->
                       exists t, fromisoformat stamp = Ok t) ->
      exists ranked,
        rank_by_recent_activity march_10 starred_two 2 = Ok ranked
        /\ Z.of_nat (length ranked) <= 2 /\ latest_first ranked).
Proof.
  apply (rankings_bounded_and_sorted starred_two two_commits [] [] march_10 2).
  lia.
Defined.

End RankingsFacts.

(** ** Timestamps without an offset *)

Module NaiveTimestamps.
Import PyDatetime MetricsProcessor MetricsFacts RankingsProcessor RankingsFacts.

Lemma monthly_raises_in_list {A : Type} (month_start : datetime) (stamp_of : A -> string)
    (l : list A) (stamp : string) (t : datetime) (off : Z) :
  tzinfo month_start = Some off ->
  In stamp (map stamp_of l) -> fromisoformat stamp = Ok t -> tzinfo t = None ->
  exists e, filter_result (fun x => in_month month_start (stamp_of x)) l = Raise e.
Proof.
  intros Hm Hin Ht Hn. apply in_map_iff in Hin as (x & <- & Hx).
  eapply filter_result_raises; [exact Hx|].
  eapply in_month_naive; eauto.
Qed.

Lemma monthly_returns_in_list {A : Type} (month_start : datetime) (stamp_of : A -> string)
    (l : list A) (off : Z) :
  tzinfo month_start = Some off ->
  (forall stamp, In stamp (map stamp_of l) ->
                 exists t off', fromisoformat stamp = Ok t /\ tzinfo t = Some off') ->
  exists ys, filter_result (fun x => in_month month_start (stamp_of x)) l = Ok ys.
Proof.
  intros Hm H. apply filter_result_ok, Forall_forall. intros x Hx.
  destruct (H (stamp_of x)) as (t & off' & Ht & Hoff).
  { apply in_map. now apply list_elem_of_In. }
  eapply in_month_aware; eauto.
Qed.

(** C10: for every input containing at least one commit, pull request or
    issue whose ISO timestamp carries no UTC offset, calculate_monthly_stats
    raises an exception; when every timestamp carries an offset it returns
    normally; and the recency ranking returns normally for last-push
    timestamps with an offset or without one, although the reading of the
    UTC clock minus a timestamp without an offset raises [TypeError]: the
    ranking drops the offsets before it subtracts. *)
Theorem naive_timestamp_raises (clock : datetime) (commit_list : list commit)
    (pr_list : list pull_request) (issue_list : list issue) :
  ((exists stamp t,
       In stamp (timestamps commit_list pr_list issue_list)
       /\ fromisoformat stamp = Ok t /\ tzinfo t = None) ->
   exists e, calculate_monthly_stats clock commit_list pr_list issue_list = Raise e)
  /\ ((forall stamp, In stamp (timestamps commit_list pr_list issue_list) ->
                     exists t off, fromisoformat stamp = Ok t /\ tzinfo t = Some off) ->
      exists r, calculate_monthly_stats clock commit_list pr_list issue_list = Ok r)
  /\ (forall repos limit,
        (forall r stamp, In r repos -> pushed r = Some stamp ->
                         exists t, fromisoformat stamp = Ok t) ->
        exists ranked, rank_by_recent_activity clock repos limit = Ok ranked)
  /\ (forall t, tzinfo t = None ->
                datetime_diff_days (now_utc clock) t = Raise TypeError).
Proof.
  set (month_start :=
         DateTime (Date (year (dt_date (now_utc clock))) (month (dt_date (now_utc clock))) 1)
                  0 (tzinfo (now_utc clock))).
  assert (Hm : tzinfo month_start = Some 0) by reflexivity.
  split; [|split; [|split]].
  - intros (stamp & t & Hin & Ht & Hn).
    unfold calculate_monthly_stats. fold month_start.
    unfold timestamps in Hin. rewrite !in_app_iff in Hin.
    destruct (filter_result (fun c => in_month month_start (commit_date c)) commit_list)
      as [cs|e] eqn:Hcs; [|simpl; eauto].
    destruct (filter_result (fun pr => in_month month_start (pr_created_at pr)) pr_list)
      as [ps|e] eqn:Hps; [|simpl; eauto].
    destruct Hin as [Hin|[Hin|Hin]].
    + destruct (monthly_raises_in_list month_start commit_date _ _ _ _ Hm Hin Ht Hn).
      congruence.
    + destruct (monthly_raises_in_list month_start pr_created_at _ _ _ _ Hm Hin Ht Hn).
      congruence.
    + destruct (monthly_raises_in_list month_start issue_created_at _ _ _ _ Hm Hin Ht Hn)
        as [e He].
      simpl. rewrite He. simpl. eauto.
  - intros Hall.
    unfold calculate_monthly_stats. fold month_start.
    unfold timestamps in Hall.
    destruct (monthly_returns_in_list month_start commit_date commit_list 0 Hm) as [cs ->].
    { intros stamp Hs. apply Hall. rewrite !in_app_iff. auto. }
    destruct (monthly_returns_in_list month_start pr_created_at pr_list 0 Hm) as [ps ->].
    { intros stamp Hs. apply Hall. rewrite !in_app_iff. auto. }
    destruct (monthly_returns_in_list month_start issue_created_at issue_list 0 Hm) as [is_ ->].
    { intros stamp Hs. apply Hall. rewrite !in_app_iff. auto. }
    simpl. eauto.
  - intros repos limit Hstamps.
    destruct (recent_entries_ok clock repos Hstamps) as [recent Hrecent].
    unfold rank_by_recent_activity. rewrite Hrecent. simpl. eauto.
  - intros t Ht. unfold datetime_diff_days. now rewrite Ht.
Qed.

(** A witness for C10: a commit without an offset among commits with one,
    and the two repositories, one of them pushed without an offset. *)
Lemma naive_timestamp_raises_witness :
  (exists e, calculate_monthly_stats march_10 (two_commits ++ [naive_commit]) [] [] = Raise e)
  /\ (exists r, calculate_monthly_stats march_10 two_commits [] [] = Ok r)
  /\ (exists ranked, rank_by_recent_activity march_10 starred_two 10 = Ok ranked).
Proof.
  split; [|split].
  - apply (proj1 (naive_timestamp_raises march_10 (two_commits ++ [naive_commit]) [] [])).
    exists "2024-03-03T10:00:00". eexists.
    split; [simpl; auto|]. split; reflexivity.
  - apply (proj1 (proj2 (naive_timestamp_raises march_10 two_commits [] []))).
    intros stamp [<-|[<-|[]]]; eexists _, _; split; reflexivity.
  - apply (proj1 (proj2 (proj2 (naive_timestamp_raises march_10 [] [] []))) starred_two 10).
    intros r stamp [<-|[<-|[]]] [= <-]; eexists; reflexivity.
Defined.

End NaiveTimestamps.

(** ** The chart loop *)

Module DashboardFacts.
Import Dashboard.

Section MainFacts.
Variable World : Type.
Variable file_size : World -> string -> option Z.

Abbreviation chart_step := (chart_step World file_size).
Abbreviation outcomes := (outcomes World file_size).
Abbreviation report_of := (report_of World file_size).

(** One turn of the loop adds the chart's own outcome to what the turns
    before it left, and nothing else. *)
Lemma chart_step_outcome (st : run World) (c : chart_config World) :
  let st' := chart_step st c in
  let o := (c, report_of c (world World st)) in
  world World st' = snd (generator World c (world World st))
  /\ printed World st' = printed World st ++ [(chart_name World c, snd o)]
  /\ errors World st' = errors World st ++ omap (error_line World) [o]
  /\ charts_generated World st'
     = charts_generated World st ++ omap (generated_file World) [o].
Proof.
  unfold Dashboard.chart_step, Dashboard.report_of, error_line, generated_file.
  simpl. destruct (generator World c (world World st)) as [[path|message] w]; simpl.
  - destruct (file_size w path) as [size|]; [destruct (0 <? size)|]; simpl;
      rewrite ?app_nil_r; repeat split; reflexivity.
  - repeat split; rewrite ?app_nil_r; reflexivity.
Qed.

Lemma generate_charts_outcomes (chart_configs : list (chart_config World)) (st : run World) :
  let r := foldl chart_step st chart_configs in
  let os := outcomes (world World st) chart_configs in
  printed World r
  = printed World st ++ map (fun o => (chart_name World (fst o), snd o)) os
  /\ errors World r = errors World st ++ omap (error_line World) os
  /\ charts_generated World r
     = charts_generated World st ++ omap (generated_file World) os.
Proof.
  revert st. induction chart_configs as [|c rest IH]; intros st; simpl.
  - now rewrite !app_nil_r.
  - destruct (chart_step_outcome st c) as (Hw & Hp & He & Hg).
    destruct (IH (chart_step st c)) as (IHp & IHe & IHg).
    simpl in *. rewrite IHp, IHe, IHg, Hw, Hp, He, Hg.
    simpl. rewrite <- !app_assoc. simpl.
    unfold error_line at 2, generated_file at 2. simpl.
    repeat split; try reflexivity.
    + destruct (report_of c (world World st)); reflexivity.
    + destruct (report_of c (world World st)); reflexivity.
Qed.

Lemma outcomes_charts (w : World) (chart_configs : list (chart_config World)) :
  map fst (outcomes w chart_configs) = chart_configs.
Proof.
  revert w. induction chart_configs as [|c rest IH]; intros w; simpl; [reflexivity|].
  now rewrite IH.
Qed.

Lemma no_error_lines (os : list (chart_config World * report)) :
  omap (error_line World) os = [] <-> Forall (fun o => failed (snd o) = false) os.
Proof.
  induction os as [|[c rep] os IH]; simpl.
  - split; [constructor|reflexivity].
  - unfold error_line at 1. simpl. destruct rep; simpl.
    + rewrite IH. split; [now constructor|now inversion 1].
    + split; [discriminate|]. inversion 1; discriminate.
    + split; [discriminate|]. inversion 1; discriminate.
Qed.

(** C9: during batch chart generation (the metrics file is there and the
    renderers are built), every chart of the list is attempted whatever
    became of the charts before it; a chart whose generator raised (or
    whose file is missing or empty) adds its own line to the error list and
    nothing else; the others add their file to the generated list; and the
    exit code is 0 if and only if no chart failed, and 1 otherwise. *)
Theorem chart_failures_are_contained (metrics_exists : World -> bool)
    (startup : World -> option (list (chart_config World) * World))
    (w w' : World) (chart_configs : list (chart_config World)) :
  metrics_exists w = true ->
  startup w = Some (chart_configs, w') ->
  exists r,
    let os := outcomes w' chart_configs in
    main World file_size metrics_exists startup w = (exit_code World r, Some r)
    /\ map fst os = chart_configs
    /\ printed World r = map (fun o => (chart_name World (fst o), snd o)) os
    /\ errors World r = omap (error_line World) os
    /\ charts_generated World r = omap (generated_file World) os
    /\ (exit_code World r = 0 <-> Forall (fun o => failed (snd o) = false) os)
    /\ (exit_code World r <> 0 -> exit_code World r = 1).
Proof.
  intros Hm Hs. unfold main. rewrite Hm, Hs.
  exists (generate_charts World file_size w' chart_configs).
  destruct (generate_charts_outcomes chart_configs (Run World w' [] [] []))
    as (Hp & He & Hg).
  simpl in Hp, He, Hg. fold (generate_charts World file_size w' chart_configs) in Hp, He, Hg.
  cbv zeta. split; [reflexivity|]. split; [apply outcomes_charts|].
  split; [exact Hp|]. split; [exact He|]. split; [exact Hg|].
  unfold exit_code. rewrite He. split.
  - rewrite <- no_error_lines.
    destruct (omap _ _) as [|e es]; simpl; [tauto|]. split; [lia|discriminate].
  - destruct (length _ =? 0)%nat; [done|reflexivity].
Qed.

End MainFacts.

(** A witness for C9: three charts, the second of which raises; the first
    and the third are generated all the same, and the exit code is 1. *)
Lemma chart_failures_are_contained_witness :
  exists r,
    let os := outcomes files (fun fs p => fs !! p) ∅ three_charts in
    main files (fun fs p => fs !! p) (fun _ => true) (fun fs => Some (three_charts, fs)) ∅
    = (exit_code files r, Some r)
    /\ map fst os = three_charts
    /\ printed files r = map (fun o => (chart_name files (fst o), snd o)) os
    /\ errors files r = omap (error_line files) os
    /\ charts_generated files r = omap (generated_file files) os
    /\ (exit_code files r = 0 <-> Forall (fun o => failed (snd o) = false) os)
    /\ (exit_code files r <> 0 -> exit_code files r = 1).
Proof.
  apply (chart_failures_are_contained files (fun fs p => fs !! p) (fun _ => true)
           (fun fs => Some (three_charts, fs)) ∅ ∅ three_charts); reflexivity.
Defined.

(** What the loop leaves for these three charts. *)
Example three_charts_run :
  let r := generate_charts files (fun fs p => fs !! p) ∅ three_charts in
  charts_generated files r = ["stats_hero.svg"; "career_timeline.svg"]
  /\ errors files r = ["Language Chart: 'languages'"]
  /\ exit_code files r = 1.
Proof. vm_compute. auto. Qed.

End DashboardFacts.

(** ** The activity calendar *)

Module CalendarFacts.
Import PyDatetime ActivityCalendarGenerator.

Lemma strftime_Y_m_d_clock (d : PyDatetime.date) (micro : Z) (tz : option Z) :
  strftime_Y_m_d (DateTime d micro tz) = strftime_Y_m_d (DateTime d 0 None).
Proof. reflexivity. Qed.

Lemma day_entry_clock (d : PyDatetime.date) (micro : Z) (tz : option Z)
    (commits_map : gmap string Z) (i : Z) :
  day_entry (DateTime d micro tz) commits_map i
  = match day_entry (DateTime d 0 None) commits_map i with
    | Ok e => Ok (at_time micro tz e)
    | Raise x => Raise x
    end.
Proof.
  unfold day_entry, minus_days. cbn [dt_date dt_micro tzinfo].
  destruct (1 <=? toordinal d - i); [|reflexivity].
  cbn [bind]. unfold at_time. cbn [date date_str count day_num dt_date].
  now rewrite (strftime_Y_m_d_clock _ micro tz).
Qed.

Lemma days_data_clock (d : PyDatetime.date) (micro : Z) (tz : option Z)
    (commits_map : gmap string Z) (l : list Z) :
  map_result (day_entry (DateTime d micro tz) commits_map) l
  = match map_result (day_entry (DateTime d 0 None) commits_map) l with
    | Ok days => Ok (map (at_time micro tz) days)
    | Raise x => Raise x
    end.
Proof.
  induction l as [|i l IH]; [reflexivity|].
  cbn [map_result]. rewrite day_entry_clock.
  destruct (day_entry (DateTime d 0 None) commits_map i) as [e|x]; cbn [bind];
    [|reflexivity].
  rewrite IH.
  destruct (map_result (day_entry (DateTime d 0 None) commits_map) l); reflexivity.
Qed.

Lemma last_map {A B : Type} (f : A -> B) (l : list A) :
  last (map f l) = option_map f (last l).
Proof.
  induction l as [|x l IH]; [reflexivity|].
  cbn [map]. rewrite !last_cons, IH. now destruct (last l).
Qed.

Lemma enumerate_map {A B : Type} (f : A -> B) (i : Z) (l : list A) :
  enumerate i (map f l) = map (fun p => (fst p, f (snd p))) (enumerate i l).
Proof.
  revert i. induction l as [|x l IH]; intros i; [reflexivity|].
  cbn [map enumerate]. now rewrite IH.
Qed.

Section TimeOfDay.
Variable micro : Z.
Variable tz : option Z.

Lemma count_at_time (l : list day_data) :
  map count (map (at_time micro tz) l) = map count l.
Proof. rewrite List.map_map. reflexivity. Qed.

Lemma max_by_count_at_time (best : day_data) (rest : list day_data) :
  max_by_count (at_time micro tz best) (map (at_time micro tz) rest)
  = at_time micro tz (max_by_count best rest).
Proof.
  revert best. induction rest as [|d rest IH]; intros best; [reflexivity|].
  cbn [map max_by_count]. rewrite <- IH.
  change (count (at_time micro tz best)) with (count best).
  change (count (at_time micro tz d)) with (count d).
  now destruct (count best <? count d).
Qed.

Lemma metrics_card_at_time (theme : theme) (total prev active streak : Z)
    (most_productive : day_data) :
  metrics_card theme total prev active streak (at_time micro tz most_productive)
  = metrics_card theme total prev active streak most_productive.
Proof. reflexivity. Qed.

Lemma grid_header_at_time (first_day last_day : day_data) :
  grid_header (at_time micro tz first_day) (at_time micro tz last_day)
  = grid_header first_day last_day.
Proof. reflexivity. Qed.

Lemma cell_at_time (theme : theme) (max_count : Z) (most_productive : day_data)
    (i : Z) (d : day_data) :
  cell theme max_count (at_time micro tz most_productive) i (at_time micro tz d)
  = cell theme max_count most_productive i d.
Proof. reflexivity. Qed.

(** The text does not show the time of day of the entries. *)
Lemma render_days_at_time (theme : theme) (metrics : metrics) (days : list day_data) :
  render_days theme metrics (map (at_time micro tz) days)
  = render_days theme metrics days.
Proof.
  destruct days as [|first_day later_days]; [reflexivity|].
  pose proof (last_map (at_time micro tz) (first_day :: later_days)) as Hlast.
  cbn [map] in Hlast.
  unfold render_days. cbn [map]. rewrite Hlast.
  destruct (last (first_day :: later_days)) as [last_day|]; [|reflexivity].
  cbn [option_map]. cbv zeta.
  change (at_time micro tz first_day :: map (at_time micro tz) later_days)
    with (map (at_time micro tz) (first_day :: later_days)).
  rewrite !count_at_time, max_by_count_at_time, enumerate_map, List.map_map.
  rewrite metrics_card_at_time, grid_header_at_time.
  change (count (at_time micro tz first_day)) with (count first_day).
  do 3 f_equal. f_equal.
  apply map_ext. intros [i d]. apply cell_at_time.
Qed.

End TimeOfDay.

Lemma generate_clock (theme : theme) (metrics : metrics) (d : PyDatetime.date)
    (micro : Z) (tz : option Z) :
  generate_activity_calendar theme (DateTime d micro tz) metrics
  = generate_activity_calendar theme (DateTime d 0 None) metrics.
Proof.
  unfold generate_activity_calendar. cbv zeta.
  rewrite days_data_clock.
  destruct (map_result _ days_back) as [days|x]; [|reflexivity].
  cbn [bind]. apply render_days_at_time.
Qed.

(** C8 (as the claim states it, refuted): with the same metrics and the
    same theme, the calendar rendered on the 10th and on the 11th of
    January 2024 is not the same text. *)
Lemma calendar_depends_on_the_day :
  ~ (forall theme metrics now now',
        generate_activity_calendar theme now metrics
        = generate_activity_calendar theme now' metrics).
Proof.
  intros H.
  specialize (H dark no_commits jan_10_morning jan_11_morning).
  assert (Hsame : same_text (generate_activity_calendar dark jan_10_morning no_commits)
                            (generate_activity_calendar dark jan_11_morning no_commits)
                  = true).
  { rewrite <- H.
    destruct (generate_activity_calendar dark jan_10_morning no_commits) as [s|x] eqn:E;
      [apply String.eqb_refl|].
    vm_compute in E. discriminate. }
  vm_compute in Hsame. discriminate.
Qed.

(** C8 (amended): for every fixed metrics input and theme, the calendar
    renderer is a deterministic function of its inputs, the theme and the
    calendar date the clock shows when it is called: two calls on the same
    day produce byte-identical output, whatever the time of day. *)
Theorem calendar_same_day_same_text (theme : theme) (metrics : metrics)
    (now now' : datetime) :
  dt_date now = dt_date now' ->
  generate_activity_calendar theme now metrics
  = generate_activity_calendar theme now' metrics.
Proof.
  destruct now as [d micro tz], now' as [d' micro' tz']. simpl. intros <-.
  now rewrite (generate_clock _ _ d micro tz), (generate_clock _ _ d micro' tz').
Qed.

(** A witness for C8: the morning and the evening of the same day. *)
Lemma calendar_same_day_same_text_witness :
  generate_activity_calendar dark jan_10_morning no_commits
  = generate_activity_calendar dark jan_10_evening no_commits.
Proof. apply calendar_same_day_same_text. reflexivity. Defined.

End CalendarFacts.

(* ===================================================================== *)
(** * Part II, continued: more properties of the program                  *)
(* ===================================================================== *)

(** ** The calendar *)

Module PyCalendarFacts.
Import PyDatetime PyCalendar.

Lemma days_in_month_leap (y m : Z) :
  days_in_month y m = days_in_month (if is_leap y then 2000 else 2001) m.
Proof.
  unfold days_in_month. destruct (m =? 2); [|reflexivity].
  destruct (is_leap y); reflexivity.
Qed.

Lemma days_before_month_aux_leap (y : Z) (m : nat) :
  days_before_month_aux y m = days_before_month_aux (if is_leap y then 2000 else 2001) m.
Proof.
  induction m as [|m IH]; simpl; [reflexivity|].
  rewrite IH, (days_in_month_leap y). destruct (is_leap y); reflexivity.
Qed.

Lemma days_before_month_leap (y m : Z) :
  days_before_month y m = days_before_month (if is_leap y then 2000 else 2001) m.
Proof. unfold days_before_month. apply days_before_month_aux_leap. Qed.

Lemma month_day_table :
  forallb (fun n => month_day_ok 2001 (Z.of_nat n)) (seq 0 365) = true
  /\ forallb (fun n => month_day_ok 2000 (Z.of_nat n)) (seq 0 366) = true.
Proof. split; vm_compute; reflexivity. Qed.

Lemma month_day_spec (y n : Z) :
  0 <= n < (if is_leap y then 366 else 365) ->
  month_day_ok y n = true.
Proof.
  intros Hn.
  assert (month_day_ok y n = month_day_ok (if is_leap y then 2000 else 2001) n) as ->.
  { pose proof (days_before_month_leap y) as Hb.
    pose proof (days_in_month_leap y) as Hd.
    unfold month_day_ok, month_day. cbv zeta.
    destruct (is_leap y); rewrite (Hb (Z.shiftr (n + 50) 5));
      (destruct (n <? _); cbv iota beta; rewrite ?Hb, ?Hd; reflexivity). }
  destruct month_day_table as [H1 H0].
  rewrite forallb_forall in H1, H0.
  destruct (is_leap y).
  - rewrite <- (Z2Nat.id n) by lia. apply H0, in_seq. lia.
  - rewrite <- (Z2Nat.id n) by lia. apply H1, in_seq. lia.
Qed.

Lemma fromordinal_month_day (ordinal : Z) :
  let n := ordinal - 1 in
  let n400 := n / 146097 in
  let n := n mod 146097 in
  let n100 := n / 36524 in
  let n := n mod 36524 in
  let n4 := n / 1461 in
  let n := n mod 1461 in
  let n1 := n / 365 in
  let n := n mod 365 in
  let y := n400 * 400 + 1 + n100 * 100 + n4 * 4 + n1 in
  fromordinal ordinal =
  if (n1 =? 4) || (n100 =? 4) then Date (y - 1) 12 31
  else let (m, d) := month_day y n in Date y m d.
Proof.
  cbv zeta. unfold fromordinal, month_day. cbv zeta.
  destruct (_ || _); [reflexivity|]. destruct (_ <? _); reflexivity.
Qed.

Lemma days_before_year_cycles (a b c e : Z) :
  0 <= b <= 3 -> 0 <= c <= 24 -> 0 <= e <= 3 ->
  days_before_year (a * 400 + 1 + b * 100 + c * 4 + e)
  = a * 146097 + b * 36524 + c * 1461 + e * 365.
Proof.
  intros Hb Hc He. unfold days_before_year. cbv zeta.
  replace (a * 400 + 1 + b * 100 + c * 4 + e - 1) with (a * 400 + b * 100 + c * 4 + e) by lia.
  assert ((a * 400 + b * 100 + c * 4 + e) / 4 = a * 100 + b * 25 + c) as ->
    by (symmetry; apply Z.div_unique with (r := e); lia).
  assert ((a * 400 + b * 100 + c * 4 + e) / 100 = a * 4 + b) as ->
    by (symmetry; apply Z.div_unique with (r := c * 4 + e); lia).
  assert ((a * 400 + b * 100 + c * 4 + e) / 400 = a) as ->
    by (symmetry; apply Z.div_unique with (r := b * 100 + c * 4 + e); lia).
  lia.
Qed.

Lemma is_leap_cycles (a b c e : Z) :
  0 <= b <= 3 -> 0 <= c <= 24 -> 0 <= e <= 3 ->
  is_leap (a * 400 + 1 + b * 100 + c * 4 + e)
  = (e =? 3) && (negb (c =? 24) || (b =? 3)).
Proof.
  intros Hb Hc He. unfold is_leap.
  set (y := a * 400 + 1 + b * 100 + c * 4 + e).
  assert (y mod 4 = (e + 1) mod 4) as ->.
  { unfold y. replace (a * 400 + 1 + b * 100 + c * 4 + e)
      with (e + 1 + (a * 100 + b * 25 + c) * 4) by lia.
    apply Z.mod_add. lia. }
  destruct (Z.eqb_spec e 3) as [->|Hne].
  - simpl ((3 + 1) mod 4 =? 0). cbv iota. rewrite !andb_true_l.
    assert (y mod 100 = (c * 4 + 4) mod 100) as ->.
    { unfold y. replace (a * 400 + 1 + b * 100 + c * 4 + 3)
        with (c * 4 + 4 + (a * 4 + b) * 100) by lia.
      apply Z.mod_add. lia. }
    destruct (Z.eqb_spec c 24) as [->|Hc24].
    + simpl. assert (y mod 400 = (b * 100 + 100) mod 400) as ->.
      { unfold y. replace (a * 400 + 1 + b * 100 + 24 * 4 + 3)
          with (b * 100 + 100 + a * 400) by lia.
        apply Z.mod_add. lia. }
      destruct (Z.eqb_spec b 3) as [->|Hb3]; [reflexivity|].
      rewrite Z.mod_small by lia. destruct (Z.eqb_spec (b * 100 + 100) 0); [lia|reflexivity].
    + rewrite Z.mod_small by lia.
      destruct (Z.eqb_spec (c * 4 + 4) 0); [lia|reflexivity].
  - rewrite Z.mod_small by lia.
    destruct (Z.eqb_spec (e + 1) 0); [lia|reflexivity].
Qed.

(** [fromordinal] and [toordinal] are inverse to each other on the days
    from 0001-01-01 on, and [fromordinal] returns a date of the calendar. *)
Lemma fromordinal_spec (n : Z) :
  1 <= n ->
  let d := fromordinal n in
  toordinal d = n
  /\ 1 <= year d /\ 1 <= month d <= 12 /\ 1 <= day d <= days_in_month (year d) (month d).
Proof.
  intros Hn. cbv zeta. rewrite fromordinal_month_day. cbv zeta.
  remember (n - 1) as n0 eqn:En0.
  pose proof (Z.div_mod n0 146097 ltac:(lia)) as E400.
  pose proof (Z.mod_pos_bound n0 146097 ltac:(lia)) as B400.
  pose proof (Z.div_pos n0 146097 ltac:(lia) ltac:(lia)) as P400.
  set (a := n0 / 146097) in *. set (r := n0 mod 146097) in *.
  pose proof (Z.div_mod r 36524 ltac:(lia)) as E100.
  pose proof (Z.mod_pos_bound r 36524 ltac:(lia)) as B100.
  pose proof (Z.div_pos r 36524 ltac:(lia) ltac:(lia)) as P100.
  set (b := r / 36524) in *. set (r2 := r mod 36524) in *.
  pose proof (Z.div_mod r2 1461 ltac:(lia)) as E4.
  pose proof (Z.mod_pos_bound r2 1461 ltac:(lia)) as B4.
  pose proof (Z.div_pos r2 1461 ltac:(lia) ltac:(lia)) as P4.
  set (c := r2 / 1461) in *. set (r3 := r2 mod 1461) in *.
  pose proof (Z.div_mod r3 365 ltac:(lia)) as E1.
  pose proof (Z.mod_pos_bound r3 365 ltac:(lia)) as B1.
  pose proof (Z.div_pos r3 365 ltac:(lia) ltac:(lia)) as P1.
  set (e := r3 / 365) in *. set (r4 := r3 mod 365) in *.
  clearbody a r b r2 c r3 e r4.
  change (days_in_month 2000 12) with 31.
  assert (b <= 4) by lia. assert (c <= 24) by lia. assert (e <= 4) by lia.
  destruct (Z.eqb_spec e 4) as [He|He]; [|destruct (Z.eqb_spec b 4) as [Hb|Hb]]; simpl orb; cbv iota.
  - (* the last day of a leap year that is not the last of a century *)
    assert (c <= 23) by lia. assert (b <= 3) by lia.
    replace (a * 400 + 1 + b * 100 + c * 4 + e - 1)
      with (a * 400 + 1 + b * 100 + (c + 1) * 4 + (-1)) by lia.
    unfold toordinal. simpl year. simpl month. simpl day.
    rewrite days_before_month_leap, days_in_month_leap.
    replace (a * 400 + 1 + b * 100 + (c + 1) * 4 + -1)
      with (a * 400 + 1 + b * 100 + c * 4 + 3) by lia.
    rewrite is_leap_cycles, days_before_year_cycles by lia.
    replace (c =? 24) with false by (symmetry; apply Z.eqb_neq; lia).
    simpl. change (days_before_month 2000 12) with 335.
    change (days_in_month 2000 12) with 31. lia.
  - (* the last day of the cycle of 400 years *)
    assert (r2 = 0) by lia. assert (c = 0) by lia. assert (e = 0) by lia.
    replace (a * 400 + 1 + b * 100 + c * 4 + e - 1)
      with (a * 400 + 1 + 3 * 100 + 24 * 4 + 3) by lia.
    unfold toordinal. simpl year. simpl month. simpl day.
    rewrite days_before_month_leap, days_in_month_leap.
    rewrite is_leap_cycles, days_before_year_cycles by lia.
    simpl. change (days_before_month 2000 12) with 335.
    change (days_in_month 2000 12) with 31. lia.
  - assert (b <= 3) by lia. assert (e <= 3) by lia.
    set (y := a * 400 + 1 + b * 100 + c * 4 + e).
    pose proof (month_day_spec y r4) as Hmd.
    unfold month_day_ok in Hmd. destruct (month_day y r4) as [m d].
    assert (0 <= r4 < (if is_leap y then 366 else 365)) as Hr
      by (destruct (is_leap y); lia).
    specialize (Hmd Hr).
    repeat (apply andb_true_iff in Hmd as [Hmd ?]).
    unfold toordinal. simpl year. simpl month. simpl day.
    unfold y at 1. rewrite days_before_year_cycles by lia.
    fold y. lia.
Qed.

Lemma day_of_year_table :
  forallb (fun y =>
    forallb (fun m =>
      forallb (fun d => day_of_year_ok y (Z.of_nat m) (Z.of_nat d)) (seq 1 31))
      (seq 1 12)) [2000; 2001] = true.
Proof. vm_compute. reflexivity. Qed.

Lemma month_day_leap (y n : Z) :
  month_day y n = month_day (if is_leap y then 2000 else 2001) n.
Proof.
  pose proof (days_before_month_leap y) as Hb.
  pose proof (days_in_month_leap y) as Hd.
  unfold month_day. cbv zeta.
  destruct (is_leap y); rewrite (Hb (Z.shiftr (n + 50) 5));
    (destruct (n <? _); cbv iota beta; rewrite ?Hb, ?Hd; reflexivity).
Qed.

Lemma day_of_year_spec (y m d : Z) :
  1 <= m <= 12 -> 1 <= d <= days_in_month y m ->
  let k := days_before_month y m + d - 1 in
  0 <= k < (if is_leap y then 366 else 365)
  /\ month_day y k = (m, d)
  /\ (k = 365 -> m = 12 /\ d = 31).
Proof.
  intros Hm Hd. cbv zeta.
  rewrite month_day_leap, days_before_month_leap.
  rewrite days_in_month_leap in Hd.
  assert ((if is_leap y then 366 else 365)
          = if is_leap (if is_leap y then 2000 else 2001) then 366 else 365) as ->
    by (destruct (is_leap y); reflexivity).
  assert (In (if is_leap y then 2000 else 2001) [2000; 2001]) as Hin
    by (destruct (is_leap y); simpl; auto).
  set (y0 := if is_leap y then 2000 else 2001) in *. clearbody y0.
  assert (d <= 31) as Hd31.
  { unfold days_in_month in Hd. repeat destruct (_ =? _) in Hd; simpl in Hd;
      try destruct (is_leap y0); lia. }
  pose proof day_of_year_table as T.
  rewrite forallb_forall in T. specialize (T y0 Hin).
  rewrite forallb_forall in T. specialize (T (Z.to_nat m)).
  rewrite Z2Nat.id in T by lia. specialize (T ltac:(apply in_seq; lia)).
  rewrite forallb_forall in T. specialize (T (Z.to_nat d)).
  rewrite Z2Nat.id in T by lia. specialize (T ltac:(apply in_seq; lia)).
  unfold day_of_year_ok in T. cbv zeta in T.
  apply orb_true_iff in T as [T|T].
  { apply negb_true_iff, andb_false_iff in T as [T|T]; apply Z.leb_gt in T; lia. }
  apply andb_true_iff in T as [T T4].
  apply andb_true_iff in T as [T T3].
  apply andb_true_iff in T as [T1 T2].
  apply Z.leb_le in T1. apply Z.ltb_lt in T2.
  destruct (month_day y0 _) as [m' d'].
  apply andb_true_iff in T3 as [Tm Td]. apply Z.eqb_eq in Tm, Td. subst m' d'.
  split; [lia|]. split; [reflexivity|].
  intros Hk. apply orb_true_iff in T4 as [T4|T4].
  - apply negb_true_iff, Z.eqb_neq in T4. lia.
  - apply andb_true_iff in T4 as [H1 H2]. apply Z.eqb_eq in H1, H2. lia.
Qed.

Lemma fromordinal_toordinal (d : date) :
  calendar_date d -> fromordinal (toordinal d) = d.
Proof.
  destruct d as [y m dd]. unfold calendar_date. simpl. intros (Hy & Hm & Hd).
  rewrite fromordinal_month_day. cbv zeta. unfold toordinal. simpl.
  destruct (day_of_year_spec y m dd Hm Hd) as (Hk & Hmd & Hlast).
  set (k := days_before_month y m + dd - 1) in *.
  remember (y - 1) as p eqn:Ep.
  pose proof (Z.div_mod p 400 ltac:(lia)) as E400.
  pose proof (Z.mod_pos_bound p 400 ltac:(lia)) as B400.
  pose proof (Z.div_pos p 400 ltac:(lia) ltac:(lia)) as P400.
  set (a := p / 400) in *. set (r := p mod 400) in *.
  pose proof (Z.div_mod r 100 ltac:(lia)) as E100.
  pose proof (Z.mod_pos_bound r 100 ltac:(lia)) as B100.
  pose proof (Z.div_pos r 100 ltac:(lia) ltac:(lia)) as P100.
  set (b := r / 100) in *. set (r2 := r mod 100) in *.
  pose proof (Z.div_mod r2 4 ltac:(lia)) as E4.
  pose proof (Z.mod_pos_bound r2 4 ltac:(lia)) as B4.
  pose proof (Z.div_pos r2 4 ltac:(lia) ltac:(lia)) as P4.
  set (c := r2 / 4) in *. set (e := r2 mod 4) in *.
  clearbody a r b r2 c e.
  assert (y = a * 400 + 1 + b * 100 + c * 4 + e) as Ey by lia.
  assert (0 <= b <= 3) as Hb by lia. assert (0 <= c <= 24) as Hc by lia.
  assert (0 <= e <= 3) as He by lia.
  pose proof (is_leap_cycles a b c e Hb Hc He) as Hleap.
  pose proof (days_before_year_cycles a b c e Hb Hc He) as Hdby.
  rewrite <- Ey in Hleap, Hdby. rewrite Hdby.
  replace (a * 146097 + b * 36524 + c * 1461 + e * 365 + days_before_month y m + dd - 1)
    with (a * 146097 + (b * 36524 + c * 1461 + e * 365 + k)) by (unfold k; lia).
  clearbody k.
  assert (k <= 364 \/ (k = 365 /\ e = 3 /\ (c <> 24 \/ b = 3))) as Hcases.
  { destruct (is_leap y); [|lia].
    symmetry in Hleap. apply andb_true_iff in Hleap as [H1 H2].
    apply Z.eqb_eq in H1. apply orb_true_iff in H2 as [H2|H2].
    - apply negb_true_iff, Z.eqb_neq in H2. lia.
    - apply Z.eqb_eq in H2. lia. }
  set (R := b * 36524 + c * 1461 + e * 365 + k).
  assert (0 <= R < 146097) as HR by (unfold R; lia).
  assert ((a * 146097 + R) / 146097 = a) as ->
    by (symmetry; apply Z.div_unique with (r := R); lia).
  assert ((a * 146097 + R) mod 146097 = R) as ->
    by (symmetry; apply Z.mod_unique with (q := a); lia).
  destruct Hcases as [Hk364|(Hk365 & He3 & Hcb)].
  - set (R2 := c * 1461 + e * 365 + k).
    assert (R / 36524 = b) as ->
      by (symmetry; apply Z.div_unique with (r := R2); unfold R, R2; lia).
    assert (R mod 36524 = R2) as ->
      by (symmetry; apply Z.mod_unique with (q := b); unfold R, R2; lia).
    set (R3 := e * 365 + k).
    assert (R2 / 1461 = c) as ->
      by (symmetry; apply Z.div_unique with (r := R3); unfold R2, R3; lia).
    assert (R2 mod 1461 = R3) as ->
      by (symmetry; apply Z.mod_unique with (q := c); unfold R2, R3; lia).
    assert (R3 / 365 = e) as ->
      by (symmetry; apply Z.div_unique with (r := k); unfold R3; lia).
    assert (R3 mod 365 = k) as ->
      by (symmetry; apply Z.mod_unique with (q := e); unfold R3; lia).
    replace (e =? 4) with false by (symmetry; apply Z.eqb_neq; lia).
    replace (b =? 4) with false by (symmetry; apply Z.eqb_neq; lia).
    simpl orb. cbv iota. rewrite <- Ey, Hmd. reflexivity.
  - destruct (Hlast Hk365) as [-> ->].
    destruct (Z.eq_dec c 24) as [Hc24|Hc24].
    + assert (b = 3) by lia. assert (R = 146096) as -> by (unfold R; lia).
      change (146096 / 36524) with 4. change (146096 mod 36524) with 0.
      change (0 / 1461) with 0. change (0 mod 1461) with 0. change (0 / 365) with 0.
      simpl. f_equal. lia.
    + set (R2 := c * 1461 + 1460).
      assert (R / 36524 = b) as ->
        by (symmetry; apply Z.div_unique with (r := R2); unfold R, R2; lia).
      assert (R mod 36524 = R2) as ->
        by (symmetry; apply Z.mod_unique with (q := b); unfold R, R2; lia).
      assert (R2 / 1461 = c) as ->
        by (symmetry; apply Z.div_unique with (r := 1460); unfold R2; lia).
      assert (R2 mod 1461 = 1460) as ->
        by (symmetry; apply Z.mod_unique with (q := c); unfold R2; lia).
      change (1460 / 365) with 4. simpl. f_equal. lia.
Qed.

End PyCalendarFacts.

(** ** Texts that [fromisoformat] does not read *)

Module ShortTextFacts.
Import PyDatetime.

Lemma take_digits_length (n : nat) (s rest : list ascii) (a v : Z) :
  take_digits n s a = Some (v, rest) -> length s = (n + length rest)%nat.
Proof.
  revert s a. induction n as [|n IH]; intros s a H.
  - cbn [take_digits] in H. assert (s = rest) as -> by congruence. reflexivity.
  - cbn [take_digits] in H. destruct s as [|c s]; [discriminate|].
    destruct (digit_val c); [|discriminate]. apply IH in H. cbn [length]. lia.
Qed.

Lemma expect_length (c : ascii) (s rest : list ascii) :
  expect c s = Some rest -> length s = S (length rest).
Proof.
  unfold expect. destruct s as [|c' s]; [discriminate|].
  destruct (Ascii.eqb c c'); [|discriminate]. now intros [= <-].
Qed.

Lemma parse_date_length (s rest : list ascii) (d : date) :
  parse_date s = Some (d, rest) -> (10 <= length s)%nat.
Proof.
  unfold parse_date. intros H.
  destruct (take_digits 4 s 0) as [[y s1]|] eqn:E1; [|discriminate]. cbn [mbind option_bind] in H.
  destruct (expect "-" s1) as [s2|] eqn:E2; [|discriminate]. cbn [mbind option_bind] in H.
  destruct (take_digits 2 s2 0) as [[m s3]|] eqn:E3; [|discriminate]. cbn [mbind option_bind] in H.
  destruct (expect "-" s3) as [s4|] eqn:E4; [|discriminate]. cbn [mbind option_bind] in H.
  destruct (take_digits 2 s4 0) as [[dd s5]|] eqn:E5; [|discriminate]. cbn [mbind option_bind] in H.
  apply take_digits_length in E1, E3, E5. apply expect_length in E2, E4. lia.
Qed.

Lemma list_ascii_length (s : string) :
  length (list_ascii_of_string s) = String.length s.
Proof. induction s as [|c s IH]; cbn; [reflexivity | now rewrite IH]. Qed.

(** A text of fewer than seven bytes is not read. *)
Lemma too_short_raises (stamp : string) :
  too_short stamp -> fromisoformat stamp = Raise ValueError.
Proof.
  unfold too_short, fromisoformat, parse_isoformat. intros Hs.
  destruct (parse_date (list_ascii_of_string stamp)) as [[d rest]|] eqn:E; [|reflexivity].
  apply parse_date_length in E. rewrite list_ascii_length in E. lia.
Qed.

End ShortTextFacts.

Module DailyMetricsFacts.
Import PyDatetime PyCalendar PyCalendarFacts DailyMetrics.

Lemma longest_run_ge (days : list bool) (run : Z) : run <= longest_run run days.
Proof.
  revert run. induction days as [|[|] days IH]; intros run; simpl; [lia| |lia].
  specialize (IH (run + 1)). lia.
Qed.

Lemma longest_run_bound (days : list bool) (run : Z) :
  0 <= run -> longest_run run days <= run + Z.of_nat (length days).
Proof.
  revert run. induction days as [|[|] days IH]; intros run Hrun;
    cbn [longest_run length]; rewrite ?Nat2Z.inj_succ.
  - simpl. lia.
  - specialize (IH (run + 1)). lia.
  - specialize (IH 0). lia.
Qed.

(** What the loop keeps: the current streak and the longest streak are one
    number, and the running streak never exceeds it. *)
Lemma streak_steps (days : list bool) (st : counters) :
  0 <= temp_streak st <= current_streak st ->
  current_streak st = longest_streak st ->
  let st' := foldl streak_step st days in
  current_streak st' = longest_streak st'
  /\ longest_streak st' = Z.max (longest_streak st) (longest_run (temp_streak st) days).
Proof.
  revert st. induction days as [|[|] days IH]; intros [cur lon tmp]; simpl;
    intros Htmp Heq.
  - split; [assumption|lia].
  - pose proof (longest_run_ge days (tmp + 1)).
    destruct (Z.eqb_spec cur tmp).
    + destruct (IH (Counters (cur + 1) (Z.max lon (tmp + 1)) (tmp + 1))) as [H1 H2];
        simpl; [lia..|].
      simpl in H1, H2. split; [assumption|lia].
    + destruct (IH (Counters cur (Z.max lon (tmp + 1)) (tmp + 1))) as [H1 H2];
        simpl; [lia..|].
      simpl in H1, H2. split; [assumption|lia].
  - destruct (IH (Counters cur lon 0)) as [H1 H2]; simpl; [lia..|].
    simpl in H1, H2. split; [assumption|lia].
Qed.

(** The dates the loop passes through, one day back at each turn. *)
Lemma streak_loop_days (commits_by_date : gmap string Z) (turns : nat) (check_date : date)
    (st : counters) :
  Z.of_nat turns < toordinal check_date ->
  streak_loop commits_by_date turns check_date st
  = Ok (foldl streak_step st
          (map (fun d => active commits_by_date (date_strftime_Y_m_d d))
               (match turns with
                | O => []
                | S n => check_date
                         :: map (fun i => fromordinal (toordinal check_date - Z.of_nat i))
                                (seq 1 n)
                end))).
Proof.
  revert check_date st. induction turns as [|turns IH]; intros d st Hd; [reflexivity|].
  cbn [streak_loop]. unfold date_minus_days.
  destruct (Z.leb_spec 1 (toordinal d - 1)) as [_|]; [|lia]. simpl bind.
  destruct (fromordinal_spec (toordinal d - 1) ltac:(lia)) as [Hord _].
  rewrite IH by lia. f_equal. cbn [map foldl]. f_equal. f_equal.
  destruct turns as [|n]; [reflexivity|].
  cbn [seq map]. f_equal. rewrite <- (seq_shift n 1), List.map_map.
  apply List.map_ext. intros i. rewrite Hord. f_equal. lia.
Qed.

Lemma longest_run_none (days : list bool) :
  Forall (fun b => b = false) days -> longest_run 0 days = 0.
Proof. induction 1 as [|b days -> _ IH]; simpl; [reflexivity|]. rewrite IH. reflexivity. Qed.

(** X1: the streak function of daily_metrics.py returns for every today
    from the year 2 on and every dictionary of commits per day; the current
    streak it returns is always equal to the longest streak, and both are
    the length of the longest run of consecutive days with commits among
    the 365 days that end today, whenever that run lies. *)
Theorem streak_current_is_longest (today : date) (commits_by_date : gmap string Z) :
  366 <= toordinal today ->
  exists s,
    calculate_activity_streak today commits_by_date = Ok s
    /\ MetricsProcessor.current s = MetricsProcessor.longest s
    /\ MetricsProcessor.longest s
       = longest_run 0 (map (fun d => active commits_by_date (date_strftime_Y_m_d d))
                            (visited_days today))
    /\ 0 <= MetricsProcessor.longest s <= 365.
Proof.
  intros Htoday. unfold calculate_activity_streak.
  set (days := map (fun d => active commits_by_date (date_strftime_Y_m_d d))
                   (visited_days today)).
  assert (length days = 365%nat) as Hlen
    by (unfold days, visited_days; rewrite length_map; cbn [length];
        now rewrite length_map, length_seq).
  pose proof (longest_run_bound days 0 ltac:(lia)) as Hup.
  pose proof (longest_run_ge days 0) as Hlow.
  destruct (decide (commits_by_date = ∅)) as [->|_].
  - eexists. split; [reflexivity|].
    cbn [MetricsProcessor.current MetricsProcessor.longest].
    assert (longest_run 0 days = 0) as ->; [|lia].
    apply longest_run_none, List.Forall_forall. intros b Hb.
    apply in_map_iff in Hb as (d & <- & _). unfold active. now rewrite lookup_empty.
  - rewrite streak_loop_days by lia. cbn [bind]. eexists. split; [reflexivity|].
    cbn [MetricsProcessor.current MetricsProcessor.longest].
    fold (visited_days today). fold days. clearbody days.
    destruct (streak_steps days (Counters 0 0 0)) as [H1 H2];
      cbn [current_streak longest_streak temp_streak] in *; [lia..|].
    lia.
Qed.

(** A witness for X1: commits on three days in a row a week ago, none
    since; the current streak is 3 all the same. *)
Lemma streak_current_is_longest_witness :
  exists s,
    calculate_activity_streak (Date 2024 1 10) stale_commits = Ok s
    /\ MetricsProcessor.current s = MetricsProcessor.longest s
    /\ MetricsProcessor.longest s
       = longest_run 0 (map (fun d => active stale_commits (date_strftime_Y_m_d d))
                            (visited_days (Date 2024 1 10)))
    /\ 0 <= MetricsProcessor.longest s <= 365.
Proof.
  apply (streak_current_is_longest (Date 2024 1 10) stale_commits).
  apply Z.leb_le. vm_compute. reflexivity.
Defined.

(** The streak of these commits, a week old, is reported as current. *)
Example stale_streak_is_current :
  calculate_activity_streak (Date 2024 1 10) stale_commits
  = Ok (MetricsProcessor.Streak 3 3).
Proof. vm_compute. reflexivity. Qed.
End DailyMetricsFacts.

(** ** Counting in dictionaries *)

Module CountingFacts.
Import MetricsProcessor MetricsSummary.

Lemma total_count_perm (l l' : list (string * Z)) :
  Permutation l l' -> total_count l = total_count l'.
Proof.
  induction 1 as [|x l l' _ IH|x y l|l l' l'' _ IH1 _ IH2]; simpl; lia.
Qed.

(** One more under a key: the counts sum to one more. *)
Lemma add_one_total (key : string) (counts : gmap string Z) :
  total_count (map_to_list (add_one key counts)) = total_count (map_to_list counts) + 1.
Proof.
  unfold add_one. destruct (counts !! key) as [n|] eqn:E; simpl.
  - rewrite <- (insert_delete_eq counts).
    rewrite (total_count_perm _ _ (map_to_list_insert _ key (n + 1) (lookup_delete_eq _ _))).
    rewrite <- (total_count_perm _ _ (map_to_list_delete _ _ _ E)). simpl. lia.
  - rewrite (total_count_perm _ _ (map_to_list_insert _ key (0 + 1) E)). simpl. lia.
Qed.

Lemma add_one_positive (key : string) (counts : gmap string Z) :
  map_Forall (fun _ n => 0 < n) counts -> map_Forall (fun _ n => 0 < n) (add_one key counts).
Proof.
  intros H. unfold add_one. apply map_Forall_insert_2; [|assumption].
  destruct (counts !! key) as [n|] eqn:E; simpl; [|lia].
  specialize (H key n E). simpl in H. lia.
Qed.


Lemma string_ltb_leb (a b : string) :
  String.leb a b = true -> a <> b -> String.ltb a b = true.
Proof.
  unfold String.leb, String.ltb. intros H Hne.
  destruct (String.compare a b) eqn:E; try reflexivity; try discriminate.
  now apply String.compare_eq_iff in E.
Qed.

Lemma item_leb_keys (x y : string * Z) :
  item_leb x y = true -> String.leb (fst x) (fst y) = true.
Proof.
  unfold item_leb, String.ltb, String.leb. intros H.
  destruct (String.eqb_spec (fst x) (fst y)) as [->|_].
  - destruct (String.compare (fst y) (fst y)) eqn:E; try reflexivity.
    pose proof (String.compare_antisym (fst y) (fst y)) as Ha.
    rewrite E in Ha. discriminate.
  - rewrite andb_false_l, orb_false_r in H.
    destruct (String.compare (fst x) (fst y)); congruence.
Qed.

Lemma item_leb_keys_total (x y : string * Z) :
  item_leb x y = false -> String.leb (fst y) (fst x) = true.
Proof.
  unfold item_leb, String.ltb, String.leb. intros H.
  apply orb_false_iff in H as [H _].
  rewrite (String.compare_antisym (fst y) (fst x)).
  destruct (String.compare (fst x) (fst y)); simpl in *; congruence.
Qed.

(** The items of a dictionary, sorted: the keys go up strictly. *)
Lemma sorted_items_ascending (counts : gmap string Z) :
  ascending_keys (py_sort item_leb (map_to_list counts)).
Proof.
  assert (StronglySorted (fun x y => String.leb (fst x) (fst y) = true)
            (py_sort item_leb (map_to_list counts))) as Hs.
  { apply (py_sort_StronglySorted _ (fun _ => True)).
    - intros x y z. apply RankingsFacts.string_leb_trans.
    - intros x y _ _. apply item_leb_keys.
    - intros x y _ _. apply item_leb_keys_total.
    - now apply List.Forall_forall. }
  assert (NoDup (map fst (py_sort item_leb (map_to_list counts)))) as Hn.
  { rewrite py_sort_perm. apply NoDup_fst_map_to_list. }
  unfold ascending_keys.
  induction Hs as [|x l Hs IH Hx]; [constructor|].
  simpl in Hn. apply NoDup_cons in Hn as [Hnx Hn].
  constructor; [now apply IH|].
  apply List.Forall_forall. intros y Hy.
  apply string_ltb_leb.
  - rewrite List.Forall_forall in Hx. now apply Hx.
  - intros Heq. apply Hnx. rewrite Heq. apply list_elem_of_In, in_map, Hy.
Qed.

End CountingFacts.

(** ** The weekly statistics, the languages, all the metrics *)

Module MetricsSummaryFacts.
Import PyDatetime PyCalendar MetricsProcessor MetricsFacts MetricsSummary CountingFacts.

Lemma count_by_date_total (commits : list commit) (m0 m : gmap string Z) :
  count_by_date commits m0 = Ok m ->
  total_count (map_to_list m)
  = total_count (map_to_list m0) + Z.of_nat (length commits)
  /\ (map_Forall (fun _ n => 0 < n) m0 -> map_Forall (fun _ n => 0 < n) m).
Proof.
  revert m0. induction commits as [|c commits IH]; intros m0 H; simpl in H.
  - injection H as <-. simpl. split; [lia|auto].
  - destruct (date_key c) as [d|e]; [|discriminate]. simpl in H.
    destruct (IH _ H) as [Ht Hp]. rewrite Ht, add_one_total.
    cbn [length]. split; [lia|]. intros H0. now apply Hp, add_one_positive.
Qed.

Lemma count_by_week_total (stamps : list string) (m0 m : gmap string Z) :
  count_by_week stamps m0 = Ok m ->
  total_count (map_to_list m)
  = total_count (map_to_list m0) + Z.of_nat (length stamps)
  /\ (map_Forall (fun _ n => 0 < n) m0 -> map_Forall (fun _ n => 0 < n) m).
Proof.
  revert m0. induction stamps as [|s stamps IH]; intros m0 H; simpl in H.
  - injection H as <-. simpl. split; [lia|auto].
  - destruct (week_label s) as [w|e]; [|discriminate]. simpl in H.
    destruct (IH _ H) as [Ht Hp]. rewrite Ht, add_one_total.
    cbn [length]. split; [lia|]. intros H0. now apply Hp, add_one_positive.
Qed.

Lemma count_by_week_ok (stamps : list string) (m0 : gmap string Z) :
  Forall (fun s => exists t, fromisoformat s = Ok t) stamps ->
  exists m, count_by_week stamps m0 = Ok m.
Proof.
  intros H. revert m0. induction H as [|s stamps [t Ht] _ IH]; intros m0; simpl.
  - eauto.
  - unfold week_label. rewrite Ht. simpl. apply IH.
Qed.

(** The sorted items of a dictionary of positive counts. *)
Lemma sorted_items (counts : gmap string Z) :
  map_Forall (fun _ n => 0 < n) counts ->
  let items := py_sort item_leb (map_to_list counts) in
  total_count items = total_count (map_to_list counts)
  /\ ascending_keys items
  /\ Forall (fun item => 0 < snd item) items
  /\ length items = size counts.
Proof.
  intros Hpos. cbv zeta. split; [apply total_count_perm, py_sort_perm|].
  split; [apply sorted_items_ascending|]. split.
  - rewrite py_sort_perm. apply List.Forall_forall. intros [k n] Hin.
    apply list_elem_of_In, elem_of_map_to_list in Hin. exact (Hpos k n Hin).
  - rewrite py_sort_perm. apply length_map_to_list.
Qed.

(** The daily statistics, when every commit's timestamp is well-formed. *)
Lemma daily_stats_summary (commits : list commit) :
  Forall (fun c => exists t, fromisoformat (commit_date c) = Ok t) commits ->
  exists r,
    calculate_daily_stats commits = Ok r
    /\ total_count (MetricsProcessor.commits_per_day r) = Z.of_nat (length commits)
    /\ ascending_keys (MetricsProcessor.commits_per_day r)
    /\ Forall (fun item => 0 < snd item) (MetricsProcessor.commits_per_day r)
    /\ total_days_active r = Z.of_nat (length (MetricsProcessor.commits_per_day r))
    /\ total_days_active r <= Z.of_nat (length commits).
Proof.
  intros Hall. destruct (count_by_date_ok commits ∅ Hall) as [m Hm].
  unfold calculate_daily_stats. rewrite Hm. cbn [bind]. eexists. split; [reflexivity|].
  cbn [MetricsProcessor.commits_per_day total_days_active].
  destruct (count_by_date_total _ _ _ Hm) as [Ht Hp].
  rewrite map_to_list_empty in Ht. simpl in Ht.
  destruct (sorted_items m (Hp (map_Forall_empty _))) as (H1 & H2 & H3 & H4).
  cbv zeta in H1, H2, H3, H4.
  split; [lia|]. split; [exact H2|]. split; [exact H3|]. split; [now rewrite H4|].
  rewrite <- H4.
  assert (Z.of_nat (length (py_sort item_leb (map_to_list m)))
          <= total_count (py_sort item_leb (map_to_list m))); [|lia].
  clear -H3. induction H3 as [|x l Hx _ IH]; simpl; [lia|].
  rewrite Nat2Z.inj_succ. lia.
Qed.

(** X2: when every commit carries a well-formed timestamp, the daily
    statistics return; the counts of the days add up to the number of
    commits, the days are listed once each in the ascending order of their
    date text, every listed day has at least one commit, and the number of
    active days is the number of days listed. *)
Theorem daily_counts_add_up (commits : list commit) :
  Forall (fun c => exists t, fromisoformat (commit_date c) = Ok t) commits ->
  exists r,
    calculate_daily_stats commits = Ok r
    /\ total_count (MetricsProcessor.commits_per_day r) = Z.of_nat (length commits)
    /\ ascending_keys (MetricsProcessor.commits_per_day r)
    /\ Forall (fun item => 0 < snd item) (MetricsProcessor.commits_per_day r)
    /\ total_days_active r = Z.of_nat (length (MetricsProcessor.commits_per_day r))
    /\ total_days_active r <= Z.of_nat (length commits).
Proof. exact (daily_stats_summary commits). Qed.

(** A witness for X2. *)
Lemma daily_counts_add_up_witness :
  exists r,
    calculate_daily_stats four_days = Ok r
    /\ total_count (MetricsProcessor.commits_per_day r) = Z.of_nat (length four_days)
    /\ ascending_keys (MetricsProcessor.commits_per_day r)
    /\ Forall (fun item => 0 < snd item) (MetricsProcessor.commits_per_day r)
    /\ total_days_active r = Z.of_nat (length (MetricsProcessor.commits_per_day r))
    /\ total_days_active r <= Z.of_nat (length four_days).
Proof.
  apply (daily_counts_add_up four_days).
  repeat constructor; eexists; reflexivity.
Defined.

(** The weekly statistics, when every timestamp they read is well-formed. *)
Lemma weekly_stats_summary (prs : list pull_request) (issues : list tracked_issue) :
  Forall (fun pr => exists t, fromisoformat (pr_created_at pr) = Ok t) prs ->
  Forall (fun i => forall stamp, closed i = Some stamp ->
                                 exists t, fromisoformat stamp = Ok t) issues ->
  exists r,
    calculate_weekly_stats prs issues = Ok r
    /\ total_count (prs_per_week r) = Z.of_nat (length prs)
    /\ total_count (issues_closed_per_week r) = Z.of_nat (length (omap closed issues))
    /\ ascending_keys (prs_per_week r) /\ ascending_keys (issues_closed_per_week r)
    /\ Forall (fun item => 0 < snd item) (prs_per_week r)
    /\ Forall (fun item => 0 < snd item) (issues_closed_per_week r).
Proof.
  intros Hprs Hissues.
  destruct (count_by_week_ok (map pr_created_at prs) ∅) as [mp Hmp].
  { apply List.Forall_map. exact Hprs. }
  destruct (count_by_week_ok (omap closed issues) ∅) as [mi Hmi].
  { clear -Hissues. induction Hissues as [|i issues Hi _ IH]; simpl; [constructor|].
    destruct (closed i) as [stamp|]; [constructor; auto|exact IH]. }
  unfold calculate_weekly_stats. rewrite Hmp, Hmi. cbn [bind].
  eexists. split; [reflexivity|]. cbn [prs_per_week issues_closed_per_week].
  destruct (count_by_week_total _ _ _ Hmp) as [Htp Hpp].
  destruct (count_by_week_total _ _ _ Hmi) as [Hti Hpi].
  rewrite map_to_list_empty in Htp, Hti. simpl in Htp, Hti.
  rewrite length_map in Htp.
  destruct (sorted_items mp (Hpp (map_Forall_empty _))) as (P1 & P2 & P3 & _).
  destruct (sorted_items mi (Hpi (map_Forall_empty _))) as (I1 & I2 & I3 & _).
  cbv zeta in *. repeat split; try assumption; lia.
Qed.

(** X3: when every pull request's creation stamp and every closing stamp
    of an issue is well-formed, the weekly statistics return; the counts
    of the weeks add up to the number of pull requests, and to the number
    of issues that are closed; the weeks are listed once each in the
    ascending order of their label, each with at least one item. *)
Theorem weekly_counts_add_up (prs : list pull_request) (issues : list tracked_issue) :
  Forall (fun pr => exists t, fromisoformat (pr_created_at pr) = Ok t) prs ->
  Forall (fun i => forall stamp, closed i = Some stamp ->
                                 exists t, fromisoformat stamp = Ok t) issues ->
  exists r,
    calculate_weekly_stats prs issues = Ok r
    /\ total_count (prs_per_week r) = Z.of_nat (length prs)
    /\ total_count (issues_closed_per_week r) = Z.of_nat (length (omap closed issues))
    /\ ascending_keys (prs_per_week r) /\ ascending_keys (issues_closed_per_week r)
    /\ Forall (fun item => 0 < snd item) (prs_per_week r)
    /\ Forall (fun item => 0 < snd item) (issues_closed_per_week r).
Proof. exact (weekly_stats_summary prs issues). Qed.

(** A witness for X3: two pull requests, and one issue closed, one open. *)
Lemma weekly_counts_add_up_witness :
  exists r,
    calculate_weekly_stats new_year_prs two_issues = Ok r
    /\ total_count (prs_per_week r) = Z.of_nat (length new_year_prs)
    /\ total_count (issues_closed_per_week r) = Z.of_nat (length (omap closed two_issues))
    /\ ascending_keys (prs_per_week r) /\ ascending_keys (issues_closed_per_week r)
    /\ Forall (fun item => 0 < snd item) (prs_per_week r)
    /\ Forall (fun item => 0 < snd item) (issues_closed_per_week r).
Proof.
  apply (weekly_counts_add_up new_year_prs two_issues).
  - repeat constructor; eexists; reflexivity.
  - repeat constructor; intros stamp [= <-]; eexists; reflexivity.
Defined.

(** The label of a week carries the calendar year, not the year of the
    ISO week: the pull request of the 30th of December 2024 is counted
    with the one of the 3rd of January 2024. *)
Example new_year_week :
  exists r, calculate_weekly_stats new_year_prs [] = Ok r
            /\ prs_per_week r = [("2024-W01", 2)].
Proof. eexists. split; vm_compute; reflexivity. Qed.

End MetricsSummaryFacts.

Module LanguagesFacts.
Import MetricsSummary.

Lemma counter_add_counted (key k : string) (counts : list (string * Z)) :
  counted k (counter_add key counts)
  = if String.eqb key k then counted k counts + 1 else counted k counts.
Proof.
  induction counts as [|[k' n] counts IH]; simpl.
  - destruct (String.eqb_spec key k); reflexivity.
  - destruct (String.eqb_spec k' key) as [->|Hne]; simpl.
    + destruct (String.eqb_spec key k); reflexivity.
    + destruct (String.eqb_spec k' k) as [->|Hne'].
      * destruct (String.eqb_spec key k); [congruence|reflexivity].
      * exact IH.
Qed.

Lemma counter_add_keys (key : string) (counts : list (string * Z)) (k : string) :
  In k (map fst (counter_add key counts)) <-> k = key \/ In k (map fst counts).
Proof.
  induction counts as [|[k' n] counts IH]; simpl.
  - intuition.
  - destruct (String.eqb_spec k' key) as [->|Hne]; simpl; [intuition|].
    rewrite IH. intuition.
Qed.

Lemma counter_add_NoDup (key : string) (counts : list (string * Z)) :
  NoDup (map fst counts) -> NoDup (map fst (counter_add key counts)).
Proof.
  induction counts as [|[k n] counts IH]; simpl; intros H.
  - repeat constructor. intros Hin. inversion Hin.
  - apply NoDup_cons in H as [Hk H].
    destruct (String.eqb_spec k key) as [->|Hne]; simpl.
    + apply NoDup_cons. split; assumption.
    + apply NoDup_cons. split; [|now apply IH].
      rewrite list_elem_of_In, counter_add_keys. rewrite list_elem_of_In in Hk.
      intros [->|Hin]; [congruence|contradiction].
Qed.

Lemma counted_in (counts : list (string * Z)) (k : string) (n : Z) :
  NoDup (map fst counts) -> In (k, n) counts -> counted k counts = n.
Proof.
  induction counts as [|[k' n'] counts IH]; simpl; intros Hn Hin; [contradiction|].
  apply NoDup_cons in Hn as [Hk Hn].
  destruct Hin as [[= -> ->]|Hin].
  - now rewrite String.eqb_refl.
  - destruct (String.eqb_spec k' k) as [->|Hne]; [|now apply IH].
    exfalso. apply Hk, list_elem_of_In. change k with (fst (k, n)). now apply in_map.
Qed.

(** What the counter holds after the loop over the repositories. *)
Lemma languages_counted (repos : list repo) :
  let languages := foldl count_language [] repos in
  NoDup (map fst languages)
  /\ (forall lang, counted lang languages = if String.eqb lang "" then 0 else repos_in lang repos)
  /\ (forall lang, In lang (map fst languages) <-> lang <> "" /\ 0 < repos_in lang repos).
Proof.
  cbv zeta. induction repos as [|r repos IH] using rev_ind.
  - simpl. split; [constructor|]. split.
    + intros lang. now destruct (String.eqb lang "").
    + intros lang. unfold repos_in. simpl. split; [contradiction|lia].
  - rewrite foldl_app. cbn [foldl]. destruct IH as (Hn & Hc & Hk).
    assert (forall lang, repos_in lang (repos ++ [r])
                         = repos_in lang repos
                           + match language r with
                             | Some l => if String.eqb l lang then 1 else 0
                             | None => 0
                             end) as Hin.
    { intros lang. unfold repos_in. rewrite List.filter_app, length_app. simpl.
      destruct (language r) as [l|]; [destruct (String.eqb l lang)|]; simpl; lia. }
    assert (forall lang, 0 <= repos_in lang repos) as Hnn by (intros; unfold repos_in; lia).
    unfold count_language. destruct (language r) as [l|] eqn:El.
    + destruct (String.eqb_spec l "") as [->|Hl].
      * split; [exact Hn|]. split.
        -- intros lang. rewrite Hc, Hin.
           destruct (String.eqb_spec lang "") as [->|Hne]; [reflexivity|].
           destruct (String.eqb_spec "" lang); [congruence|lia].
        -- intros lang. rewrite Hk, Hin.
           destruct (String.eqb_spec "" lang) as [<-|]; [|now rewrite Z.add_0_r].
           intuition.
      * split; [now apply counter_add_NoDup|]. split.
        -- intros lang. rewrite counter_add_counted, Hc, Hin.
           destruct (String.eqb_spec l lang) as [->|Hne].
           ++ destruct (String.eqb_spec lang ""); [congruence|reflexivity].
           ++ destruct (String.eqb lang ""); lia.
        -- intros lang. rewrite counter_add_keys, Hk, Hin. specialize (Hnn lang).
           destruct (String.eqb_spec l lang) as [->|Hne].
           ++ split; [intros _; split; [assumption|lia]|auto].
           ++ rewrite Z.add_0_r. split; [intros [->|H]; [congruence|exact H]|auto].
    + split; [exact Hn|]. split.
      * intros lang. rewrite Hc, Hin. now rewrite Z.add_0_r.
      * intros lang. rewrite Hk, Hin. now rewrite Z.add_0_r.
Qed.


Lemma StronglySorted_app_inv {A : Type} (R : A -> A -> Prop) (l1 l2 : list A) :
  StronglySorted R (l1 ++ l2) -> forall x y, In x l1 -> In y l2 -> R x y.
Proof.
  induction l1 as [|a l1 IH]; simpl; intros Hs x y Hx Hy; [contradiction|].
  apply StronglySorted_inv in Hs as [Hs Ha].
  destruct Hx as [->|Hx]; [|now apply IH].
  rewrite List.Forall_forall in Ha. apply Ha, in_app_iff. now right.
Qed.

(** The first [n] of a list sorted by a key, greatest first: nothing that
    is left out has a greater key than something that is kept, and
    something is left out only when [n] are kept. *)
Lemma top_of_sorted {A : Type} (key : A -> Z) (n : nat) (l : list A) :
  let top := take n (sort_by_key_desc key l) in
  exists rest,
    Permutation l (top ++ rest)
    /\ RankingsProcessor.descending key top
    /\ (forall x y, In x top -> In y rest -> key y <= key x)
    /\ (rest <> [] -> length top = n).
Proof.
  cbv zeta. exists (drop n (sort_by_key_desc key l)).
  pose proof (RankingsFacts.sort_by_key_desc_sorted key l) as Hs.
  split; [rewrite take_drop; symmetry; apply py_sort_perm|].
  split; [now apply RankingsFacts.StronglySorted_take|].
  split.
  - rewrite <- (take_drop n (sort_by_key_desc key l)) in Hs.
    apply (StronglySorted_app_inv _ _ _ Hs).
  - intros Hrest. rewrite length_take.
    destruct (Nat.le_gt_cases (length (sort_by_key_desc key l)) n) as [Hle|Hgt]; [|lia].
    exfalso. apply Hrest. now apply drop_ge.
Qed.

(** X4: the top languages are at most ten, each listed once, in the
    non-increasing order of their counts; a listed language is not empty
    and its count is the number of repositories written in it, at least
    one; and a language with repositories that is not listed is left out
    because ten are listed that have at least as many repositories each. *)
Theorem top_languages_are_the_top (repos : list repo) :
  let top := calculate_top_languages repos in
  (length top <= 10)%nat
  /\ NoDup (map fst top)
  /\ RankingsProcessor.descending snd top
  /\ (forall lang n, In (lang, n) top ->
                     lang <> "" /\ 0 < n /\ n = repos_in lang repos)
  /\ (forall lang, lang <> "" -> 0 < repos_in lang repos -> ~ In lang (map fst top) ->
                   length top = 10%nat
                   /\ forall item, In item top -> repos_in lang repos <= snd item).
Proof.
  cbv zeta. unfold calculate_top_languages.
  destruct (languages_counted repos) as (Hn & Hc & Hk). cbv zeta in Hn, Hc, Hk.
  set (languages := foldl count_language [] repos) in *.
  destruct (top_of_sorted snd 10 languages) as (rest & Hperm & Hdesc & Htop & Hlen).
  cbv zeta in Hperm, Hdesc, Htop, Hlen.
  set (top := take 10 (sort_by_key_desc snd languages)) in *.
  assert (forall lang n, In (lang, n) languages ->
                         lang <> "" /\ 0 < n /\ n = repos_in lang repos) as Hitem.
  { intros lang n Hin.
    assert (In lang (map fst languages)) as Hkey
      by (change lang with (fst (lang, n)); now apply in_map).
    apply Hk in Hkey as [Hne Hpos].
    pose proof (counted_in _ _ _ Hn Hin) as Hcount. rewrite Hc in Hcount.
    destruct (String.eqb_spec lang ""); [congruence|]. subst n. auto. }
  split; [unfold top; rewrite length_take; lia|].
  split.
  { assert (NoDup (map fst (top ++ rest))) as Hnd by (now rewrite <- Hperm).
    rewrite map_app in Hnd. now apply NoDup_app in Hnd as [Hnd _]. }
  split; [exact Hdesc|]. split.
  - intros lang n Hin. apply Hitem. rewrite Hperm. apply in_app_iff. now left.
  - intros lang Hne Hpos Hout.
    assert (In lang (map fst languages)) as Hkey by (now apply Hk).
    apply in_map_iff in Hkey as ([l n] & Hl & Hin). simpl in Hl. subst l.
    destruct (Hitem _ _ Hin) as (_ & _ & ->).
    rewrite Hperm in Hin. apply in_app_iff in Hin as [Hin|Hin].
    { exfalso. apply Hout. change lang with (fst (lang, repos_in lang repos)).
      now apply in_map. }
    split.
    + apply Hlen. intros ->. inversion Hin.
    + intros item Hitem'. exact (Htop item _ Hitem' Hin).
Qed.

(** Four repositories in two languages, one without a language. *)
Example top_languages_of_four :
  calculate_top_languages
    [Repo "a" "me/a" None (Some "Go") 0 0 None None false;
     Repo "b" "me/b" None (Some "Python") 0 0 None None false;
     Repo "c" "me/c" None None 0 0 None None false;
     Repo "d" "me/d" None (Some "Python") 0 0 None None false]
  = [("Python", 2); ("Go", 1)].
Proof. reflexivity. Qed.

End LanguagesFacts.

Module GenerateMetricsFacts.
Import PyDatetime PyCalendar MetricsProcessor MetricsFacts MetricsSummary CountingFacts
  MetricsSummaryFacts.

Lemma filter_result_length {A : Type} (p : A -> result bool) (l ys : list A) :
  filter_result p l = Ok ys -> (length ys <= length l)%nat.
Proof.
  revert ys. induction l as [|x l IH]; simpl; intros ys H.
  - injection H as <-. simpl. lia.
  - destruct (p x) as [b|]; [|discriminate]. simpl in H.
    destruct (filter_result p l) as [ys'|]; [|discriminate]. simpl in H.
    injection H as <-. specialize (IH _ eq_refl). destruct b; simpl; lia.
Qed.

Lemma count_by_date_raises (commits : list commit) (m0 : gmap string Z) (c : commit) (e : exn) :
  In c commits -> fromisoformat (commit_date c) = Raise e ->
  count_by_date commits m0 = Raise ValueError.
Proof.
  revert m0. induction commits as [|c' commits IH]; simpl; intros m0 Hin Hc; [contradiction|].
  unfold date_key at 1. unfold fromisoformat in *.
  destruct (parse_isoformat (list_ascii_of_string (commit_date c'))) as [t|] eqn:E; simpl.
  - destruct Hin as [->|Hin]; [rewrite E in Hc; discriminate|]. now apply IH.
  - reflexivity.
Qed.

Lemma streak_returns (today : date) (commits : list commit) :
  Forall (fun c => exists t, fromisoformat (commit_date c) = Ok t) commits ->
  exists s, calculate_activity_streak today commits = Ok s.
Proof.
  intros H. unfold calculate_activity_streak. destruct commits as [|c commits]; [eauto|].
  destruct (map_result_ok commit_day (c :: commits)) as (days & -> & _).
  { eapply Forall_impl; [exact H|]. intros x [t Ht]. unfold commit_day. rewrite Ht.
    simpl. eauto. }
  cbn [bind]. destruct (foldl longest_step _ _). eauto.
Qed.

Lemma monthly_stats_returns (clock : datetime) (commits : list commit)
    (prs : list pull_request) (issues : list issue) :
  (forall stamp, In stamp (timestamps commits prs issues) ->
                 exists t off, fromisoformat stamp = Ok t /\ tzinfo t = Some off) ->
  exists r, calculate_monthly_stats clock commits prs issues = Ok r.
Proof.
  intros Hall. unfold calculate_monthly_stats.
  set (month_start :=
         DateTime (Date (year (dt_date (now_utc clock))) (month (dt_date (now_utc clock))) 1)
                  0 (tzinfo (now_utc clock))).
  assert (Hm : tzinfo month_start = Some 0) by reflexivity.
  unfold timestamps in Hall.
  destruct (NaiveTimestamps.monthly_returns_in_list month_start commit_date commits 0 Hm)
    as [cs ->].
  { intros stamp Hs. apply Hall. rewrite !in_app_iff. auto. }
  destruct (NaiveTimestamps.monthly_returns_in_list month_start pr_created_at prs 0 Hm)
    as [ps ->].
  { intros stamp Hs. apply Hall. rewrite !in_app_iff. auto. }
  destruct (NaiveTimestamps.monthly_returns_in_list month_start issue_created_at issues 0 Hm)
    as [is_ ->].
  { intros stamp Hs. apply Hall. rewrite !in_app_iff. auto. }
  simpl. eauto.
Qed.

Lemma monthly_stats_raises (clock : datetime) (commits : list commit)
    (prs : list pull_request) (issues : list issue) :
  (exists stamp t, In stamp (timestamps commits prs issues)
                   /\ fromisoformat stamp = Ok t /\ tzinfo t = None) ->
  exists e, calculate_monthly_stats clock commits prs issues = Raise e.
Proof.
  intros (stamp & t & Hin & Ht & Hn). unfold calculate_monthly_stats.
  set (month_start :=
         DateTime (Date (year (dt_date (now_utc clock))) (month (dt_date (now_utc clock))) 1)
                  0 (tzinfo (now_utc clock))).
  assert (Hm : tzinfo month_start = Some 0) by reflexivity.
  unfold timestamps in Hin. rewrite !in_app_iff in Hin.
  destruct (filter_result (fun c => in_month month_start (commit_date c)) commits)
    as [cs|e] eqn:Hcs; [|simpl; eauto].
  destruct (filter_result (fun pr => in_month month_start (pr_created_at pr)) prs)
    as [ps|e] eqn:Hps; [|simpl; eauto].
  destruct Hin as [Hin|[Hin|Hin]].
  - destruct (NaiveTimestamps.monthly_raises_in_list month_start commit_date _ _ _ _
                Hm Hin Ht Hn). congruence.
  - destruct (NaiveTimestamps.monthly_raises_in_list month_start pr_created_at _ _ _ _
                Hm Hin Ht Hn). congruence.
  - destruct (NaiveTimestamps.monthly_raises_in_list month_start issue_created_at _ _ _ _
                Hm Hin Ht Hn) as [e He].
    simpl. rewrite He. simpl. eauto.
Qed.

(** X5: all the metrics at once.  When every timestamp of the commits, of
    the pull requests and of the issues carries an offset (and the closing
    stamps are well-formed) the summary is returned, and its parts agree:
    the total of commits is the sum of the daily counts, the total of pull
    requests the sum of the weekly counts, and neither the commits of the
    month nor the active days exceed the total of commits.  A commit whose
    date is too short for a timestamp (fewer than seven bytes, the empty
    text included) makes the whole summary raise ValueError, whatever the
    rest, and a timestamp without an offset among well-formed ones makes it
    raise as well. *)
Theorem metrics_summary_agrees (clock_monthly clock_streak clock_update : datetime)
    (repos : list repo) (commits : list commit) (prs : list pull_request)
    (issues : list tracked_issue) :
  let stamps := timestamps commits prs (map issue_of issues) in
  let closing_stamps_well_formed :=
    Forall (fun i => forall stamp, closed i = Some stamp ->
                                   exists t, fromisoformat stamp = Ok t) issues in
  let summary :=
    generate_metrics clock_monthly clock_streak clock_update repos commits prs issues in
  (Forall offset_aware stamps -> closing_stamps_well_formed ->
   exists m,
     summary = Ok m
     /\ total_commits m = Z.of_nat (length commits)
     /\ total_commits m = total_count (MetricsProcessor.commits_per_day (summary_daily m))
     /\ total_prs m = total_count (prs_per_week (summary_weekly m))
     /\ 0 <= commits_this_month (summary_monthly m) <= total_commits m
     /\ 0 <= total_days_active (summary_daily m) <= total_commits m
     /\ top_languages m = calculate_top_languages repos)
  /\ ((exists c, In c commits /\ too_short (commit_date c)) ->
      summary = Raise ValueError)
  /\ (Forall (fun stamp => exists t, fromisoformat stamp = Ok t) stamps ->
      closing_stamps_well_formed ->
      (exists stamp t, In stamp stamps /\ fromisoformat stamp = Ok t /\ tzinfo t = None) ->
      exists e, summary = Raise e).
Proof.
  cbv zeta. unfold generate_metrics. split; [|split].
  - intros Haware Hclosed.
    assert (Forall (fun s => exists t, fromisoformat s = Ok t)
              (timestamps commits prs (map issue_of issues))) as Hparse.
    { eapply Forall_impl; [exact Haware|]. intros s (t & off & Ht & _). eauto. }
    unfold timestamps in Hparse. rewrite !Forall_app in Hparse.
    destruct Hparse as (Hc & Hp & _).
    apply (proj1 (List.Forall_map _ _ _)) in Hc, Hp.
    destruct (daily_stats_summary commits Hc) as (daily & Hdaily & D1 & _ & _ & D2 & D3).
    destruct (weekly_stats_summary prs issues Hp Hclosed) as (weekly & Hweekly & W1 & _).
    destruct (monthly_stats_returns clock_monthly commits prs (map issue_of issues))
      as [monthly Hmonthly].
    { intros stamp Hin. rewrite List.Forall_forall in Haware. now apply Haware. }
    destruct (streak_returns (dt_date (now_utc clock_streak)) commits Hc) as [s Hs].
    rewrite Hdaily, Hweekly, Hmonthly, Hs. cbn [bind].
    eexists. split; [reflexivity|].
    cbn [total_commits total_prs summary_daily summary_weekly summary_monthly top_languages].
    split; [reflexivity|]. split; [lia|]. split; [lia|].
    split; [|split; [lia|reflexivity]].
    unfold calculate_monthly_stats in Hmonthly.
    destruct (filter_result _ commits) as [cs|] eqn:Hcs; [|discriminate].
    cbn [bind] in Hmonthly.
    destruct (filter_result _ prs) as [ps|]; [|discriminate]. cbn [bind] in Hmonthly.
    destruct (filter_result _ (map issue_of issues)) as [is_|]; [|discriminate].
    cbn [bind] in Hmonthly. injection Hmonthly as <-. cbn [commits_this_month].
    apply filter_result_length in Hcs. lia.
  - intros (c & Hin & Hshort). unfold calculate_daily_stats.
    apply ShortTextFacts.too_short_raises in Hshort.
    now rewrite (count_by_date_raises commits ∅ c ValueError Hin Hshort).
  - intros Hparse Hclosed Hnaive.
    pose proof Hparse as Hparse'.
    unfold timestamps in Hparse. rewrite !Forall_app in Hparse.
    destruct Hparse as (Hc & Hp & _).
    apply (proj1 (List.Forall_map _ _ _)) in Hc, Hp.
    destruct (daily_stats_summary commits Hc) as (daily & -> & _).
    destruct (weekly_stats_summary prs issues Hp Hclosed) as (weekly & -> & _).
    destruct (monthly_stats_raises clock_monthly commits prs (map issue_of issues)
                Hnaive) as [e ->].
    cbn [bind]. eauto.
Qed.


(** A witness for X5: four commits, two pull requests and two issues, all
    stamped with an offset. *)
Lemma metrics_summary_agrees_witness :
  exists m,
    generate_metrics RankingsProcessor.march_10 RankingsProcessor.march_10
                     RankingsProcessor.march_10 RankingsProcessor.starred_two
                     four_days new_year_prs two_issues = Ok m
    /\ total_commits m = Z.of_nat (length four_days)
    /\ total_commits m = total_count (MetricsProcessor.commits_per_day (summary_daily m))
    /\ total_prs m = total_count (prs_per_week (summary_weekly m))
    /\ 0 <= commits_this_month (summary_monthly m) <= total_commits m
    /\ 0 <= total_days_active (summary_daily m) <= total_commits m
    /\ top_languages m = calculate_top_languages RankingsProcessor.starred_two.
Proof.
  apply (proj1 (metrics_summary_agrees RankingsProcessor.march_10 RankingsProcessor.march_10
                  RankingsProcessor.march_10 RankingsProcessor.starred_two
                  four_days new_year_prs two_issues)).
  - repeat constructor; eexists _, _; split; reflexivity.
  - repeat constructor; intros stamp [= <-]; eexists; reflexivity.
Defined.

End GenerateMetricsFacts.

(** ** The ranking by language, all the rankings *)

Module RankingsSummaryFacts.
Import PyDatetime PyCalendar RankingsProcessor RankingsFacts RankingsSummary.

Lemma add_activity_count {A : Type} (name_of : A -> string) (l : list A)
    (m0 : gmap string Z) (name : string) :
  default 0 (foldl (fun m x => add_activity m (name_of x)) m0 l !! name)
  = default 0 (m0 !! name)
    + Z.of_nat (length (List.filter (fun x => String.eqb (name_of x) name) l)).
Proof.
  revert m0. induction l as [|x l IH]; intros m0; simpl; [lia|].
  rewrite IH. unfold add_activity.
  destruct (String.eqb_spec (name_of x) name) as [->|Hne].
  - rewrite lookup_insert_eq. simpl. lia.
  - rewrite lookup_insert_ne by done. reflexivity.
Qed.

(** The activity of a repository is the number of commits, pull requests
    and issues that name it. *)
Lemma activity_scores_mentions (commit_list : list commit) (pr_list : list pull_request)
    (issue_list : list issue) (name : string) :
  default 0 (activity_scores commit_list pr_list issue_list !! name)
  = mentions name commit_list pr_list issue_list.
Proof.
  unfold activity_scores, mentions.
  rewrite (add_activity_count issue_repo), (add_activity_count pr_repo),
    (add_activity_count commit_repo), lookup_empty. simpl. lia.
Qed.

(** The groups after the loop over the repositories. *)
Lemma group_repos (scores : gmap string Z) (entry : repo -> language_entry)
    (repos : list repo) (m0 : gmap string (list language_entry)) (lang : string) :
  (forall r, entry r = LanguageEntry (repo_name r) (full_name r) (stars r)
                                     (default 0 (scores !! repo_name r)) (is_private r)) ->
  foldl (group_repo scores) m0 repos !! lang
  = match written_in lang repos with
    | [] => m0 !! lang
    | rs => if String.eqb lang "" then m0 !! lang
            else Some (default [] (m0 !! lang) ++ map entry rs)
    end.
Proof.
  intros Hentry. revert m0. induction repos as [|r repos IH]; intros m0; [reflexivity|].
  cbn [foldl]. rewrite IH. unfold written_in. cbn [List.filter].
  fold (written_in lang repos). unfold group_repo.
  destruct (language r) as [l|] eqn:El; [|reflexivity].
  destruct (String.eqb_spec l "") as [->|Hl].
  - destruct (String.eqb_spec "" lang) as [<-|Hne]; [|reflexivity].
    simpl. now destruct (written_in "" repos).
  - destruct (String.eqb_spec l lang) as [->|Hne].
    + rewrite lookup_insert_eq. destruct (String.eqb_spec lang ""); [congruence|].
      rewrite <- Hentry. simpl.
      destruct (written_in lang repos) as [|r' rs]; simpl.
      * reflexivity.
      * now rewrite <- app_assoc.
    + rewrite lookup_insert_ne by done. reflexivity.
Qed.

(** The group of a language. *)
Lemma languages_group_their_repositories_eq (repos : list repo) (commit_list : list commit)
    (pr_list : list pull_request) (issue_list : list issue) (lang : string) :
  rank_by_language repos commit_list pr_list issue_list !! lang
  = match written_in lang repos with
    | [] => None
    | rs => if String.eqb lang "" then None
            else Some (sort_by_key_desc activity
                         (map (entry_of commit_list pr_list issue_list) rs))
    end.
Proof.
  unfold rank_by_language. rewrite lookup_fmap.
  rewrite (group_repos _ (entry_of commit_list pr_list issue_list)).
  - rewrite lookup_empty. destruct (written_in lang repos); [reflexivity|].
    now destruct (String.eqb lang "").
  - intros r. unfold entry_of. now rewrite activity_scores_mentions.
Qed.

(** Every group of the ranking by language is in the non-increasing order
    of the activity. *)
Lemma language_groups_descend (repos : list repo) (commit_list : list commit)
    (pr_list : list pull_request) (issue_list : list issue) (lang : string)
    (group : list language_entry) :
  rank_by_language repos commit_list pr_list issue_list !! lang = Some group ->
  descending activity group.
Proof.
  rewrite languages_group_their_repositories_eq.
  destruct (written_in lang repos) as [|r l]; [discriminate|].
  destruct (String.eqb lang ""); [discriminate|].
  intros H.
  assert (group = sort_by_key_desc activity
                    (map (entry_of commit_list pr_list issue_list) (r :: l))) as ->
    by congruence.
  apply sort_by_key_desc_sorted.
Qed.

(** The stable sort keeps the elements of one key in their order. *)
Lemma insert_sorted_with_key {A : Type} (key : A -> Z) (k : Z) (x : A) (l : list A) :
  with_key key k (insert_sorted (fun x y => key y <=? key x) x l)
  = if key x =? k then x :: with_key key k l else with_key key k l.
Proof.
  unfold with_key. induction l as [|y l IH]; simpl; [reflexivity|].
  destruct (Z.leb_spec (key y) (key x)) as [Hle|Hgt]; simpl.
  - reflexivity.
  - rewrite IH. destruct (Z.eqb_spec (key x) k) as [Hx|Hx]; [|reflexivity].
    destruct (Z.eqb_spec (key y) k); [lia|reflexivity].
Qed.

Lemma sort_by_key_desc_with_key {A : Type} (key : A -> Z) (k : Z) (l : list A) :
  with_key key k (sort_by_key_desc key l) = with_key key k l.
Proof.
  induction l as [|x l IH]; [reflexivity|].
  unfold sort_by_key_desc in *. cbn [py_sort foldr].
  fold (py_sort (fun x y => key y <=? key x) l).
  rewrite insert_sorted_with_key, IH. unfold with_key. simpl.
  destruct (key x =? k); reflexivity.
Qed.

Lemma slice_to_with_key {A : Type} (key : A -> Z) (k limit : Z) (l : list A) :
  0 <= limit ->
  exists rest,
    with_key key k (slice_to limit l) ++ rest = with_key key k l
    /\ (Z.of_nat (length l) <= limit -> rest = []).
Proof.
  intros Hlimit. unfold slice_to. rewrite (proj2 (Z.leb_le 0 limit) Hlimit).
  exists (with_key key k (drop (Z.to_nat limit) l)). split.
  - unfold with_key. rewrite <- List.filter_app. now rewrite take_drop.
  - intros Hlen. rewrite drop_ge by lia. reflexivity.
Qed.

Lemma with_key_omap {A B : Type} (f : A -> option B) (key : B -> Z) (k : Z)
    (g : A -> B) (p : A -> bool) (l : list A) :
  (forall x, match f x with
             | Some y => (key y =? k) = p x /\ (p x = true -> y = g x)
             | None => p x = false
             end) ->
  with_key key k (omap f l) = map g (List.filter p l).
Proof.
  intros H. unfold with_key. induction l as [|x l IH]; [reflexivity|].
  change (omap f (x :: l))
    with (match f x with Some y => y :: omap f l | None => omap f l end).
  specialize (H x). cbn [List.filter]. destruct (f x) as [y|].
  - destruct H as [H1 H2]. cbn [List.filter]. rewrite H1.
    destruct (p x); cbn [map]; [|exact IH].
    rewrite IH, H2; reflexivity.
  - rewrite H. exact IH.
Qed.

Lemma omap_length_le {A B : Type} (f : A -> option B) (l : list A) :
  (length (omap f l) <= length l)%nat.
Proof.
  induction l as [|x l IH]; [reflexivity|].
  change (omap f (x :: l))
    with (match f x with Some y => y :: omap f l | None => omap f l end).
  destruct (f x); cbn [length]; lia.
Qed.

(** X7: in the ranking by stars, repositories with the same number of
    stars keep the order of the repository list: the entries with [k]
    stars are the first of the repositories with [k] stars, in their
    order, and all of them when the limit is not below the number of
    repositories. *)
Theorem equal_stars_keep_their_order (repos : list repo) (limit k : Z) :
  0 <= limit -> 0 < k ->
  exists rest,
    with_key se_stars k (rank_by_stars repos limit) ++ rest
    = map stars_entry_of (List.filter (fun r => stars r =? k) repos)
    /\ (Z.of_nat (length repos) <= limit -> rest = []).
Proof.
  intros Hlimit Hk. unfold rank_by_stars.
  set (starred := omap _ repos).
  destruct (slice_to_with_key se_stars k limit (sort_by_key_desc se_stars starred) Hlimit)
    as (rest & Hrest & Hall).
  exists rest. rewrite Hrest, sort_by_key_desc_with_key. split.
  - apply with_key_omap. intros r.
    destruct (Z.ltb_spec 0 (stars r)) as [Hpos|Hneg]; simpl.
    + split; [reflexivity|]. intros _. reflexivity.
    + apply Z.eqb_neq. lia.
  - intros Hlen. apply Hall.
    assert (length (sort_by_key_desc se_stars starred) <= length repos)%nat; [|lia].
    unfold sort_by_key_desc. rewrite py_sort_perm. unfold starred. apply omap_length_le.
Qed.

(** A witness for X7: three repositories, the first and the last with
    seven stars each. *)
Lemma equal_stars_keep_their_order_witness :
  exists rest,
    with_key se_stars 7 (rank_by_stars tied_stars 10) ++ rest
    = map stars_entry_of (List.filter (fun r => stars r =? 7) tied_stars)
    /\ (Z.of_nat (length tied_stars) <= 10 -> rest = []).
Proof. apply (equal_stars_keep_their_order tied_stars 10 7); lia. Defined.

Example tied_stars_ranking :
  map se_name (rank_by_stars tied_stars 10) = ["gamma"; "delta"; "alpha"].
Proof. reflexivity. Qed.

Lemma scores_of_insert (m : gmap string breakdown) (key name : string) (b : breakdown) :
  scores_of (<[key := b]> m) name = if String.eqb key name then b else scores_of m name.
Proof.
  unfold scores_of. destruct (String.eqb_spec key name) as [->|Hne].
  - now rewrite lookup_insert_eq.
  - now rewrite lookup_insert_ne.
Qed.

Lemma count_commits_scores (commit_list : list commit) (m0 : gmap string breakdown)
    (name : string) :
  scores_of (foldl count_commit m0 commit_list) name
  = Breakdown
      (commits (scores_of m0 name)
       + Z.of_nat (length (List.filter (fun c => String.eqb (commit_repo c) name)
                                       commit_list)))
      (prs (scores_of m0 name)) (issues (scores_of m0 name)).
Proof.
  revert m0. induction commit_list as [|c l IH]; intros m0; cbn [foldl List.filter].
  - destruct (scores_of m0 name). simpl. f_equal. lia.
  - rewrite IH. unfold count_commit. rewrite scores_of_insert.
    destruct (String.eqb_spec (commit_repo c) name) as [->|Hne]; [|reflexivity].
    cbn [commits prs issues length]. f_equal. lia.
Qed.

Lemma count_prs_scores (pr_list : list pull_request) (m0 : gmap string breakdown)
    (name : string) :
  scores_of (foldl count_pr m0 pr_list) name
  = Breakdown
      (commits (scores_of m0 name))
      (prs (scores_of m0 name)
       + Z.of_nat (length (List.filter (fun pr => String.eqb (pr_repo pr) name) pr_list)))
      (issues (scores_of m0 name)).
Proof.
  revert m0. induction pr_list as [|c l IH]; intros m0; cbn [foldl List.filter].
  - destruct (scores_of m0 name). simpl. f_equal. lia.
  - rewrite IH. unfold count_pr. rewrite scores_of_insert.
    destruct (String.eqb_spec (pr_repo c) name) as [->|Hne]; [|reflexivity].
    cbn [commits prs issues length]. f_equal. lia.
Qed.

Lemma count_issues_scores (issue_list : list issue) (m0 : gmap string breakdown)
    (name : string) :
  scores_of (foldl count_issue m0 issue_list) name
  = Breakdown
      (commits (scores_of m0 name)) (prs (scores_of m0 name))
      (issues (scores_of m0 name)
       + Z.of_nat (length (List.filter (fun i => String.eqb (issue_repo i) name)
                                       issue_list))).
Proof.
  revert m0. induction issue_list as [|c l IH]; intros m0; cbn [foldl List.filter].
  - destruct (scores_of m0 name). simpl. f_equal. lia.
  - rewrite IH. unfold count_issue. rewrite scores_of_insert.
    destruct (String.eqb_spec (issue_repo c) name) as [->|Hne]; [|reflexivity].
    cbn [commits prs issues length]. f_equal. lia.
Qed.

(** What the three counting loops of the activity ranking leave for a
    repository. *)
Lemma activity_breakdown (commit_list : list commit) (pr_list : list pull_request)
    (issue_list : list issue) (name : string) :
  scores_of (foldl count_issue (foldl count_pr (foldl count_commit ∅ commit_list) pr_list)
                   issue_list) name
  = breakdown_of name commit_list pr_list issue_list.
Proof.
  rewrite count_issues_scores, count_prs_scores, count_commits_scores.
  unfold scores_of at 1 2 3. rewrite lookup_empty. reflexivity.
Qed.

Lemma slice_to_In {A : Type} (limit : Z) (l : list A) (x : A) :
  In x (slice_to limit l) -> In x l.
Proof.
  unfold slice_to.
  destruct (0 <=? limit); intros H;
    match type of H with
    | In _ (take ?n _) => rewrite <- (take_drop n l); apply in_app_iff; now left
    end.
Qed.

Lemma slice_to_all {A : Type} (limit : Z) (l : list A) :
  Z.of_nat (length l) <= limit -> slice_to limit l = l.
Proof.
  intros H. unfold slice_to. destruct (Z.leb_spec 0 limit); [|lia].
  apply take_ge. lia.
Qed.

(** X8: an entry of the activity ranking stands for a repository of the
    list; its breakdown counts the commits, the pull requests and the
    issues that name this repository, and its score is their sum.  When
    the limit is not below the number of repositories, every repository
    that is named at least once has its entry. *)
Theorem activity_entries_count_mentions (repos : list repo) (commit_list : list commit)
    (pr_list : list pull_request) (issue_list : list issue) (limit : Z) :
  let ranked := rank_by_activity repos commit_list pr_list issue_list limit in
  (forall e, In e ranked ->
     exists r,
       In r repos /\ ae_name e = repo_name r /\ ae_full_name e = full_name r
       /\ ae_breakdown e = breakdown_of (repo_name r) commit_list pr_list issue_list
       /\ score e = mentions (repo_name r) commit_list pr_list issue_list
       /\ score e = commits (ae_breakdown e) + prs (ae_breakdown e) + issues (ae_breakdown e))
  /\ (Z.of_nat (length repos) <= limit ->
      forall r, In r repos ->
        0 < mentions (repo_name r) commit_list pr_list issue_list ->
        exists e, In e ranked /\ ae_name e = repo_name r
                  /\ score e = mentions (repo_name r) commit_list pr_list issue_list).
Proof.
  cbv zeta. unfold rank_by_activity. cbv zeta.
  set (f := fun r : repo => _).
  assert (forall r, f r = if 0 <? mentions (repo_name r) commit_list pr_list issue_list
                          then Some (ActivityEntry (repo_name r) (full_name r)
                                       (default "" (html_url r)) (language r)
                                       (mentions (repo_name r) commit_list pr_list issue_list)
                                       (breakdown_of (repo_name r) commit_list pr_list
                                                     issue_list)
                                       (stars r) (is_private r))
                          else None) as Hf.
  { intros r. unfold f. rewrite activity_breakdown. reflexivity. }
  clearbody f. split.
  - intros e He. apply slice_to_In in He.
    unfold sort_by_key_desc in He. rewrite py_sort_perm in He.
    apply list_elem_of_In, list_elem_of_omap in He as (r & Hr & Hfr).
    rewrite Hf in Hfr. destruct (0 <? _); [|discriminate]. injection Hfr as <-.
    exists r. apply list_elem_of_In in Hr. repeat split; try assumption; reflexivity.
  - intros Hlimit r Hr Hpos.
    exists (ActivityEntry (repo_name r) (full_name r) (default "" (html_url r)) (language r)
              (mentions (repo_name r) commit_list pr_list issue_list)
              (breakdown_of (repo_name r) commit_list pr_list issue_list)
              (stars r) (is_private r)).
    split; [|split; reflexivity].
    rewrite slice_to_all.
    + unfold sort_by_key_desc. rewrite py_sort_perm.
      apply list_elem_of_In, list_elem_of_omap. exists r.
      split; [now apply list_elem_of_In|]. rewrite Hf.
      rewrite (proj2 (Z.ltb_lt _ _) Hpos). reflexivity.
    + unfold sort_by_key_desc. rewrite py_sort_perm.
      pose proof (omap_length_le f repos). lia.
Qed.

(** A witness for X8: the first of the two repositories, named by one
    commit. *)
Lemma activity_entries_count_mentions_witness :
  exists e, In e (rank_by_activity starred_two two_commits [] [] 10)
            /\ ae_name e = "alpha"
            /\ score e = mentions "alpha" two_commits [] [].
Proof.
  apply (proj2 (activity_entries_count_mentions starred_two two_commits [] [] 10))
    with (r := Repo "alpha" "me/alpha" None (Some "Python") 5 0 None
                    (Some "2024-01-02T04:30:00+00:00") false).
  - simpl. lia.
  - now left.
  - vm_compute. reflexivity.
Defined.

Lemma recent_entries_raises (clock : datetime) (repos : list repo) (r : repo)
    (stamp : string) (e : exn) :
  In r repos -> pushed r = Some stamp -> fromisoformat stamp = Raise e ->
  recent_entries clock repos = Raise ValueError.
Proof.
  induction repos as [|r' repos IH]; intros Hin Hp He; [contradiction|].
  cbn [recent_entries].
  destruct (pushed r') as [stamp'|] eqn:Hp'.
  - destruct (fromisoformat stamp') as [t|e'] eqn:Et; cbn [bind].
    + destruct Hin as [->|Hin]; [congruence|].
      destruct (tzinfo t) eqn:Etz; unfold datetime_diff_days, drop_tzinfo;
        cbn [tzinfo bind]; rewrite ?Etz; cbn [bind]; now rewrite (IH Hin Hp He).
    + unfold fromisoformat in Et.
      destruct (parse_isoformat (list_ascii_of_string stamp')); congruence.
  - destruct Hin as [->|Hin]; [congruence|]. now apply IH.
Qed.

(** X9: all the rankings at once.  When the last-push stamp of every
    repository that has one is well-formed, the rankings are returned,
    each of the four lists with at most ten entries and in its order; one
    last-push stamp that is too short for a timestamp (fewer than seven
    bytes) makes the whole of them raise ValueError. *)
Theorem all_rankings_or_none (clock_update clock_recent : datetime) (repos : list repo)
    (commit_list : list commit) (pr_list : list pull_request) (issue_list : list issue) :
  let all :=
    generate_rankings clock_update clock_recent repos commit_list pr_list issue_list in
  ((forall r stamp, In r repos -> pushed r = Some stamp ->
                    exists t, fromisoformat stamp = Ok t) ->
   exists rk,
     all = Ok rk
     /\ (length (top_projects rk) <= 10)%nat /\ descending score (top_projects rk)
     /\ (length (most_active rk) <= 10)%nat /\ descending ce_commits (most_active rk)
     /\ (length (most_stars rk) <= 10)%nat /\ descending se_stars (most_stars rk)
     /\ (length (most_recent rk) <= 10)%nat /\ latest_first (most_recent rk))
  /\ ((exists r stamp, In r repos /\ pushed r = Some stamp /\ too_short stamp) ->
      all = Raise ValueError).
Proof.
  cbv zeta. unfold generate_rankings. cbv zeta. split.
  - intros Hstamps. destruct (recent_entries_ok clock_recent repos Hstamps) as [recent Hr].
    unfold rank_by_recent_activity. rewrite Hr. cbn [bind].
    eexists. split; [reflexivity|].
    cbn [top_projects most_active most_stars most_recent].
    assert (forall (A : Type) (l : list A), (length (slice_to 10 l) <= 10)%nat) as Hlen.
    { intros A l. pose proof (slice_to_length 10 l ltac:(lia)). lia. }
    repeat split; try apply Hlen.
    + apply slice_to_sorted, sort_by_key_desc_sorted.
    + apply slice_to_sorted, sort_by_key_desc_sorted.
    + apply slice_to_sorted, sort_by_key_desc_sorted.
    + apply slice_to_sorted, sort_recent_sorted.
  - intros (r & stamp & Hin & Hp & Hshort).
    apply ShortTextFacts.too_short_raises in Hshort.
    unfold rank_by_recent_activity.
    now rewrite (recent_entries_raises clock_recent repos r stamp _ Hin Hp Hshort).
Qed.

(** A witness for X9: the two repositories of the scenario. *)
Lemma all_rankings_or_none_witness :
  exists rk,
    generate_rankings march_10 march_10 starred_two two_commits [] [] = Ok rk
    /\ (length (top_projects rk) <= 10)%nat /\ descending score (top_projects rk)
    /\ (length (most_active rk) <= 10)%nat /\ descending ce_commits (most_active rk)
    /\ (length (most_stars rk) <= 10)%nat /\ descending se_stars (most_stars rk)
    /\ (length (most_recent rk) <= 10)%nat /\ latest_first (most_recent rk).
Proof.
  apply (proj1 (all_rankings_or_none march_10 march_10 starred_two two_commits [] [])).
  intros r stamp [<-|[<-|[]]] [= <-]; eexists; reflexivity.
Defined.

(** X6: the ranking by language has a group for a language exactly when
    the language is not empty and a repository is written in it; the group
    holds one entry for each such repository, in the non-increasing order
    of their activity, and the entries of equal activity stand in the order
    of the repository list; the activity of a repository is the number of
    commits, pull requests and issues that name it. *)
Theorem languages_group_their_repositories (repos : list repo) (commit_list : list commit)
    (pr_list : list pull_request) (issue_list : list issue) (lang : string) :
  let ranking := rank_by_language repos commit_list pr_list issue_list in
  let entries := map (entry_of commit_list pr_list issue_list) (written_in lang repos) in
  (ranking !! lang = None <-> lang = "" \/ written_in lang repos = [])
  /\ forall group,
       ranking !! lang = Some group ->
       Permutation group entries
       /\ descending activity group
       /\ forall k, with_key activity k group = with_key activity k entries.
Proof.
  cbv zeta. rewrite languages_group_their_repositories_eq. split.
  - destruct (written_in lang repos) as [|r rs]; [tauto|].
    destruct (String.eqb_spec lang "") as [->|Hne].
    + tauto.
    + split; [discriminate|]. intros [?|?]; congruence.
  - intros group Hgroup.
    assert (group = sort_by_key_desc activity
                      (map (entry_of commit_list pr_list issue_list)
                           (written_in lang repos))) as ->.
    { destruct (written_in lang repos) as [|r rs]; [discriminate|].
      destruct (String.eqb lang ""); congruence. }
    split; [apply py_sort_perm|]. split; [apply sort_by_key_desc_sorted|].
    intros k. apply sort_by_key_desc_with_key.
Qed.

(** A witness for X6: three repositories in Go, one commit in the second
    of them. *)
Lemma languages_group_their_repositories_witness :
  exists group,
    rank_by_language tied_stars gamma_commit [] [] !! "Go" = Some group
    /\ map le_name group = ["gamma"; "delta"; "alpha"]
    /\ Permutation group (map (entry_of gamma_commit [] []) (written_in "Go" tied_stars))
    /\ descending activity group
    /\ forall k, with_key activity k group
                 = with_key activity k
                     (map (entry_of gamma_commit [] []) (written_in "Go" tied_stars)).
Proof.
  eexists. split; [vm_compute; reflexivity|]. split; [reflexivity|].
  apply (proj2 (languages_group_their_repositories tied_stars gamma_commit [] [] "Go")).
  vm_compute. reflexivity.
Defined.

End RankingsSummaryFacts.

(** ** Text *)

Module TextFacts.

Lemma append_cons (c : ascii) (s t : string) : String c s +:+ t = String c (s +:+ t).
Proof. reflexivity. Qed.

Lemma append_nil_r (s : string) : s +:+ "" = s.
Proof. induction s as [|c s IH]; [reflexivity|]. now rewrite append_cons, IH. Qed.

Lemma append_assoc (a b c : string) : (a +:+ b) +:+ c = a +:+ (b +:+ c).
Proof. induction a as [|x a IH]; [reflexivity|]. now rewrite !append_cons, IH. Qed.

Lemma replace_char_app (old : ascii) (new a b : string) :
  replace_char old new (a +:+ b) = replace_char old new a +:+ replace_char old new b.
Proof.
  induction a as [|c a IH]; [reflexivity|]. rewrite append_cons. cbn [replace_char].
  destruct (Ascii.eqb c old); rewrite IH; [now rewrite append_assoc|reflexivity].
Qed.

Lemma has_char_app (c : ascii) (a b : string) :
  has_char c (a +:+ b) = has_char c a || has_char c b.
Proof.
  induction a as [|x a IH]; [reflexivity|]. rewrite append_cons. cbn [has_char].
  rewrite IH. now rewrite orb_assoc.
Qed.

Lemma html_escape_app (a b : string) :
  html_escape (a +:+ b) = html_escape a +:+ html_escape b.
Proof. unfold html_escape. now rewrite !replace_char_app. Qed.

Lemma html_escape_char (c : ascii) : html_escape (String c "") = escape_of c.
Proof. destruct c as [[] [] [] [] [] [] [] []]; reflexivity. Qed.

(** The five replacements one after the other come to one pass over the
    text. *)
Lemma html_escape_each (s : string) : html_escape s = escape_each s.
Proof.
  induction s as [|c s IH]; [reflexivity|].
  change (String c s) with (String c "" +:+ s).
  rewrite html_escape_app, html_escape_char, IH. reflexivity.
Qed.

Lemma escape_of_markup (c : ascii) :
  has_char "<" (escape_of c) = false /\ has_char ">" (escape_of c) = false
  /\ has_char quote_char (escape_of c) = false /\ has_char "'" (escape_of c) = false.
Proof. destruct c as [[] [] [] [] [] [] [] []]; repeat split; reflexivity. Qed.

Lemma escape_of_plain (c : ascii) :
  has_char c "&<>'" = false -> c <> quote_char -> escape_of c = String c "".
Proof.
  destruct c as [[] [] [] [] [] [] [] []]; intros H Hq; try reflexivity;
    try discriminate H. now contradiction Hq.
Qed.

End TextFacts.

(** ** The cards of the career timeline *)

Module CareerCardsFacts.
Import PyDatetime PyDatetimeFacts CareerTimelineGenerator CareerFacts
  ActivityCalendarGenerator CareerCards TextFacts.

(** X10: a text that went through [_escape_xml] holds no angle bracket
    and no quote, so it can stand inside a tag or an attribute value; the
    escaping works character by character (the text of two parts is the
    two escaped parts), and a text without ampersand, angle bracket or
    quote comes out as it went in. *)
Theorem escaped_text_is_markup_free (s t : string) :
  markup_free (_escape_xml s)
  /\ _escape_xml (s +:+ t) = _escape_xml s +:+ _escape_xml t
  /\ (has_char "&" s = false /\ markup_free s -> _escape_xml s = s).
Proof.
  unfold _escape_xml. split; [|split; [apply html_escape_app|]].
  - rewrite html_escape_each. unfold markup_free.
    induction s as [|c s (H1 & H2 & H3 & H4)]; [repeat split; reflexivity|].
    cbn [escape_each]. rewrite !has_char_app, H1, H2, H3, H4, !orb_false_r.
    apply escape_of_markup.
  - rewrite html_escape_each. unfold markup_free.
    induction s as [|c s IH]; [reflexivity|]. cbn [has_char escape_each].
    intros (Ha & Hl & Hg & Hq & Hs).
    apply orb_false_iff in Ha as [Ha Ha'], Hl as [Hl Hl'], Hg as [Hg Hg'],
      Hq as [Hq Hq'], Hs as [Hs Hs'].
    rewrite IH by auto. rewrite escape_of_plain; [reflexivity| |].
    + cbn [has_char]. apply Ascii.eqb_neq in Ha, Hl, Hg, Hs.
      rewrite !(proj2 (Ascii.eqb_neq _ _)); auto.
    + now apply Ascii.eqb_neq in Hq.
Qed.


(** A date that [strptime] reads is not the word present. *)
Lemma month_text_not_present (s : string) (t : datetime) :
  strptime_year_month s = Ok t -> String.eqb (lower s) "present" = false.
Proof.
  intros H. apply String.eqb_neq. intros Hp.
  destruct s as [|c s]; [discriminate|]. cbn [lower] in Hp.
  injection Hp as Hc _.
  unfold strptime_year_month in H. cbn [list_ascii_of_string take_digits] in H.
  assert (digit_val c = None) as Hd
    by (destruct c as [[] [] [] [] [] [] [] []]; try discriminate Hc; reflexivity).
  rewrite Hd in H. discriminate.
Qed.

Lemma parse_month_text (now : datetime) (s : string) (t : datetime) :
  strptime_year_month s = Ok t -> _parse_date now s = Ok t.
Proof.
  intros H. unfold _parse_date. now rewrite (month_text_not_present s t H).
Qed.

(** From a month to the same month there is no whole month. *)
Lemma duration_of_one_month (now : datetime) (s : string) (t : datetime) :
  strptime_year_month s = Ok t -> _calculate_duration now s s = Ok "&lt; 1m".
Proof.
  intros H. unfold _calculate_duration. rewrite (parse_month_text now s t H). cbn [bind].
  pose proof (strptime_month_start s t H) as Hs.
  unfold relativedelta_between.
  rewrite (whole_months_from_month_start t t Hs (month_start_clock t Hs)).
  - rewrite Z.sub_diag. reflexivity.
  - by_fields.
Qed.

Lemma strptime_raises (s : string) (e : exn) :
  strptime_year_month s = Raise e -> e = ValueError.
Proof.
  unfold strptime_year_month.
  repeat match goal with
         | |- context [match ?x with _ => _ end] => destruct x
         end; congruence.
Qed.

(** X11: the date of a card.  [_format_date] never shows the clock: the
    word present, in any case of its letters, is written Present in every
    mode; a month written YYYY-MM becomes three dots in the hidden mode,
    its year in the year-only mode and the month's name with the year in
    every other mode; and any other text of ASCII characters raises
    ValueError, in the hidden mode as in the others. *)
Theorem format_date_by_mode (now : datetime) (date_str mode : string) :
  (String.eqb (lower date_str) "present" = true ->
   _format_date now date_str mode = Ok "Present")
  /\ (forall t, strptime_year_month date_str = Ok t ->
        _format_date now date_str "hidden" = Ok "•••"
        /\ _format_date now date_str "year_only" = Ok (str_int (year (dt_date t)))
        /\ (mode <> "hidden" -> mode <> "year_only" ->
            _format_date now date_str mode
            = Ok (month_abbr (month (dt_date t)) +:+ " " +:+ str_int (year (dt_date t)))))
  /\ (ascii_text date_str ->
      String.eqb (lower date_str) "present" = false ->
      (forall t, strptime_year_month date_str <> Ok t) ->
      _format_date now date_str mode = Raise ValueError).
Proof.
  unfold _format_date. split; [|split].
  - intros ->. reflexivity.
  - intros t Ht. rewrite (month_text_not_present _ _ Ht), (parse_month_text now _ _ Ht).
    cbn [bind]. split; [reflexivity|]. split; [reflexivity|].
    intros Hh Hy. apply String.eqb_neq in Hh, Hy. rewrite Hy, Hh.
    now destruct (String.eqb mode "month_year").
  - intros _ Hp Hnone. rewrite Hp. unfold _parse_date. rewrite Hp.
    destruct (strptime_year_month date_str) as [t|e] eqn:E.
    + now contradiction (Hnone t).
    + now rewrite (strptime_raises _ _ E).
Qed.

(** A witness for X11: a month, in the hidden mode. *)
Lemma format_date_by_mode_witness :
  _format_date mid_november "2021-06" "hidden" = Ok "•••"
  /\ _format_date mid_november "2021-06" "year_only" = Ok "2021"
  /\ ("month_year" <> "hidden" -> "month_year" <> "year_only" ->
      _format_date mid_november "2021-06" "month_year" = Ok "Jun 2021").
Proof.
  apply (proj1 (proj2 (format_date_by_mode mid_november "2021-06" "month_year"))
           (at_month 2021 6)).
  reflexivity.
Defined.

(** X12: a job that starts and ends in the same month, shown with its
    duration: the duration is the sentinel in its escaped spelling, and the
    line of dates is escaped once more as a whole, so that the card ends
    with an ampersand written out as an entity in front of lt. *)
Theorem sub_month_duration_is_escaped_twice (now : datetime) (kind : option string)
    (month_text mode : string) (t : datetime) :
  strptime_year_month month_text = Ok t ->
  exists shown,
    _format_date now month_text mode = Ok shown
    /\ _calculate_duration now month_text month_text = Ok "&lt; 1m"
    /\ card_date_text now (Entry kind (Some month_text) (Some month_text)) mode true
       = Ok (_escape_xml shown +:+ " - " +:+ _escape_xml shown +:+ " (&amp;lt; 1m)").
Proof.
  intros Ht.
  assert (exists shown, _format_date now month_text mode = Ok shown) as [shown Hshown].
  { unfold _format_date.
    rewrite (month_text_not_present _ _ Ht), (parse_month_text now _ _ Ht). cbn [bind].
    repeat match goal with |- context [if ?x then _ else _] => destruct x end; eauto. }
  exists shown. split; [exact Hshown|]. split; [now apply (duration_of_one_month now _ t)|].
  unfold card_date_text. cbn [date_start date_end from_option id].
  rewrite Hshown, (duration_of_one_month now _ t Ht). cbn [bind].
  unfold _escape_xml. rewrite !html_escape_app.
  change (html_escape " - ") with " - ".
  change (html_escape " (" +:+ html_escape "&lt; 1m" +:+ html_escape ")")
    with " (&amp;lt; 1m)".
  now rewrite !append_assoc.
Qed.

(** A witness for X12: June 2021 to June 2021. *)
Lemma sub_month_duration_is_escaped_twice_witness :
  exists shown,
    _format_date mid_november "2021-06" "month_year" = Ok shown
    /\ _calculate_duration mid_november "2021-06" "2021-06" = Ok "&lt; 1m"
    /\ card_date_text mid_november (Entry (Some "work") (Some "2021-06") (Some "2021-06"))
                      "month_year" true
       = Ok (_escape_xml shown +:+ " - " +:+ _escape_xml shown +:+ " (&amp;lt; 1m)").
Proof.
  apply (sub_month_duration_is_escaped_twice mid_november (Some "work") "2021-06"
           "month_year" (at_month 2021 6)).
  reflexivity.
Defined.

(** The line of dates of that card, as it is written. *)
Example june_to_june :
  card_date_text mid_november (Entry (Some "work") (Some "2021-06") (Some "2021-06"))
                 "month_year" true
  = Ok "Jun 2021 - Jun 2021 (&amp;lt; 1m)".
Proof. reflexivity. Qed.

End CareerCardsFacts.

Module TimelineRowsFacts.
Import PyDatetime PyDatetimeFacts CareerTimelineGenerator CareerFacts CareerCards
  CareerCardsFacts.

Lemma rows_prefix {A : Type} (l : list A) (n : nat) :
  concat (map (fun i => take 4 (drop i l)) (map (fun k => k * 4)%nat (seq 0 n)))
  = take (n * 4) l.
Proof.
  induction n as [|n IH]; [reflexivity|].
  rewrite seq_S, !map_app, concat_app, IH. cbn [map concat Nat.add].
  rewrite app_nil_r, take_take_drop. f_equal. lia.
Qed.

(** The rows hold the entries in their order, four to a row, and no row
    is empty. *)
Lemma rows_of_spec {A : Type} (l : list A) :
  concat (rows_of l) = l
  /\ length (rows_of l) = ((length l + 3) / 4)%nat
  /\ Forall (fun row => (1 <= length row <= 4)%nat) (rows_of l).
Proof.
  unfold rows_of, range_step.
  replace (length l + 4 - 1)%nat with (length l + 3)%nat by lia.
  pose proof (Nat.div_mod_eq (length l + 3) 4) as Hdiv.
  pose proof (Nat.mod_upper_bound (length l + 3) 4 ltac:(lia)) as Hmod.
  set (n := ((length l + 3) / 4)%nat) in *.
  split; [|split].
  - rewrite rows_prefix. apply take_ge. lia.
  - now rewrite !length_map, length_seq.
  - apply List.Forall_forall. intros row Hrow.
    apply in_map_iff in Hrow as (i & <- & Hi).
    apply in_map_iff in Hi as (k & <- & Hk). apply in_seq in Hk.
    rewrite length_take, length_drop. lia.
Qed.

(** Every row but the last holds four entries. *)
Lemma rows_of_lengths {A : Type} (l : list A) (i : nat) (row : list A) :
  rows_of l !! i = Some row -> length row = Nat.min 4 (length l - 4 * i).
Proof.
  unfold rows_of, range_step. rewrite !list_lookup_fmap.
  destruct (seq 0 ((length l + 4 - 1) / 4) !! i) as [k|] eqn:Hk; [|discriminate].
  apply lookup_seq in Hk as [-> _]. cbn [fmap option_fmap option_map Nat.add].
  intros [= <-]. rewrite length_take, length_drop. lia.
Qed.

Lemma naive_leb_trans (a b c : datetime) :
  naive_leb a b = true -> naive_leb b c = true -> naive_leb a c = true.
Proof.
  destruct a as [[ya ma da] ua tza], b as [[yb mb db] ub tzb], c as [[yc mc dc] uc tzc].
  unfold naive_leb, naive_compare, date_compare, lex. simpl.
  destruct (Z.compare_spec ya yb), (Z.compare_spec yb yc); try discriminate;
    destruct (Z.compare_spec ya yc); try lia; try reflexivity;
    destruct (Z.compare_spec ma mb), (Z.compare_spec mb mc); try discriminate;
    destruct (Z.compare_spec ma mc); try lia; try reflexivity;
    destruct (Z.compare_spec da db), (Z.compare_spec db dc); try discriminate;
    destruct (Z.compare_spec da dc); try lia; try reflexivity;
    destruct (Z.compare_spec ua ub), (Z.compare_spec ub uc); try discriminate;
    destruct (Z.compare_spec ua uc); try lia; try reflexivity.
Qed.

Lemma naive_leb_total (a b : datetime) : naive_leb a b = false -> naive_leb b a = true.
Proof.
  destruct a as [[ya ma da] ua tza], b as [[yb mb db] ub tzb].
  unfold naive_leb, naive_compare, date_compare, lex. simpl.
  destruct (Z.compare_spec ya yb), (Z.compare_spec yb ya); try lia; try discriminate;
    try reflexivity;
    destruct (Z.compare_spec ma mb), (Z.compare_spec mb ma); try lia; try discriminate;
    try reflexivity;
    destruct (Z.compare_spec da db), (Z.compare_spec db da); try lia; try discriminate;
    try reflexivity;
    destruct (Z.compare_spec ua ub), (Z.compare_spec ub ua); try lia; try discriminate;
    try reflexivity.
Qed.

Lemma parse_date_raises (now : datetime) (s : string) (e : exn) :
  _parse_date now s = Raise e -> e = ValueError.
Proof.
  unfold _parse_date. destruct (String.eqb _ _); [discriminate|]. apply strptime_raises.
Qed.

Lemma map_result_raises {A B : Type} (f : A -> result B) (l : list A) (x : A) (e : exn) :
  (forall y e', f y = Raise e' -> e' = e) ->
  In x l -> (forall y, f x <> Ok y) -> map_result f l = Raise e.
Proof.
  intros Hraise. induction l as [|a l IH]; simpl; intros Hin Hx; [contradiction|].
  destruct (f a) as [b|e'] eqn:Ea; simpl.
  - destruct Hin as [->|Hin]; [now contradiction (Hx b)|].
    now rewrite (IH Hin Hx).
  - now rewrite (Hraise _ _ Ea).
Qed.

(** The entries in the order of their starts. *)
Lemma sorted_entries_spec (now : datetime) (entries : list entry) :
  Forall (fun e => exists t, _parse_date now (default "" (date_start e)) = Ok t) entries ->
  exists sorted,
    sorted_entries now entries = Ok sorted
    /\ Permutation sorted entries
    /\ StronglySorted (starts_in_order now) sorted.
Proof.
  intros Hall. unfold sorted_entries.
  destruct (map_result_ok _ _ Hall) as (keys & -> & Hkeys). cbn [bind].
  eexists. split; [reflexivity|].
  set (pairs := combine keys entries).
  assert (map snd pairs = entries) as Hsnd.
  { unfold pairs. clear -Hkeys. induction Hkeys; simpl; congruence. }
  assert (Forall (fun p => _parse_date now (default "" (date_start (snd p))) = Ok (fst p))
            pairs) as Hpairs.
  { unfold pairs. clear -Hkeys. induction Hkeys; simpl; constructor; auto. }
  split.
  - rewrite py_sort_perm. now rewrite Hsnd.
  - assert (StronglySorted (fun p q => naive_leb (fst p) (fst q) = true)
              (py_sort (fun x y => naive_leb (fst x) (fst y)) pairs)) as Hs.
    { apply (py_sort_StronglySorted _ (fun _ => True)).
      - intros x y z. apply naive_leb_trans.
      - auto.
      - intros x y _ _. apply naive_leb_total.
      - now apply List.Forall_forall. }
    assert (Forall (fun p => _parse_date now (default "" (date_start (snd p))) = Ok (fst p))
              (py_sort (fun x y => naive_leb (fst x) (fst y)) pairs)) as Hp
      by now rewrite py_sort_perm.
    clear -Hs Hp. induction Hs as [|p l Hs IH Hl]; simpl; [constructor|].
    apply Forall_cons_1 in Hp as [Hp Hp']. constructor; [now apply IH|].
    apply List.Forall_map. rewrite List.Forall_forall in Hl, Hp'.
    apply List.Forall_forall. intros q Hq. exists (fst p), (fst q).
    split; [assumption|]. split; [apply Hp', Hq|now apply Hl].
Qed.

(** X13: the rows of the timeline.  When the start of every entry can be
    read, the sort of [generate_timeline] returns the entries, each exactly
    once, in the order of their starts, and the loop cuts them into rows in
    this order: row [i] holds four entries, or the entries that are left
    after the rows before it when they are fewer, so that only the last row
    can hold fewer than four and no row is empty; the rows are as many as
    the height of the picture is computed for.  An entry of any type whose
    start is a text of ASCII characters that cannot be read (a missing date
    included) makes the sort raise ValueError. *)
Theorem timeline_rows_hold_every_entry (now : datetime) (entries : list entry) :
  (Forall (fun e => exists t, _parse_date now (default "" (date_start e)) = Ok t) entries ->
   exists sorted,
     sorted_entries now entries = Ok sorted
     /\ Permutation sorted entries
     /\ StronglySorted (starts_in_order now) sorted
     /\ concat (rows_of sorted) = sorted
     /\ (forall i row, rows_of sorted !! i = Some row ->
                       length row = Nat.min 4 (length entries - 4 * i))
     /\ Forall (fun row => (1 <= length row <= 4)%nat) (rows_of sorted)
     /\ Z.of_nat (length (rows_of sorted)) = num_rows (Z.of_nat (length entries))
     /\ timeline_height (Z.of_nat (length entries))
        = if (length (rows_of sorted) =? 0)%nat then 400
          else 660 + 280 * (Z.of_nat (length (rows_of sorted)) - 1))
  /\ ((exists e, In e entries
                 /\ ascii_text (default "" (date_start e))
                 /\ forall t, _parse_date now (default "" (date_start e)) <> Ok t) ->
      sorted_entries now entries = Raise ValueError).
Proof.
  split.
  - intros Hall.
    assert (forall n : nat, num_rows (Z.of_nat n) = Z.of_nat ((n + 3) / 4)) as Hrows.
    { intros n. unfold num_rows, cards_per_row.
      replace (Z.of_nat n + 4 - 1) with (Z.of_nat (n + 3)) by lia.
      now rewrite Nat2Z.inj_div. }
    destruct (sorted_entries_spec now entries Hall) as (sorted & Hsorted & Hperm & Hs).
    destruct (rows_of_spec sorted) as (Hconcat & Hlen & Hsizes).
    assert (length sorted = length entries) as Hsame by now rewrite Hperm.
    exists sorted. split; [exact Hsorted|].
    split; [exact Hperm|]. split; [exact Hs|]. split; [exact Hconcat|]. split.
    { intros i row Hrow. rewrite <- Hsame. now apply rows_of_lengths. }
    split; [exact Hsizes|].
    rewrite Hlen, Hsame, Hrows. split; [reflexivity|].
    unfold timeline_height. rewrite Hrows.
    set (n := ((length entries + 3) / 4)%nat).
    destruct (Nat.eqb_spec n 0) as [->|Hn]; [reflexivity|].
    destruct (Z.eqb_spec (Z.of_nat n) 0); [lia|].
    destruct (Z.eqb_spec (Z.of_nat n) 1) as [->|]; lia.
  - intros (e & Hin & _ & He). unfold sorted_entries.
    rewrite (map_result_raises _ _ e ValueError); [reflexivity| |exact Hin|exact He].
    intros y e'. apply parse_date_raises.
Qed.

(** A witness for X13: six entries, in two rows. *)
Lemma timeline_rows_hold_every_entry_witness :
  exists sorted,
    sorted_entries mid_november six_entries = Ok sorted
    /\ Permutation sorted six_entries
    /\ StronglySorted (starts_in_order mid_november) sorted
    /\ concat (rows_of sorted) = sorted
    /\ (forall i row, rows_of sorted !! i = Some row ->
                      length row = Nat.min 4 (length six_entries - 4 * i))
    /\ Forall (fun row => (1 <= length row <= 4)%nat) (rows_of sorted)
    /\ Z.of_nat (length (rows_of sorted)) = num_rows (Z.of_nat (length six_entries))
    /\ timeline_height (Z.of_nat (length six_entries))
       = if (length (rows_of sorted) =? 0)%nat then 400
         else 660 + 280 * (Z.of_nat (length (rows_of sorted)) - 1).
Proof.
  apply (proj1 (timeline_rows_hold_every_entry mid_november six_entries)).
  repeat constructor; eexists; reflexivity.
Defined.

Example six_entries_in_two_rows :
  (let* sorted := sorted_entries mid_november six_entries in
   Ok (map (map (fun e => default "" (date_start e))) (rows_of sorted)))
  = Ok [["2012-02"; "2015-03"; "2019-01"; "2020-01"]; ["2021-06"; "2023-02"]].
Proof. reflexivity. Qed.

(** An entry of the education, without a date, stops the sort, though the
    total experience passes it over. *)
Example entry_without_date :
  sorted_entries mid_november [job_a; Entry (Some "education") None None]
  = Raise ValueError
  /\ _calculate_total_experience mid_november
       [job_a; Entry (Some "education") None None] = Ok "1y 11m".
Proof. split; reflexivity. Qed.

End TimelineRowsFacts.

Module ExperienceFacts.
Import PyDatetime PyDatetimeFacts CareerTimelineGenerator CareerFacts CareerCards
  CareerCardsFacts TextFacts.

Lemma collect_periods_work (now : datetime) (entries : list entry) :
  collect_periods now (List.filter is_work entries) = collect_periods now entries.
Proof.
  induction entries as [|e entries IH]; [reflexivity|]. cbn [List.filter].
  destruct (is_work e) eqn:E; cbn [collect_periods]; rewrite E, IH; reflexivity.
Qed.

(** The total experience reads the entries of type work only: filtering
    them out beforehand changes nothing. *)
Lemma total_experience_of_work (now : datetime) (entries : list entry) :
  _calculate_total_experience now (List.filter is_work entries)
  = _calculate_total_experience now entries.
Proof.
  unfold _calculate_total_experience. rewrite collect_periods_work.
  destruct entries as [|e entries]; [reflexivity|].
  destruct (List.filter is_work (e :: entries)) eqn:E; [|reflexivity].
  rewrite <- (collect_periods_work now (e :: entries)), E. reflexivity.
Qed.

Lemma digit_char_not (c : ascii) (d : Z) :
  has_char c "0123456789" = false -> 0 <= d < 10 -> Ascii.eqb (digit_char d) c = false.
Proof.
  intros Hc Hd. cbn [has_char] in Hc. repeat (apply orb_false_iff in Hc as [? Hc]).
  assert (d = 0 \/ d = 1 \/ d = 2 \/ d = 3 \/ d = 4 \/ d = 5 \/ d = 6 \/ d = 7 \/ d = 8
          \/ d = 9) as Hcases by lia.
  repeat destruct Hcases as [->|Hcases]; try subst d; assumption.
Qed.

Lemma digits_of_has_char (c : ascii) (fuel : nat) (n : Z) (acc : string) :
  has_char c "0123456789" = false -> 0 <= n ->
  has_char c (digits_of fuel n acc) = has_char c acc.
Proof.
  intros Hc. revert n acc. induction fuel as [|fuel IH]; intros n acc Hn; [reflexivity|].
  cbn [digits_of].
  assert (has_char c (String (digit_char (n mod 10)) acc) = has_char c acc) as Hhead.
  { cbn [has_char]. rewrite digit_char_not; [reflexivity|assumption|].
    apply Z.mod_pos_bound. lia. }
  destruct (n <? 10); [exact Hhead|].
  rewrite IH; [exact Hhead|]. apply Z.div_pos; lia.
Qed.

(** The decimal text of a number that is not negative holds digits only. *)
Lemma str_int_has_char (c : ascii) (n : Z) :
  has_char c "0123456789" = false -> 0 <= n -> has_char c (str_int n) = false.
Proof.
  intros Hc Hn. unfold str_int. destruct (Z.ltb_spec n 0); [lia|].
  now rewrite digits_of_has_char.
Qed.

Lemma before_char_app (c : ascii) (s t : string) :
  has_char c s = false -> before_char c (s +:+ String c t) = s.
Proof.
  induction s as [|x s IH]; cbn [has_char]; intros H.
  - change ("" +:+ String c t) with (String c t). cbn [before_char].
    now rewrite Ascii.eqb_refl.
  - apply orb_false_iff in H as [Hx Hs]. rewrite append_cons. cbn [before_char].
    rewrite Hx, IH; auto.
Qed.

(** X14: the number on the compact experience card.  For work intervals
    that run from the start of a month to a moment not before it, the card
    shows the whole years of the merged experience, and 0 when it is less
    than a year (or when there is no work entry); entries of other types
    do not count. *)
Theorem compact_card_shows_whole_years (now : datetime) (entries : list entry)
    (periods : list period) :
  collect_periods now entries = Ok periods ->
  Forall well_formed periods ->
  years_display now entries = Ok (str_int (merged_months periods / 12))
  /\ _calculate_total_experience now (List.filter is_work entries)
     = _calculate_total_experience now entries.
Proof.
  intros Hc Hwf. split; [|apply total_experience_of_work].
  unfold years_display. rewrite total_experience_of_work.
  unfold _calculate_total_experience. rewrite Hc.
  destruct entries as [|e entries].
  { simpl in Hc. injection Hc as <-. reflexivity. }
  cbn [bind]. destruct periods as [|p periods]; [reflexivity|].
  pose proof (merged_months_nonneg _ Hwf) as Hnn.
  set (m := merged_months (p :: periods)) in *. clearbody m.
  unfold format_experience. cbv zeta.
  pose proof (Z.div_pos m 12 Hnn ltac:(lia)) as Hy.
  pose proof (Z.mod_pos_bound m 12 ltac:(lia)) as Hm.
  assert (Hd : has_char "y" "0123456789" = false) by reflexivity.
  destruct (Z.ltb_spec 0 (m / 12)) as [Hpos|Hzero].
  - assert (forall rest, has_char "y" (str_int (m / 12) +:+ "y" +:+ rest) = true) as Hhas.
    { intros rest. rewrite has_char_app. cbn [has_char]. rewrite (append_cons "y").
      cbn [has_char]. now rewrite orb_true_r. }
    destruct (0 <? m mod 12); cbn [app join bind].
    + rewrite append_assoc, Hhas. f_equal.
      apply before_char_app, str_int_has_char; auto.
    + rewrite <- (append_nil_r (str_int (m / 12) +:+ "y")) at 1.
      rewrite append_assoc, Hhas. f_equal.
      rewrite <- (append_nil_r (str_int (m / 12) +:+ "y")), append_assoc.
      apply before_char_app, str_int_has_char; auto.
  - assert (m / 12 = 0) as -> by lia.
    destruct (Z.ltb_spec 0 (m mod 12)); cbn [app join bind]; [|reflexivity].
    rewrite has_char_app, str_int_has_char by (auto; lia). reflexivity.
Qed.

(** A witness for X14: the two jobs of the scenario and a degree. *)
Lemma compact_card_shows_whole_years_witness :
  years_display mid_november [job_a; Entry (Some "education") (Some "2015-09") None; job_b]
  = Ok (str_int (merged_months [(at_month 2020 1, at_month 2021 12);
                                (at_month 2021 6, at_month 2022 6)] / 12))
  /\ _calculate_total_experience mid_november
       (List.filter is_work [job_a; Entry (Some "education") (Some "2015-09") None; job_b])
     = _calculate_total_experience mid_november
         [job_a; Entry (Some "education") (Some "2015-09") None; job_b].
Proof.
  apply (compact_card_shows_whole_years mid_november
           [job_a; Entry (Some "education") (Some "2015-09") None; job_b]
           [(at_month 2020 1, at_month 2021 12); (at_month 2021 6, at_month 2022 6)]).
  - reflexivity.
  - repeat constructor; simpl; lia.
Defined.

Lemma set_months_nonneg (n : Z) :
  0 <= n -> years (set_months n) = n / 12 /\ months (set_months n) = n mod 12.
Proof.
  intros Hn. unfold set_months. destruct (Z.ltb_spec 11 (Z.abs n)) as [Hbig|Hsmall].
  - assert (Z.sgn n = 1) as -> by lia. cbn [years months]. rewrite !Z.mul_1_r. auto.
  - cbn [years months]. rewrite Z.div_small, Z.mod_small by lia. auto.
Qed.

(** X15: for one job that runs from the start of a month to a moment not
    before it, the total experience and the duration shown on the card of
    the job are the same text. *)
Theorem one_job_total_is_its_duration (now : datetime) (e : entry) (p : period) :
  collect_periods now [e] = Ok [p] ->
  well_formed p ->
  _calculate_total_experience now [e]
  = _calculate_duration now (default "" (date_start e)) (default "present" (date_end e)).
Proof.
  intros Hc Hwf. unfold _calculate_total_experience. rewrite Hc. cbn [bind].
  cbn [collect_periods] in Hc. destruct (is_work e); [|discriminate].
  unfold _calculate_duration.
  destruct (_parse_date now (default "" (date_start e))) as [start|]; [|discriminate].
  cbn [bind] in *.
  destruct (_parse_date now (default "present" (date_end e))) as [end_|]; [|discriminate].
  cbn [bind] in *. injection Hc as Hp. subst p.
  match goal with
  | |- Ok (format_experience ?m) = _ =>
      change m with (period_months (start, end_))
  end.
  pose proof (period_months_span _ Hwf) as Hspan.
  destruct Hwf as (Hs & He & Hle).
  apply (leb_from_month_start _ _ Hs He) in Hle.
  unfold span in Hspan. cbn [fst snd] in Hspan, Hle.
  unfold period_months in *. cbn [fst snd] in *.
  unfold relativedelta_between in *. rewrite set_months_total in Hspan.
  destruct (set_months_nonneg (whole_months end_ start) ltac:(lia)) as [Hy Hm].
  unfold format_experience. cbv zeta. rewrite set_months_total, Hy, Hm. reflexivity.
Qed.

(** A witness for X15. *)
Lemma one_job_total_is_its_duration_witness :
  _calculate_total_experience mid_november [job_a]
  = _calculate_duration mid_november (default "" (date_start job_a))
                        (default "present" (date_end job_a)).
Proof.
  apply (one_job_total_is_its_duration mid_november job_a
           (at_month 2020 1, at_month 2021 12)).
  - reflexivity.
  - repeat constructor; simpl; lia.
Defined.

(** A job written with its end before its start: the card of the job
    shows less than a month, the total ten months. *)
Example backwards_job :
  _calculate_duration mid_november "2020-03" "2020-01" = Ok "&lt; 1m"
  /\ _calculate_total_experience mid_november
       [Entry (Some "work") (Some "2020-03") (Some "2020-01")] = Ok "10m".
Proof. split; reflexivity. Qed.

End ExperienceFacts.

(** ** The history of monthly snapshots *)

Module HistoryFacts.
Import PyDatetime PyCalendar DailyMetrics RankingsFacts.

Section HistoryProofs.
Variable payload : Type.

Abbreviation snap := (snap payload).
Abbreviation month_key := (month_key payload).
Abbreviation is_month := (is_month payload).
Abbreviation is_valid := (is_valid payload).

(** The loop with its [break]: the first snapshot of the month gives way
    to the new one, or there is none. *)
Lemma replace_first_spec (current_month : string) (snapshot : snap) (snapshots : list snap) :
  match replace_first payload current_month snapshot snapshots with
  | (replaced, true) =>
      exists before old after,
        snapshots = before ++ old :: after
        /\ replaced = before ++ snapshot :: after
        /\ is_month current_month old = true
        /\ Forall (fun s => is_month current_month s = false) before
  | (same, false) =>
      same = snapshots /\ Forall (fun s => is_month current_month s = false) snapshots
  end.
Proof.
  induction snapshots as [|s rest IH]; cbn [replace_first]; [auto|].
  destruct (is_month current_month s) eqn:E.
  - exists [], s, rest. auto.
  - destruct (replace_first payload current_month snapshot rest) as [rest' [|]].
    + destruct IH as (before & old & after & -> & -> & Hold & Hbefore).
      exists (s :: before), old, after. repeat split; auto.
    + destruct IH as [-> Hrest]. auto.
Qed.

(** The stable sort, greatest key first: an element that no other one
    beats and that stands before every element of the same key comes
    first. *)
Lemma sort_head (before after : list snap) (x : snap) :
  Forall (fun y => String.leb (month_key x) (month_key y) = false) before ->
  Forall (fun y => String.leb (month_key y) (month_key x) = true) after ->
  exists rest,
    py_sort (fun a b => String.leb (month_key b) (month_key a)) (before ++ x :: after)
    = x :: rest.
Proof.
  intros Hb Ha. induction Hb as [|a before Hlt _ IH]; cbn [app py_sort foldr].
  - fold (py_sort (fun a b => String.leb (month_key b) (month_key a)) after).
    assert (Forall (fun y => String.leb (month_key y) (month_key x) = true)
              (py_sort (fun a b => String.leb (month_key b) (month_key a)) after)) as Hs
      by now rewrite py_sort_perm.
    destruct (py_sort _ after) as [|y rest]; cbn [insert_sorted]; [eauto|].
    apply Forall_cons_1 in Hs as [-> _]. eauto.
  - fold (py_sort (fun a b => String.leb (month_key b) (month_key a)) (before ++ x :: after)).
    destruct IH as [rest ->]. cbn [insert_sorted]. rewrite Hlt. eauto.
Qed.

Lemma filter_valid_keeps (l : list snap) (P : snap -> Prop) :
  Forall P l -> Forall P (List.filter is_valid l).
Proof.
  intros H. apply List.Forall_forall. intros x Hx. apply filter_In in Hx as [Hx _].
  rewrite List.Forall_forall in H. auto.
Qed.

(** X16: the history after an update holds at most twelve snapshots, all
    of them with a month, the latest month first; each is the new snapshot
    or one that the history held; and when no snapshot of the history is
    of a later month than the current one, the new snapshot comes first,
    whether the month had a snapshot already or not. *)
Theorem history_keeps_the_latest_twelve (now : datetime) (data : payload)
    (history : option (list snap)) :
  let current_month := date_strftime_Y_m (dt_date now) in
  let updated := update_history payload now data history in
  (length updated <= 12)%nat
  /\ Forall (fun s => is_valid s = true) updated
  /\ StronglySorted (fun s s' => String.leb (month_key s') (month_key s) = true) updated
  /\ (forall s, In s updated ->
                s = Snapshot payload current_month data \/ In s (default [] history))
  /\ (Forall (fun s => String.leb (month_key s) current_month = true) (default [] history) ->
      exists older, updated = Snapshot payload current_month data :: older).
Proof.
  cbv zeta. unfold update_history.
  set (current_month := date_strftime_Y_m (dt_date now)).
  set (snapshot := Snapshot payload current_month data).
  set (snapshots := default [] history).
  pose proof (replace_first_spec current_month snapshot snapshots) as Hspec.
  destruct (replace_first payload current_month snapshot snapshots) as [replaced updated].
  set (result := if updated then replaced else replaced ++ [snapshot]).
  set (before := fun a b : snap => String.leb (month_key b) (month_key a)).
  assert (exists l1 l2,
             result = l1 ++ snapshot :: l2
             /\ Forall (fun s => is_month current_month s = false) l1
             /\ forall s, In s (l1 ++ l2) -> In s snapshots) as (l1 & l2 & Hres & Hl1 & Hin).
  { unfold result. destruct updated.
    - destruct Hspec as (l1 & old & l2 & Hsn & -> & _ & Hl1).
      exists l1, l2. split; [reflexivity|]. split; [exact Hl1|].
      intros s Hs. rewrite Hsn. rewrite in_app_iff in *. simpl. tauto.
    - destruct Hspec as [-> Hl1]. exists snapshots, [].
      split; [reflexivity|]. split; [exact Hl1|]. intros s. now rewrite app_nil_r. }
  clearbody result. subst result.
  split; [rewrite length_take; lia|].
  split.
  { apply Forall_take. unfold before. rewrite py_sort_perm.
    apply List.Forall_forall. intros s Hs. now apply filter_In in Hs. }
  split.
  { apply StronglySorted_take.
    apply (py_sort_StronglySorted _ (fun _ => True)).
    - intros x y z Hxy Hyz. eapply string_leb_trans; eauto.
    - auto.
    - intros x y _ _. apply string_leb_total.
    - now apply List.Forall_forall. }
  split.
  { intros s Hs.
    assert (In s (l1 ++ snapshot :: l2)) as Hs'.
    { assert (In s (py_sort before (List.filter is_valid (l1 ++ snapshot :: l2)))) as H
        by (rewrite <- (take_drop 12 (py_sort before _)); apply in_app_iff; now left).
      unfold before in H. rewrite py_sort_perm in H. now apply filter_In in H. }
    apply in_app_iff in Hs'. simpl in Hs'.
    destruct Hs' as [Hs'|[<-|Hs']]; [right|now left|right]; apply Hin, in_app_iff; auto. }
  intros Hpast.
  rewrite List.filter_app.
  change (List.filter is_valid (snapshot :: l2)) with (snapshot :: List.filter is_valid l2).
  destruct (sort_head (List.filter is_valid l1) (List.filter is_valid l2) snapshot)
    as [rest Hrest].
  - apply List.Forall_forall. intros s Hs. apply filter_In in Hs as [Hs Hv].
    rewrite List.Forall_forall in Hl1, Hpast.
    specialize (Hl1 s Hs). specialize (Hpast s (Hin s ltac:(apply in_app_iff; auto))).
    destruct s as [m d|]; [|discriminate]. cbn in *.
    destruct (String.leb current_month m) eqn:E; [|reflexivity].
    pose proof (String.leb_antisym _ _ E Hpast) as ->.
    now rewrite String.eqb_refl in Hl1.
  - apply filter_valid_keeps, List.Forall_forall. intros s Hs.
    rewrite List.Forall_forall in Hpast. apply Hpast, Hin, in_app_iff. auto.
  - fold before in Hrest. rewrite Hrest. eauto.
Qed.

End HistoryProofs.

(** Three months on record, the current one among them: the snapshot of
    the month is replaced and the months come latest first. *)
Example history_of_three_months :
  update_history Z (DateTime (Date 2024 3 10) 0 None) 7
    (Some [Snapshot Z "2024-02" 1; Junk Z; Snapshot Z "2024-03" 2; Snapshot Z "2024-01" 3])
  = [Snapshot Z "2024-03" 7; Snapshot Z "2024-02" 1; Snapshot Z "2024-01" 3].
Proof. reflexivity. Qed.

End HistoryFacts.

(** ** Decimal texts *)

Module DecimalFacts.
Import PyDatetime TextFacts.

Lemma digit_cases (d : Z) :
  0 <= d < 10 ->
  d = 0 \/ d = 1 \/ d = 2 \/ d = 3 \/ d = 4 \/ d = 5 \/ d = 6 \/ d = 7 \/ d = 8 \/ d = 9.
Proof. lia. Qed.

Lemma digit_val_char (d : Z) : 0 <= d < 10 -> digit_val (digit_char d) = Some d.
Proof.
  intros Hd. apply digit_cases in Hd.
  repeat destruct Hd as [->|Hd]; try subst d; reflexivity.
Qed.

Lemma digit_char_plain (d : Z) : 0 <= d < 10 -> is_continuation (digit_char d) = false.
Proof.
  intros Hd. apply digit_cases in Hd.
  repeat destruct Hd as [->|Hd]; try subst d; reflexivity.
Qed.

Lemma list_ascii_app (a b : string) :
  list_ascii_of_string (a +:+ b) = list_ascii_of_string a ++ list_ascii_of_string b.
Proof.
  induction a as [|c a IH]; [reflexivity|].
  rewrite append_cons. cbn [list_ascii_of_string app]. now rewrite IH.
Qed.

Lemma zeros_shift (w : nat) (s : string) : zeros w (String "0" s) = String "0" (zeros w s).
Proof. induction w as [|w IH]; [reflexivity|]. cbn [zeros]. now rewrite IH. Qed.

Lemma fixed_digits_zero (w : nat) (acc : string) : fixed_digits w 0 acc = zeros w acc.
Proof.
  revert acc. induction w as [|w IH]; intros acc; [reflexivity|].
  cbn [fixed_digits zeros]. change (0 / 10) with 0. change (0 mod 10) with 0.
  rewrite IH. apply zeros_shift.
Qed.

Lemma fixed_digits_length (w : nat) (n : Z) (acc : string) :
  String.length (fixed_digits w n acc) = (w + String.length acc)%nat.
Proof.
  revert n acc. induction w as [|w IH]; intros n acc; [reflexivity|].
  cbn [fixed_digits]. rewrite IH. cbn [String.length]. lia.
Qed.

Lemma fixed_digits_app (w : nat) (n : Z) (acc : string) :
  fixed_digits w n acc = fixed_digits w n "" +:+ acc.
Proof.
  revert n acc. induction w as [|w IH]; intros n acc; [reflexivity|].
  cbn [fixed_digits]. rewrite IH, (IH _ (String _ "")), append_assoc. reflexivity.
Qed.

(** A number of [j] digits at most, written on [w] digits: zeros in
    front. *)
Lemma fixed_digits_pad (j w : nat) (n : Z) (acc : string) :
  0 <= n < 10 ^ Z.of_nat j -> (j <= w)%nat ->
  fixed_digits w n acc = zeros (w - j) (fixed_digits j n acc).
Proof.
  revert w n acc. induction j as [|j IH]; intros w n acc Hn Hw.
  - assert (n = 0) as -> by (simpl in Hn; lia).
    rewrite Nat.sub_0_r. apply fixed_digits_zero.
  - destruct w as [|w]; [lia|]. cbn [fixed_digits Nat.sub]. apply IH; [|lia].
    rewrite Nat2Z.inj_succ, Z.pow_succ_r in Hn by lia.
    split; [apply Z.div_pos; lia|]. apply Z.div_lt_upper_bound; lia.
Qed.

(** The digits that [str] writes are the digits of the number, as many
    as it has. *)
Lemma digits_of_fixed (fuel : nat) (n : Z) (acc : string) :
  0 <= n < 2 ^ Z.of_nat fuel -> (1 <= fuel)%nat ->
  exists j, (1 <= j)%nat /\ digits_of fuel n acc = fixed_digits j n acc
            /\ (n < 10 ^ Z.of_nat j)
            /\ forall w, n < 10 ^ Z.of_nat w -> (1 <= w)%nat -> (j <= w)%nat.
Proof.
  revert n acc. induction fuel as [|fuel IH]; intros n acc Hn Hf; [lia|].
  cbn [digits_of]. destruct (n <? 10) eqn:E.
  - apply Z.ltb_lt in E. exists 1%nat. split; [lia|]. split.
    + reflexivity.
    + split; [simpl; lia|]. intros; lia.
  - apply Z.ltb_ge in E.
    rewrite Nat2Z.inj_succ, Z.pow_succ_r in Hn by lia.
    assert (0 <= n / 10 < 2 ^ Z.of_nat fuel) as Hq.
    { split; [apply Z.div_pos; lia|]. apply Z.div_lt_upper_bound; lia. }
    assert (1 <= n / 10) as Hq1 by (apply Z.div_le_lower_bound; lia).
    assert (1 <= fuel)%nat as Hf'.
    { destruct fuel; [simpl in Hq; lia | lia]. }
    destruct (IH (n / 10) (String (digit_char (n mod 10)) acc) Hq Hf')
      as (j & Hj & -> & Hlt & Hmin).
    exists (S j). split; [lia|]. split; [reflexivity|]. split.
    + rewrite Nat2Z.inj_succ, Z.pow_succ_r by lia.
      pose proof (Z.div_mod n 10 ltac:(lia)). pose proof (Z.mod_pos_bound n 10 ltac:(lia)).
      lia.
    + intros w Hw Hw1. destruct w as [|w]; [lia|].
      destruct w as [|w]; [simpl in Hw; lia|].
      apply le_n_S, Hmin; [|lia].
      rewrite (Nat2Z.inj_succ (S w)), Z.pow_succ_r in Hw by lia.
      apply Z.div_lt_upper_bound; lia.
Qed.

Lemma str_int_fixed (n : Z) :
  0 <= n ->
  exists j, (1 <= j)%nat /\ str_int n = fixed_digits j n ""
            /\ n < 10 ^ Z.of_nat j
            /\ forall w, n < 10 ^ Z.of_nat w -> (1 <= w)%nat -> (j <= w)%nat.
Proof.
  intros Hn. unfold str_int. destruct (n <? 0) eqn:E; [apply Z.ltb_lt in E; lia|].
  apply digits_of_fixed; [|lia].
  split; [lia|]. rewrite Nat2Z.inj_succ, Z2Nat.id by apply Z.log2_nonneg.
  destruct (Z.eq_dec n 0) as [->|]; [reflexivity|].
  apply Z.log2_spec. lia.
Qed.

(** [f"{n:0wd}"] writes the [w] last digits of a number that has no
    more. *)
Lemma zero_pad_fixed (w : nat) (n : Z) :
  0 <= n < 10 ^ Z.of_nat w -> (1 <= w)%nat ->
  zero_pad w (str_int n) = fixed_digits w n "".
Proof.
  intros Hn Hw. destruct (str_int_fixed n) as (j & Hj & -> & Hlt & Hmin); [lia|].
  unfold zero_pad. rewrite fixed_digits_length, Nat.add_0_r.
  symmetry. apply fixed_digits_pad; [lia|]. apply Hmin; [lia | assumption].
Qed.

(** The first digit of a text of digits. *)
Lemma fixed_digits_high (w : nat) (d n : Z) (acc : string) :
  0 <= d < 10 -> 0 <= n < 10 ^ Z.of_nat w ->
  fixed_digits (S w) (d * 10 ^ Z.of_nat w + n) acc
  = String (digit_char d) (fixed_digits w n acc).
Proof.
  intros Hd. revert n acc. induction w as [|w IH]; intros n acc Hn.
  - assert (n = 0) as -> by (simpl in Hn; lia). cbn [fixed_digits].
    change (10 ^ Z.of_nat 0) with 1. rewrite Z.mul_1_r, Z.add_0_r.
    rewrite Z.mod_small by lia. reflexivity.
  - rewrite Nat2Z.inj_succ, Z.pow_succ_r in * by lia.
    remember (10 ^ Z.of_nat w) as p eqn:Hp.
    assert (0 < p) as Hpos by (subst p; apply Z.pow_pos_nonneg; lia).
    change (fixed_digits (S (S w)) (d * (10 * p) + n) acc)
      with (fixed_digits (S w) ((d * (10 * p) + n) / 10)
              (String (digit_char ((d * (10 * p) + n) mod 10)) acc)).
    assert ((d * (10 * p) + n) / 10 = d * p + n / 10) as ->.
    { replace (d * (10 * p) + n) with (n + (d * p) * 10) by lia.
      rewrite Z.div_add by lia. lia. }
    assert ((d * (10 * p) + n) mod 10 = n mod 10) as ->.
    { replace (d * (10 * p) + n) with (n + (d * p) * 10) by lia.
      apply Z.mod_add. lia. }
    rewrite IH; [reflexivity|].
    split; [apply Z.div_pos; lia|]. apply Z.div_lt_upper_bound; lia.
Qed.

Lemma fixed_digits_split (w : nat) (n : Z) (acc : string) :
  0 <= n < 10 ^ Z.of_nat (S w) ->
  0 <= n / 10 ^ Z.of_nat w < 10 /\ 0 <= n mod 10 ^ Z.of_nat w < 10 ^ Z.of_nat w
  /\ fixed_digits (S w) n acc
     = String (digit_char (n / 10 ^ Z.of_nat w)) (fixed_digits w (n mod 10 ^ Z.of_nat w) acc).
Proof.
  intros Hn. rewrite Nat2Z.inj_succ, Z.pow_succ_r in Hn by lia.
  assert (0 < 10 ^ Z.of_nat w) as Hpos by (apply Z.pow_pos_nonneg; lia).
  pose proof (Z.div_mod n (10 ^ Z.of_nat w) ltac:(lia)) as Hdm.
  pose proof (Z.mod_pos_bound n _ Hpos) as Hm.
  assert (0 <= n / 10 ^ Z.of_nat w < 10) as Hd.
  { split; [apply Z.div_pos; lia|]. apply Z.div_lt_upper_bound; lia. }
  split; [assumption|]. split; [assumption|].
  rewrite <- fixed_digits_high by assumption. f_equal. lia.
Qed.

(** Reading back the digits written. *)
Lemma take_digits_fixed (w : nat) (n a : Z) (rest : string) :
  0 <= n < 10 ^ Z.of_nat w ->
  take_digits w (list_ascii_of_string (fixed_digits w n rest)) a
  = Some (a * 10 ^ Z.of_nat w + n, list_ascii_of_string rest).
Proof.
  revert n a. induction w as [|w IH]; intros n a Hn.
  - assert (n = 0) as -> by (simpl in Hn; lia). cbn [take_digits fixed_digits].
    change (10 ^ Z.of_nat 0) with 1. f_equal. f_equal. lia.
  - destruct (fixed_digits_split w n rest Hn) as (Hd & Hm & ->).
    cbn [list_ascii_of_string take_digits]. rewrite digit_val_char by assumption.
    rewrite IH by assumption. f_equal. f_equal.
    rewrite Nat2Z.inj_succ, Z.pow_succ_r by lia.
    assert (0 < 10 ^ Z.of_nat w) as Hpos by (apply Z.pow_pos_nonneg; lia).
    pose proof (Z.div_mod n (10 ^ Z.of_nat w) ltac:(lia)) as Hdm.
    remember (10 ^ Z.of_nat w) as p. remember (n / p) as q. remember (n mod p) as r.
    clear - Hdm. nia.
Qed.

Lemma take_chars_fixed (w k : nat) (n : Z) (rest : string) :
  0 <= n < 10 ^ Z.of_nat w ->
  take_chars (w + k) (fixed_digits w n rest) = fixed_digits w n (take_chars k rest).
Proof.
  revert n. induction w as [|w IH]; intros n Hn; [reflexivity|].
  destruct (fixed_digits_split w n rest Hn) as (Hd & Hm & ->).
  destruct (fixed_digits_split w n (take_chars k rest) Hn) as (_ & _ & ->).
  cbn [take_chars Nat.add]. rewrite digit_char_plain by assumption.
  rewrite IH by assumption. reflexivity.
Qed.

End DecimalFacts.

(** ** The timestamps the collector writes *)

Module IsoformatFacts.
Import PyDatetime PyCalendar TextFacts DecimalFacts.

Ltac read_on :=
  repeat (cbn [mbind option_bind list_ascii_of_string expect];
          rewrite ?Ascii.eqb_refl; cbn iota).

Lemma append_nil_l (s : string) : "" +:+ s = s.
Proof. reflexivity. Qed.

Lemma two_digits_app (n : Z) (tail : string) :
  0 <= n < 100 -> two_digits n +:+ tail = fixed_digits 2 n tail.
Proof.
  intros Hn. unfold two_digits. rewrite zero_pad_fixed by (simpl; lia).
  symmetry. apply fixed_digits_app.
Qed.

Lemma date_isoformat_fixed (d : date) (tail : string) :
  calendar_date d -> year d <= 9999 ->
  date_isoformat d +:+ tail
  = fixed_digits 4 (year d)
      (String "-" (fixed_digits 2 (month d) (String "-" (fixed_digits 2 (day d) tail)))).
Proof.
  intros (Hy & Hm & Hd) Hy'. unfold date_isoformat.
  assert (days_in_month (year d) (month d) <= 31) as Hdim.
  { unfold days_in_month.
    repeat match goal with |- context [if ?b then _ else _] => destruct b end; lia. }
  rewrite !zero_pad_fixed by (simpl; lia).
  rewrite (fixed_digits_app 4 _ (String _ _)), (fixed_digits_app 2 _ (String _ _)),
    (fixed_digits_app 2 _ tail).
  rewrite !append_assoc. reflexivity.
Qed.

Lemma valid_calendar_date (d : date) :
  calendar_date d -> year d <= 9999 -> valid_date d = true.
Proof.
  intros (Hy & Hm & Hd) Hy'. unfold valid_date.
  repeat (apply andb_true_iff; split); apply Z.leb_le; lia.
Qed.

Lemma date_parses (d : date) (tail : string) :
  calendar_date d -> year d <= 9999 ->
  parse_date (list_ascii_of_string (date_isoformat d +:+ tail))
  = Some (d, list_ascii_of_string tail).
Proof.
  intros Hd Hy. rewrite date_isoformat_fixed by assumption.
  pose proof (valid_calendar_date d Hd Hy) as Hv.
  destruct Hd as (Hy1 & Hm & Hday).
  assert (days_in_month (year d) (month d) <= 31) as Hdim.
  { unfold days_in_month.
    repeat match goal with |- context [if ?b then _ else _] => destruct b end; lia. }
  unfold parse_date.
  rewrite take_digits_fixed by (simpl; lia). read_on.
  rewrite take_digits_fixed by (simpl; lia). read_on.
  rewrite take_digits_fixed by (simpl; lia). read_on.
  rewrite !Z.mul_0_l, !Z.add_0_l.
  destruct d as [y m dd]. cbn [year month day] in *. rewrite Hv. reflexivity.
Qed.

Lemma time_parses (micro : Z) (tail : string) :
  0 <= micro < day_micro -> expect "." (list_ascii_of_string tail) = None ->
  parse_time (list_ascii_of_string (time_isoformat micro +:+ tail))
  = Some (micro, list_ascii_of_string tail).
Proof.
  unfold day_micro. intros Hm Htail. unfold time_isoformat.
  pose proof (Z.div_mod micro 1000000 ltac:(lia)) as Hus.
  pose proof (Z.mod_pos_bound micro 1000000 ltac:(lia)) as Hus'.
  remember (micro / 1000000) as seconds eqn:Hs.
  remember (micro mod 1000000) as us eqn:Hu.
  assert (0 <= seconds < 86400) as Hsec by lia.
  pose proof (Z.div_mod seconds 60 ltac:(lia)) as H1.
  pose proof (Z.mod_pos_bound seconds 60 ltac:(lia)) as H1'.
  pose proof (Z.div_mod (seconds / 60) 60 ltac:(lia)) as H2.
  pose proof (Z.mod_pos_bound (seconds / 60) 60 ltac:(lia)) as H2'.
  assert (seconds / 3600 = seconds / 60 / 60) as H3 by (rewrite Z.div_div by lia; reflexivity).
  rewrite H3.
  remember (seconds / 60 / 60) as h eqn:Hh.
  remember (seconds / 60 mod 60) as mi eqn:Hmi.
  remember (seconds mod 60) as sec eqn:Hse.
  assert (0 <= h <= 23) as Hh' by lia.
  rewrite !append_assoc, !append_cons, !append_nil_l.
  rewrite (two_digits_app h) by lia.
  rewrite (two_digits_app mi) by lia. rewrite (two_digits_app sec) by lia.
  unfold parse_time.
  rewrite take_digits_fixed by (simpl; lia). read_on.
  rewrite take_digits_fixed by (simpl; lia). read_on.
  rewrite take_digits_fixed by (simpl; lia). read_on.
  change (10 ^ Z.of_nat 2) with 100. rewrite !Z.mul_0_l, !Z.add_0_l.
  assert ((h <=? 23) && (mi <=? 59) && (sec <=? 59) = true) as Hok.
  { repeat (apply andb_true_iff; split); apply Z.leb_le; lia. }
  unfold parse_fraction. destruct (us =? 0) eqn:E.
  - apply Z.eqb_eq in E. rewrite append_nil_l.
    rewrite Htail. read_on. rewrite Hok. f_equal. f_equal. lia.
  - apply Z.eqb_neq in E. rewrite append_cons.
    rewrite zero_pad_fixed by (simpl; lia). rewrite <- fixed_digits_app. read_on.
    rewrite take_digits_fixed by (simpl; lia). read_on.
    rewrite Hok. f_equal. f_equal. lia.
Qed.

Lemma offset_parses (off : Z) :
  off mod 60 = 0 -> -86400 < off < 86400 ->
  parse_offset (list_ascii_of_string (offset_isoformat off)) = Some (off, []).
Proof.
  intros Hmod Hoff. unfold offset_isoformat.
  assert (Z.abs off mod 60 = 0) as Ha.
  { destruct (Z_lt_dec off 0).
    - rewrite Z.abs_neq by lia. apply Z.mod_opp_l_z; lia.
    - rewrite Z.abs_eq by lia. assumption. }
  assert (0 <= Z.abs off < 86400) as Hb by lia.
  remember (Z.abs off) as a eqn:Habs.
  rewrite Ha. change (0 =? 0) with true. cbn iota.
  pose proof (Z.div_mod a 60 ltac:(lia)) as H1.
  pose proof (Z.div_mod (a / 60) 60 ltac:(lia)) as H2.
  pose proof (Z.mod_pos_bound (a / 60) 60 ltac:(lia)) as H2'.
  assert (a / 3600 = a / 60 / 60) as H3 by (rewrite Z.div_div by lia; reflexivity).
  rewrite H3.
  remember (a / 60 / 60) as h eqn:Hh.
  remember (a / 60 mod 60) as mi eqn:Hmi.
  assert (0 <= h <= 23) as Hh' by lia.
  assert ((h <=? 23) && (mi <=? 59) = true) as Hok.
  { repeat (apply andb_true_iff; split); apply Z.leb_le; lia. }
  rewrite (two_digits_app mi) by lia.
  assert (forall sign : ascii,
    parse_offset (list_ascii_of_string
      (String sign "" +:+ two_digits h +:+ ":" +:+ fixed_digits 2 mi ""))
    = if Ascii.eqb sign "+" then Some ((h * 60 + mi) * 60, [])
      else if Ascii.eqb sign "-" then Some (- ((h * 60 + mi) * 60), [])
      else None) as Hsign.
  { intros sign. rewrite append_cons, append_nil_l, append_cons, append_nil_l.
    rewrite (two_digits_app h) by lia.
    cbn [list_ascii_of_string parse_offset].
    rewrite take_digits_fixed by (simpl; lia). read_on.
    rewrite take_digits_fixed by (simpl; lia). read_on.
    change (10 ^ Z.of_nat 2) with 100. rewrite !Z.mul_0_l, !Z.add_0_l.
    rewrite Hok. reflexivity. }
  destruct (off <? 0) eqn:E.
  - apply Z.ltb_lt in E. rewrite Hsign. change (Ascii.eqb "-" "+") with false.
    change (Ascii.eqb "-" "-") with true. cbn iota. f_equal. f_equal. lia.
  - apply Z.ltb_ge in E. rewrite Hsign. change (Ascii.eqb "+" "+") with true.
    cbn iota. f_equal. f_equal. lia.
Qed.

Lemma offset_isoformat_sign (off : Z) :
  exists c s, offset_isoformat off = String c s /\ Ascii.eqb "." c = false.
Proof.
  unfold offset_isoformat. destruct (off <? 0); rewrite append_cons; eauto.
Qed.

(** What [isoformat] writes, [fromisoformat] reads back. *)
Lemma isoformat_parses (t : datetime) :
  clock_reading t -> fromisoformat (datetime_isoformat t) = Ok t.
Proof.
  intros (Hd & Hy & Hm & Htz). unfold fromisoformat, datetime_isoformat, parse_isoformat.
  rewrite date_parses by assumption. read_on.
  rewrite append_cons, append_nil_l. cbn [list_ascii_of_string].
  change (Ascii.eqb "T" "T" || Ascii.eqb "T" " ") with true. cbn iota.
  destruct t as [d micro [off|]]; cbn [dt_date dt_micro tzinfo] in *.
  - destruct Htz as [Hmod Hoff].
    destruct (offset_isoformat_sign off) as (c & s & Hc & Hdot).
    rewrite time_parses;
      [|assumption|rewrite Hc; cbn [list_ascii_of_string expect]; now rewrite Hdot].
    read_on.
    pose proof (offset_parses off Hmod Hoff) as Hp.
    remember (list_ascii_of_string (offset_isoformat off)) as l eqn:Hl.
    destruct l as [|c' l]; [rewrite Hc in Hl; discriminate|].
    rewrite Hp. reflexivity.
  - rewrite time_parses; [|assumption|reflexivity]. reflexivity.
Qed.

(** The first ten characters of the text are the date. *)
Lemma isoformat_date_prefix (t : datetime) :
  clock_reading t -> take_chars 10 (datetime_isoformat t) = date_isoformat (dt_date t).
Proof.
  intros ((Hy1 & Hm & Hday) & Hy & _). unfold datetime_isoformat.
  assert (days_in_month (year (dt_date t)) (month (dt_date t)) <= 31) as Hdim.
  { unfold days_in_month.
    repeat match goal with |- context [if ?b then _ else _] => destruct b end; lia. }
  rewrite date_isoformat_fixed by (repeat split; lia).
  rewrite <- (append_nil_r (date_isoformat (dt_date t))).
  rewrite date_isoformat_fixed by (repeat split; lia).
  rewrite (take_chars_fixed 4 6) by (simpl; lia).
  cbn [take_chars]. change (is_continuation "-") with false. cbn iota.
  rewrite (take_chars_fixed 2 3) by (simpl; lia).
  cbn [take_chars]. change (is_continuation "-") with false. cbn iota.
  rewrite (take_chars_fixed 2 0) by (simpl; lia).
  rewrite append_cons. cbn [take_chars]. change (is_continuation "T") with false.
  reflexivity.
Qed.

End IsoformatFacts.

(** ** The days of the daily statistics *)

Module DailyBucketFacts.
Import PyDatetime PyCalendar MetricsProcessor MetricsFacts TextFacts IsoformatFacts.

Lemma parse_date_valid (s rest : list ascii) (d : date) :
  parse_date s = Some (d, rest) -> valid_date d = true.
Proof.
  unfold parse_date. intros H.
  destruct (take_digits 4 s 0) as [[y s1]|]; [|discriminate]. cbn [mbind option_bind] in H.
  destruct (expect "-" s1) as [s2|]; [|discriminate]. cbn [mbind option_bind] in H.
  destruct (take_digits 2 s2 0) as [[m s3]|]; [|discriminate]. cbn [mbind option_bind] in H.
  destruct (expect "-" s3) as [s4|]; [|discriminate]. cbn [mbind option_bind] in H.
  destruct (take_digits 2 s4 0) as [[dd s5]|]; [|discriminate]. cbn [mbind option_bind] in H.
  destruct (valid_date (Date y m dd)) eqn:V; [|discriminate].
  assert (d = Date y m dd) as -> by congruence. exact V.
Qed.

(** The date that [fromisoformat] reads is a date of the calendar. *)
Lemma parsed_date_valid (s : string) (t : datetime) :
  fromisoformat s = Ok t -> valid_date (dt_date t) = true.
Proof.
  unfold fromisoformat.
  destruct (parse_isoformat (list_ascii_of_string s)) as [t'|] eqn:E; [|discriminate].
  intros [= <-]. unfold parse_isoformat in E.
  destruct (parse_date (list_ascii_of_string s)) as [[d rest]|] eqn:Ed; [|discriminate].
  apply parse_date_valid in Ed. cbn [mbind option_bind] in E.
  assert (dt_date t' = d) as ->; [|exact Ed].
  destruct rest as [|sep rest]; [now injection E as <-|].
  destruct (Ascii.eqb sep "T" || Ascii.eqb sep " "); [|discriminate].
  destruct (parse_time rest) as [[us rest']|]; [|discriminate].
  cbn [mbind option_bind] in E.
  destruct rest' as [|c rest']; [now injection E as <-|].
  destruct (parse_offset (c :: rest')) as [[off rest'']|]; [|discriminate].
  cbn [mbind option_bind] in E.
  destruct rest''; [now injection E as <-|discriminate].
Qed.

Lemma valid_date_calendar (d : date) :
  valid_date d = true -> calendar_date d /\ year d <= 9999.
Proof.
  unfold valid_date, calendar_date. rewrite !andb_true_iff, !Z.leb_le. tauto.
Qed.

(** Two dates of the calendar with the same text are the same date. *)
Lemma date_isoformat_inj (d1 d2 : date) :
  valid_date d1 = true -> valid_date d2 = true ->
  date_isoformat d1 = date_isoformat d2 -> d1 = d2.
Proof.
  intros H1 H2 Heq.
  apply valid_date_calendar in H1 as [H1 Hy1], H2 as [H2 Hy2].
  pose proof (date_parses d1 "" H1 Hy1) as P1.
  pose proof (date_parses d2 "" H2 Hy2) as P2.
  rewrite append_nil_r in P1, P2. rewrite Heq in P1. congruence.
Qed.

Lemma written_on_nonneg (d : date) (commits : list commit) :
  0 <= commits_written_on d commits.
Proof. unfold commits_written_on. lia. Qed.

Lemma written_on_cons (d : date) (c : commit) (commits : list commit) (t : datetime) :
  fromisoformat (commit_date c) = Ok t ->
  commits_written_on d (c :: commits)
  = (if bool_decide (dt_date t = d) then 1 else 0) + commits_written_on d commits.
Proof.
  intros Ht. unfold commits_written_on. cbn [List.filter]. rewrite Ht.
  destruct (bool_decide (dt_date t = d)); cbn [length]; lia.
Qed.

(** The commits filed under the text of a date are the commits written
    with this date. *)
Lemma commits_on_written (d : date) (commits : list commit) :
  valid_date d = true ->
  Forall (fun c => exists t, fromisoformat (commit_date c) = Ok t) commits ->
  commits_on (date_isoformat d) commits = commits_written_on d commits.
Proof.
  intros Hd Hall. induction Hall as [|c commits [t Ht] _ IH].
  - reflexivity.
  - rewrite (commits_on_cons (date_isoformat d) c commits (date_isoformat (dt_date t))),
      (written_on_cons d c commits t Ht), IH.
    + f_equal. destruct (decide (dt_date t = d)) as [->|Hne].
      * now rewrite String.eqb_refl, bool_decide_true.
      * rewrite bool_decide_false by assumption.
        destruct (String.eqb_spec (date_isoformat (dt_date t)) (date_isoformat d)) as [E|];
          [|reflexivity].
        apply date_isoformat_inj in E; [contradiction| |assumption].
        exact (parsed_date_valid _ _ Ht).
    + unfold date_key. now rewrite Ht.
Qed.

(** A date text with commits is the text of the date of one of them. *)
Lemma commits_on_positive (key : string) (commits : list commit) :
  0 < commits_on key commits ->
  exists c t, In c commits /\ fromisoformat (commit_date c) = Ok t
              /\ key = date_isoformat (dt_date t).
Proof.
  unfold commits_on. induction commits as [|c commits IH]; cbn [List.filter length].
  - lia.
  - unfold date_key at 1.
    destruct (fromisoformat (commit_date c)) as [t|e] eqn:Et; cbn [bind].
    + destruct (String.eqb_spec (date_isoformat (dt_date t)) key) as [<-|Hne].
      * intros _. exists c, t. auto using in_eq.
      * intros H. destruct (IH H) as (c' & t' & Hin & Ht' & Hk).
        exists c', t'. auto using in_cons.
    + intros H. destruct (IH H) as (c' & t' & Hin & Ht' & Hk).
      exists c', t'. auto using in_cons.
Qed.

Lemma written_on_member (c : commit) (t : datetime) (commits : list commit) :
  In c commits -> fromisoformat (commit_date c) = Ok t ->
  0 < commits_written_on (dt_date t) commits.
Proof.
  intros Hin Ht. unfold commits_written_on.
  assert (In c (List.filter
                  (fun c => match fromisoformat (commit_date c) with
                            | Ok t' => bool_decide (dt_date t' = dt_date t)
                            | Raise _ => false
                            end) commits)) as H.
  { apply filter_In. split; [assumption|]. rewrite Ht. now apply bool_decide_true. }
  destruct (List.filter _ commits); [contradiction|]. cbn [length]. lia.
Qed.

Lemma written_on_positive (d : date) (commits : list commit) :
  0 < commits_written_on d commits -> valid_date d = true.
Proof.
  unfold commits_written_on. intros H.
  destruct (List.filter _ commits) as [|c l] eqn:E; [cbn in H; lia|].
  assert (In c (c :: l)) as Hin by apply in_eq. rewrite <- E in Hin.
  apply filter_In in Hin as [_ Hc].
  destruct (fromisoformat (commit_date c)) as [t|] eqn:Et; [|discriminate].
  apply bool_decide_eq_true in Hc as <-. exact (parsed_date_valid _ _ Et).
Qed.

(** The days of the daily statistics, by the text of their date. *)
Lemma buckets_by_key (commits : list commit) :
  Forall (fun c => exists t, fromisoformat (commit_date c) = Ok t) commits ->
  exists r,
    calculate_daily_stats commits = Ok r
    /\ forall key n,
         In (key, n) (commits_per_day r) <-> 0 < n /\ n = commits_on key commits.
Proof.
  intros Hall.
  destruct (count_by_date_ok commits ∅ Hall) as [m Hm].
  unfold calculate_daily_stats. rewrite Hm. simpl.
  eexists. split; [reflexivity|]. simpl.
  intros key n.
  rewrite <- list_elem_of_In, py_sort_perm, elem_of_map_to_list.
  rewrite (count_by_date_lookup _ _ _ key Hm), lookup_empty. simpl.
  pose proof (commits_on_nonneg key commits).
  destruct (commits_on key commits =? 0) eqn:E.
  - apply Z.eqb_eq in E. split; [discriminate|lia].
  - apply Z.eqb_neq in E. split.
    + intros [= <-]. lia.
    + intros [_ ->]. reflexivity.
Qed.

(** C7 (amended): for every list of commit records with well-formed ISO
    timestamps the daily bucketing returns, and it files each commit under
    the calendar date written in its timestamp, that is the date at the
    timestamp's own offset, with no conversion to UTC: the list of days
    holds a date text with a count exactly when the text is that of a date,
    the count is positive and is the number of commits whose timestamp, as
    it is read, has this date; so two commits whose timestamps are written
    with different dates are counted under different days, also when they
    are at the same instant. *)
Theorem daily_buckets (commits : list commit) :
  Forall (fun c => exists t, fromisoformat (commit_date c) = Ok t) commits ->
  exists r,
    calculate_daily_stats commits = Ok r
    /\ (forall key n,
          In (key, n) (commits_per_day r)
          <-> exists d, key = date_isoformat d
                        /\ 0 < n /\ n = commits_written_on d commits)
    /\ (forall c1 c2 t1 t2,
          In c1 commits -> In c2 commits ->
          fromisoformat (commit_date c1) = Ok t1 ->
          fromisoformat (commit_date c2) = Ok t2 ->
          dt_date t1 <> dt_date t2 ->
          date_isoformat (dt_date t1) <> date_isoformat (dt_date t2)
          /\ In (date_isoformat (dt_date t1), commits_written_on (dt_date t1) commits)
                (commits_per_day r)
          /\ In (date_isoformat (dt_date t2), commits_written_on (dt_date t2) commits)
                (commits_per_day r)).
Proof.
  intros Hall. destruct (buckets_by_key commits Hall) as (r & Hr & Hkeys).
  exists r. split; [exact Hr|].
  assert (forall key n,
            In (key, n) (commits_per_day r)
            <-> exists d, key = date_isoformat d
                          /\ 0 < n /\ n = commits_written_on d commits) as Hdates.
  { intros key n. rewrite Hkeys. split.
    - intros [Hn ->]. destruct (commits_on_positive key commits Hn) as (c & t & _ & Ht & ->).
      exists (dt_date t). split; [reflexivity|]. split; [assumption|].
      apply commits_on_written; [|assumption]. exact (parsed_date_valid _ _ Ht).
    - intros (d & -> & Hn & ->). split; [assumption|]. symmetry.
      apply commits_on_written; [|assumption].
      now apply (written_on_positive d commits). }
  split; [exact Hdates|].
  intros c1 c2 t1 t2 Hin1 Hin2 Ht1 Ht2 Hne. split; [|split].
  - intros E. apply Hne.
    apply date_isoformat_inj; eauto using parsed_date_valid.
  - apply Hdates. exists (dt_date t1). split; [reflexivity|].
    split; [|reflexivity]. now apply (written_on_member c1).
  - apply Hdates. exists (dt_date t2). split; [reflexivity|].
    split; [|reflexivity]. now apply (written_on_member c2).
Qed.

(** A witness for C7: two commits at one instant, written with two dates. *)
Lemma daily_buckets_witness :
  exists r,
    calculate_daily_stats [late_evening; same_instant_utc] = Ok r
    /\ (forall key n,
          In (key, n) (commits_per_day r)
          <-> exists d, key = date_isoformat d
                        /\ 0 < n
                        /\ n = commits_written_on d [late_evening; same_instant_utc])
    /\ (forall c1 c2 t1 t2,
          In c1 [late_evening; same_instant_utc] ->
          In c2 [late_evening; same_instant_utc] ->
          fromisoformat (commit_date c1) = Ok t1 ->
          fromisoformat (commit_date c2) = Ok t2 ->
          dt_date t1 <> dt_date t2 ->
          date_isoformat (dt_date t1) <> date_isoformat (dt_date t2)
          /\ In (date_isoformat (dt_date t1),
                 commits_written_on (dt_date t1) [late_evening; same_instant_utc])
                (commits_per_day r)
          /\ In (date_isoformat (dt_date t2),
                 commits_written_on (dt_date t2) [late_evening; same_instant_utc])
                (commits_per_day r)).
Proof.
  apply (daily_buckets [late_evening; same_instant_utc]).
  repeat constructor; eexists; reflexivity.
Defined.

(** The two commits are at the same instant, and each has its own day. *)
Example same_instant_two_days :
  (exists t1 t2,
      fromisoformat (commit_date late_evening) = Ok t1
      /\ fromisoformat (commit_date same_instant_utc) = Ok t2
      /\ utc_micros t1 = utc_micros t2)
  /\ (let* r := calculate_daily_stats [late_evening; same_instant_utc] in
      Ok (commits_per_day r))
     = Ok [("2024-01-01", 1); ("2024-01-02", 1)].
Proof. split; [eexists _, _; repeat split; reflexivity | reflexivity]. Qed.

End DailyBucketFacts.

(** ** daily_metrics.py: the commits the collector stores *)

Module CollectedFacts.
Import PyDatetime PyCalendar MetricsProcessor DailyMetrics IsoformatFacts.

Lemma collected_date_key (c : commit) :
  collected c -> date_key c = Ok (take_chars 10 (commit_date c)).
Proof.
  intros (t & Ht & Hc). unfold date_key. rewrite Hc, isoformat_parses by assumption.
  cbn [bind]. now rewrite isoformat_date_prefix.
Qed.

Lemma count_by_date_collected (commits : list commit) (m : gmap string Z) :
  Forall collected commits ->
  count_by_date commits m
  = Ok (foldl (fun counts c => add_one (take_chars 10 (commit_date c)) counts) m commits).
Proof.
  intros H. revert m. induction H as [|c commits Hc _ IH]; intros m; [reflexivity|].
  cbn [count_by_date foldl]. rewrite collected_date_key by assumption. cbn [bind].
  apply IH.
Qed.

(** X17: The commits that the collector stores (their date is the
    [isoformat] text of a clock reading) are filed under the same days by
    both programs: [calculate_daily_stats] reads every date without
    raising and its key is the first ten characters of the text, the key of
    [collect_metrics], so that the two dictionaries of commits per day are
    the same. *)
Theorem collected_commits_fall_on_the_same_days (commits : list commit) :
  Forall collected commits ->
  count_by_date commits ∅ = Ok (commits_by_date commits)
  /\ Forall (fun c => date_key c = Ok (take_chars 10 (commit_date c))) commits.
Proof.
  intros H. split; [now apply count_by_date_collected|].
  apply List.Forall_forall. intros c Hc. apply collected_date_key.
  now apply (proj1 (List.Forall_forall _ _) H).
Qed.

(** A witness for X17: the two commits of the scenario. *)
Lemma collected_commits_fall_on_the_same_days_witness :
  count_by_date same_day_commits ∅ = Ok (commits_by_date same_day_commits)
  /\ Forall (fun c => date_key c = Ok (take_chars 10 (commit_date c))) same_day_commits.
Proof.
  apply (collected_commits_fall_on_the_same_days same_day_commits).
  repeat constructor.
  - exists morning. split; [|reflexivity].
    repeat split; try reflexivity; vm_compute; discriminate.
  - exists last_second. split; [|reflexivity].
    repeat split; try reflexivity; vm_compute; discriminate.
Defined.

Example same_day_count :
  count_by_date same_day_commits ∅ = Ok {[ "2024-01-26" := 2 ]}.
Proof. reflexivity. Qed.

End CollectedFacts.

(** ** daily_metrics.py: the featured projects *)

Module FeaturedFacts.
Import DailyMetrics LanguagesFacts.

(** X18: The featured projects are at most six public repositories, by
    descending relevance; they are the most relevant of the public ones:
    every public repository is featured or left out, one left out is no
    more relevant than any featured one, and none is left out unless six
    are featured. *)
Theorem featured_are_the_most_relevant (repos : list repo) :
  let public_repos := List.filter (fun r => negb (is_private r)) repos in
  let top := top_repos repos in
  (length top <= 6)%nat
  /\ Forall (fun r => is_private r = false) top
  /\ RankingsProcessor.descending relevance top
  /\ exists rest,
       Permutation public_repos (top ++ rest)
       /\ (forall x y, In x top -> In y rest -> relevance y <= relevance x)
       /\ (rest <> [] -> length top = 6%nat).
Proof.
  cbv zeta. unfold top_repos.
  destruct (top_of_sorted relevance 6 (List.filter (fun r => negb (is_private r)) repos))
    as (rest & Hp & Hd & Hr & Hl).
  split; [rewrite length_take; lia|]. split.
  - apply List.Forall_forall. intros r Hr'.
    assert (In r (List.filter (fun r => negb (is_private r)) repos)) as Hin.
    { eapply Permutation_in; [symmetry; exact Hp|]. apply in_app_iff. now left. }
    apply filter_In in Hin as [_ Hin]. now apply negb_true_iff in Hin.
  - split; [exact Hd|]. exists rest. auto.
Qed.

End FeaturedFacts.

(** ** activity_calendar_generator.py: the thirty days of the grid *)

Module CalendarDaysFacts.
Import PyDatetime ActivityCalendarGenerator CalendarDays PyCalendarFacts TextFacts.

Lemma strftime_Y_m_d_not_empty (t : datetime) : strftime_Y_m_d t <> "".
Proof.
  unfold strftime_Y_m_d. destruct (year_text t) as [|c s]; [|rewrite append_cons];
    discriminate.
Qed.

Lemma commits_map_recorded (key : string) (daily_stats : list day_stat) :
  key <> "" ->
  default 0 (foldl record_day ∅ daily_stats !! key) = recorded key daily_stats.
Proof.
  intros Hkey. unfold recorded.
  induction daily_stats as [|s daily_stats IH] using rev_ind; [reflexivity|].
  rewrite foldl_app, rev_app_distr. cbn [foldl rev app List.find].
  unfold record_day at 1.
  destruct (String.eqb (default "" (ds_date s)) "") eqn:Eempty.
  - apply String.eqb_eq in Eempty. rewrite Eempty.
    destruct (String.eqb "" key) eqn:E; [apply String.eqb_eq in E; congruence|].
    exact IH.
  - destruct (String.eqb (default "" (ds_date s)) key) eqn:E.
    + apply String.eqb_eq in E. rewrite E, lookup_insert_eq. reflexivity.
    + apply String.eqb_neq in E. rewrite lookup_insert_ne by assumption. exact IH.
Qed.

Lemma map_result_returns {A B : Type} (f : A -> result B) (g : A -> B) (l : list A) :
  (forall x, In x l -> f x = Ok (g x)) -> map_result f l = Ok (map g l).
Proof.
  induction l as [|x l IH]; intros H; [reflexivity|].
  cbn [map_result map]. rewrite (H x) by now left. cbn [bind].
  rewrite IH by (intros y Hy; apply H; now right). reflexivity.
Qed.

Lemma days_back_range (i : Z) : In i days_back -> 0 <= i <= 29.
Proof.
  unfold days_back. intros H. apply in_map_iff in H as (n & <- & Hn).
  apply in_rev, in_seq in Hn. lia.
Qed.

Lemma days_back_ordinals (today : Z) :
  map (fun i => today - i) days_back = map (fun i => today - 29 + Z.of_nat i) (seq 0 30).
Proof.
  unfold days_back. cbn [seq rev app map Z.of_nat Pos.of_succ_nat Pos.succ].
  repeat (f_equal; [lia|]). f_equal. lia.
Qed.

Lemma calendar_days (now : datetime) (daily_stats : list day_stat) :
  30 <= toordinal (dt_date now) ->
  exists days,
    map_result (day_entry now (foldl record_day ∅ daily_stats)) days_back = Ok days
    /\ map (fun d => toordinal (dt_date (date d))) days
       = map (fun i => toordinal (dt_date now) - 29 + Z.of_nat i) (seq 0 30)
    /\ Forall (fun d => date_str d = strftime_Y_m_d (date d)
                        /\ count d = recorded (date_str d) daily_stats) days.
Proof.
  intros Hnow.
  set (commits_map := foldl record_day ∅ daily_stats).
  set (g := fun i =>
    let date := DateTime (fromordinal (toordinal (dt_date now) - i)) (dt_micro now)
                         (tzinfo now) in
    DayData date (strftime_Y_m_d date) (default 0 (commits_map !! strftime_Y_m_d date))
            (day (dt_date date))).
  assert (forall i, In i days_back -> day_entry now commits_map i = Ok (g i)) as Hg.
  { intros i Hi. apply days_back_range in Hi. unfold day_entry, minus_days.
    destruct (1 <=? toordinal (dt_date now) - i) eqn:E; [|apply Z.leb_gt in E; lia].
    reflexivity. }
  exists (map g days_back). split; [now apply map_result_returns|]. split.
  - rewrite map_map, <- days_back_ordinals. apply map_ext_in. intros i Hi.
    apply days_back_range in Hi. unfold g. cbn [date dt_date].
    apply (fromordinal_spec (toordinal (dt_date now) - i)). lia.
  - apply List.Forall_forall. intros d Hd. apply in_map_iff in Hd as (i & <- & _).
    unfold g. cbn [date date_str count]. split; [reflexivity|].
    apply commits_map_recorded, strftime_Y_m_d_not_empty.
Qed.

(** X19: from the 30th of January of the year 1 on, the days of the grid
    that the calendar prepares are the thirty consecutive days that end
    today, the oldest first; each day is looked up under its text %Y-%m-%d
    and holds the count of the last entry of [commits_per_day] with this
    date (0 when the entry has no count), or 0 when there is none.  Earlier
    than that, the first day of the grid would fall before the year 1 and
    the generator raises [OverflowError]. *)
Theorem calendar_grid_is_the_last_thirty_days (theme : theme) (now : datetime)
    (metrics : metrics) :
  (30 <= toordinal (dt_date now) ->
   exists days,
     map_result (day_entry now (foldl record_day ∅ (commits_per_day metrics))) days_back
     = Ok days
     /\ map (fun d => toordinal (dt_date (date d))) days
        = map (fun i => toordinal (dt_date now) - 29 + Z.of_nat i) (seq 0 30)
     /\ Forall (fun d => date_str d = strftime_Y_m_d (date d)
                         /\ count d = recorded (date_str d) (commits_per_day metrics)) days)
  /\ (toordinal (dt_date now) < 30 ->
      generate_activity_calendar theme now metrics = Raise OverflowError).
Proof.
  split.
  - intros Hnow. exact (calendar_days now (commits_per_day metrics) Hnow).
  - intros Hnow. unfold generate_activity_calendar.
    change days_back with (29 :: map Z.of_nat (rev (seq 0 29))).
    cbn [map_result]. unfold day_entry at 1, minus_days.
    destruct (1 <=? toordinal (dt_date now) - 29) eqn:E; [apply Z.leb_le in E; lia|].
    reflexivity.
Qed.

(** A witness for X19: the morning of the 10th of January 2024. *)
Lemma calendar_grid_is_the_last_thirty_days_witness :
  exists days,
    map_result (day_entry jan_10_morning (foldl record_day ∅ (commits_per_day three_entries)))
               days_back = Ok days
    /\ map (fun d => toordinal (dt_date (date d))) days
       = map (fun i => toordinal (dt_date jan_10_morning) - 29 + Z.of_nat i) (seq 0 30)
    /\ Forall (fun d => date_str d = strftime_Y_m_d (date d)
                        /\ count d = recorded (date_str d) (commits_per_day three_entries))
              days.
Proof.
  apply (proj1 (calendar_grid_is_the_last_thirty_days dark jan_10_morning three_entries)).
  vm_compute. discriminate.
Defined.

Example last_entry_of_a_day_wins :
  (let* days := map_result (day_entry jan_10_morning
                              (foldl record_day ∅ (commits_per_day three_entries)))
                           days_back in
   Ok (map (fun d => (date_str d, count d)) (drop 27 days)))
  = Ok [("2024-01-08", 0); ("2024-01-09", 5); ("2024-01-10", 0)].
Proof. vm_compute. reflexivity. Qed.

End CalendarDaysFacts.

(** ** enhanced_svg_renderer.py: the lines of the performance comparison *)

Module PerformanceFacts.
Import PerformanceComparison.

Lemma commits_of_days_app (a b : list activity_day) :
  commits_of_days (a ++ b) = commits_of_days a + commits_of_days b.
Proof. induction a as [|d a IH]; cbn [commits_of_days app]; lia. Qed.

Lemma cumulative_spec (month_data : list activity_day) :
  foldl cumulative_step (0, []) month_data
  = (commits_of_days month_data,
     map (commits_until month_data) (seq 0 (length month_data))).
Proof.
  induction month_data as [|d l IH] using rev_ind; [reflexivity|].
  rewrite foldl_app. cbn [foldl]. rewrite IH. unfold cumulative_step. cbn [fst snd].
  rewrite commits_of_days_app. cbn [commits_of_days]. rewrite Z.add_0_r.
  f_equal. rewrite length_app, Nat.add_1_r, seq_S, map_app. cbn [map Nat.add].
  f_equal.
  - apply map_ext_in. intros k Hk. apply in_seq in Hk. unfold commits_until.
    rewrite take_app_le by lia. reflexivity.
  - unfold commits_until. rewrite take_ge by (rewrite length_app; cbn [length]; lia).
    rewrite commits_of_days_app. cbn [commits_of_days]. now rewrite Z.add_0_r.
Qed.

Lemma pad_loop_spec (turns : nat) (daily : list Z) :
  (31 - length daily <= turns)%nat ->
  pad_loop turns daily
  = daily ++ replicate (31 - length daily) (default 0 (last daily)).
Proof.
  revert daily. induction turns as [|turns IH]; intros daily Hl.
  - cbn [pad_loop]. replace (31 - length daily)%nat with 0%nat by lia.
    cbn [replicate]. now rewrite app_nil_r.
  - cbn [pad_loop]. destruct (length daily <? 31)%nat eqn:E.
    + apply Nat.ltb_lt in E. rewrite IH by (rewrite length_app; cbn [length]; lia).
      rewrite last_snoc, length_app. cbn [length from_option id].
      replace (31 - length daily)%nat with (S (31 - (length daily + 1))) by lia.
      cbn [replicate]. now rewrite <- app_assoc.
    + apply Nat.ltb_ge in E. replace (31 - length daily)%nat with 0%nat by lia.
      cbn [replicate]. now rewrite app_nil_r.
Qed.

Lemma commits_until_all (month_data : list activity_day) (n m : nat) :
  (length month_data <= S n)%nat ->
  map (commits_until month_data) (seq n m) = replicate m (commits_of_days month_data).
Proof.
  revert n. induction m as [|m IH]; intros n Hn; [reflexivity|].
  cbn [seq map replicate]. rewrite IH by lia. f_equal.
  unfold commits_until. now rewrite take_ge by lia.
Qed.

Lemma month_line_spec (month_data : list activity_day) :
  month_line month_data
  = map (commits_until month_data) (seq 0 (Nat.max 31 (length month_data))).
Proof.
  unfold month_line, process_daily_commits. rewrite cumulative_spec. cbn [snd].
  destruct month_data as [|d l]; [reflexivity|].
  remember (d :: l) as month_data eqn:Hm.
  assert (1 <= length month_data)%nat as Hlen by (subst; cbn [length]; lia).
  remember (map (commits_until month_data) (seq 0 (length month_data))) as cumulative
    eqn:Hc.
  assert (length cumulative = length month_data) as Hlc
    by (subst cumulative; now rewrite length_map, length_seq).
  assert (last cumulative = Some (commits_of_days month_data)) as Hlast.
  { subst cumulative. destruct (length month_data) as [|n] eqn:En; [lia|].
    rewrite seq_S, map_app. cbn [map Nat.add]. rewrite last_snoc.
    unfold commits_until. now rewrite take_ge by lia. }
  destruct cumulative as [|c cumulative]; [cbn [length] in Hlc; lia|].
  rewrite pad_loop_spec by lia. rewrite Hlast, Hlc. cbn [from_option id].
  replace (Nat.max 31 (length month_data))
    with (length month_data + (31 - length month_data))%nat by lia.
  rewrite seq_app, map_app, <- Hc. f_equal.
  cbn [Nat.add]. symmetry. apply commits_until_all. lia.
Qed.

(** X20: The line of a month in the performance comparison has a point
    for each recorded day, 31 points at least; point [k] is the number of
    commits of the month up to its recorded day [k], days without a count
    adding nothing, so that the points past the last recorded day repeat
    the month's total, and the total shown beside the line is the sum of
    the month's commits (0 for a month without days). *)
Theorem month_line_accumulates (month_data : list activity_day) :
  month_line month_data
  = map (commits_until month_data) (seq 0 (Nat.max 31 (length month_data)))
  /\ month_commits month_data = commits_of_days month_data.
Proof.
  split; [apply month_line_spec|].
  unfold month_commits. rewrite month_line_spec.
  destruct (Nat.max 31 (length month_data)) as [|n] eqn:En; [lia|].
  rewrite seq_S, map_app. cbn [map Nat.add]. rewrite last_snoc. cbn [from_option id].
  unfold commits_until. now rewrite take_ge by lia.
Qed.

Example two_days_line :
  month_line two_days = 3 :: replicate 30 7 /\ month_commits two_days = 7.
Proof. split; reflexivity. Qed.

End PerformanceFacts.

(** ** career_timeline_generator.py: the texts cut to a card *)

Module CardTextFacts.
Import CareerCards TextFacts.

Lemma py_len_nonneg (s : string) : 0 <= py_len s.
Proof.
  induction s as [|c s IH]; cbn [py_len]; [lia|]. destruct (is_continuation c); lia.
Qed.

Lemma py_len_app (a b : string) : py_len (a +:+ b) = py_len a + py_len b.
Proof.
  induction a as [|c a IH]; [reflexivity|]. rewrite append_cons. cbn [py_len]. lia.
Qed.

Lemma py_len_take_chars (n : nat) (s : string) :
  py_len (take_chars n s) = Z.min (Z.of_nat n) (py_len s).
Proof.
  revert n. induction s as [|c s IH]; intros n.
  - cbn [take_chars py_len]. lia.
  - pose proof (py_len_nonneg s) as Hs. cbn [take_chars py_len].
    destruct (is_continuation c) eqn:Ec.
    + cbn [py_len]. rewrite Ec, IH. lia.
    + destruct n as [|n]; cbn [py_len]; [lia|]. rewrite Ec, IH. lia.
Qed.

(** X21: A title, a company or a description cut to its card never has
    more characters than the limit of the card (3 at least): a text within
    the limit is kept as it is, a longer one comes out with exactly as many
    characters as the limit, the three dots included. *)
Theorem shortened_text_fits (limit : nat) (text : string) :
  (3 <= limit)%nat ->
  py_len (shorten limit text) = Z.min (py_len text) (Z.of_nat limit)
  /\ (py_len text <= Z.of_nat limit -> shorten limit text = text).
Proof.
  intros Hl. unfold shorten. destruct (Z.of_nat limit <? py_len text) eqn:E.
  - apply Z.ltb_lt in E. split; [|lia].
    rewrite py_len_app, py_len_take_chars. change (py_len "...") with 3. lia.
  - apply Z.ltb_ge in E. split; [lia | reflexivity].
Qed.

(** A witness for X21: a title of 38 characters on a card of 28. *)
Lemma shortened_text_fits_witness :
  py_len (shorten 28 "Senior Software Engineer and Team Lead") = Z.min 38 28
  /\ (py_len "Senior Software Engineer and Team Lead" <= 28 ->
      shorten 28 "Senior Software Engineer and Team Lead"
      = "Senior Software Engineer and Team Lead").
Proof.
  apply (shortened_text_fits 28 "Senior Software Engineer and Team Lead"). lia.
Defined.

Example long_title_on_the_card :
  card_title (Some "Research & Development Engineer II")
  = "Research &amp; Development En...".
Proof. reflexivity. Qed.

End CardTextFacts.
